(** * Engine communication and move orchestration of the browser chess app

    A shallow embedding of [src/app.js]: the [EngineManager] class (worker /
    main-thread Stockfish adapter speaking the UCI line protocol) and the
    [ChessApp] class (turn taking between the human, the rules engine and the
    chess engine).

    JavaScript objects are mutable; every method below is a function from
    the state before the call to the state after it.  Host effects that the
    program cannot observe afterwards (messages posted to the engine, console
    output, DOM rebuilds, ...) are appended to an effect log, and pending
    [setTimeout] / [setInterval] callbacks are kept in a timer list. *)

From Stdlib Require Import String Ascii List Bool Arith ZArith QArith Qround Lia.
From Stdlib Require Import DecimalString.
Import ListNotations.
Close Scope Q_scope.
Open Scope string_scope.

(** ** The JavaScript operations used by the program

    A string is the sequence of its UTF-16 code units, every one of them
    below 256: one character of a [string] per code unit. *)

Module JS.

(** [s.split(sep)] for a one-character separator: always at least one
    field, and an empty field between two adjacent separators. *)
Fixpoint split (sep : ascii) (s : string) : list string :=
  match s with
  | EmptyString => [EmptyString]
  | String c rest =>
      if Ascii.eqb c sep then EmptyString :: split sep rest
      else match split sep rest with
           | [] => [String c EmptyString]
           | field :: fields => String c field :: fields
           end
  end.

(** [s.startsWith(p)]. *)
Definition startsWith (p s : string) : bool := String.prefix p s.

(** [s.substring(a, b)]: indices are clamped to the length and swapped
    when [a > b]. *)
Definition substring (a b : nat) (s : string) : string :=
  String.substring (Nat.min a b) (Nat.max a b - Nat.min a b) s.

(** Truthiness of a value that is a string, [undefined] or [null]
    ([None]): only a non-empty string is truthy. *)
Definition truthy (v : option string) : bool :=
  match v with
  | Some (String _ _) => true
  | _ => false
  end.

(** Strict equality [a === b] of two such values. *)
Definition strict_eq (a b : option string) : bool :=
  match a, b with
  | Some x, Some y => String.eqb x y
  | None, None => true
  | _, _ => false
  end.

(** The white space [parseInt] skips, among the code units below 256: tab,
    line feed, vertical tab, form feed, carriage return, space and the
    no-break space U+00A0. *)
Definition isWhiteSpace (c : ascii) : bool :=
  match nat_of_ascii c with
  | 9 | 10 | 11 | 12 | 13 | 32 => true
  | n => (n =? 160)%nat
  end.

Fixpoint trimStart (s : string) : string :=
  match s with
  | String c rest => if isWhiteSpace c then trimStart rest else s
  | EmptyString => s
  end.

Definition digitValue (c : ascii) : option Z :=
  let n := Z.of_nat (nat_of_ascii c) in
  (if (48 <=? n) && (n <=? 57) then Some (n - 48)
   else if (97 <=? n) && (n <=? 122) then Some (n - 87)
   else if (65 <=? n) && (n <=? 90) then Some (n - 55)
   else None)%Z.

(** The longest prefix of digits below [radix]; [acc] is [None] until a
    digit has been read. *)
Fixpoint digits (radix : Z) (s : string) (acc : option Z) : option Z :=
  match s with
  | EmptyString => acc
  | String c rest =>
      match digitValue c with
      | Some d =>
          if (d <? radix)%Z
          then digits radix rest
                 (Some (match acc with Some a => a * radix + d | None => d end)%Z)
          else acc
      | None => acc
      end
  end.

(** *** Doubles

    A double that is not negative is a fraction of two integers here.  The
    result of an operation is the double nearest to the exact result, the
    one with the even significand on a tie. *)

(** [N / D] times [2^s], for any integer [s]. *)
Definition scale2 (N D s : Z) : Z * Z :=
  (if 0 <=? s then (N * 2 ^ s, D) else (N, D * 2 ^ (- s)))%Z.

(** The integer nearest to [N / D], for [D > 0]; the even one on a tie. *)
Definition round_half_even (N D : Z) : Z :=
  (let q := N / D in
   match 2 * (N mod D) ?= D with
   | Lt => q
   | Gt => q + 1
   | Eq => if Z.even q then q else q + 1
   end)%Z.

(** The binary exponent of [N / D > 0]: the [e] with
    [2^e <= N / D < 2^(e+1)]. *)
Definition exponent (N D : Z) : Z :=
  (let e := Z.log2 N - Z.log2 D in
   let (A, B) := scale2 N D (- e) in
   if B <=? A then e else e - 1)%Z.

(** The double nearest to [N / D >= 0], the exponent not bounded from
    above: a significand of 53 bits, or a multiple of [2^-1074] for a
    subnormal. *)
Definition to_double (N D : Z) : Z * Z :=
  (if N <=? 0 then (0, 1)
   else
     let s := Z.min (52 - exponent N D) 1074 in
     let (A, B) := scale2 N D s in
     scale2 (round_half_even A B) 1 (- s))%Z.

(** *** Numbers that hold integers

    What [parseInt] returns and a template string prints: [NaN], an
    infinity, or a double that is an integer (the two zeros are not told
    apart: both are falsy and both print as [0]). *)
Inductive Number :=
| NaN
| Infinity (negative : bool)
| Finite (z : Z).

(** The double nearest to the integer [a >= 0]. *)
Definition nearest_double (a : Z) : Z :=
  let (A, B) := to_double a 1 in (A / B)%Z.

(** The Number for an integer: itself below 2^53, the nearest double
    above, an infinity from 2^1024 - 2^970 on. *)
Definition toNumber (z : Z) : Number :=
  if (Z.abs z <? 2 ^ 53)%Z then Finite z
  else
    let d := nearest_double (Z.abs z) in
    if (2 ^ 1024 <=? d)%Z then Infinity (z <? 0)%Z
    else Finite (if (z <? 0)%Z then - d else d)%Z.

(** [parseInt(s)] without a radix argument. *)
Definition parseInt (s : string) : Number :=
  let s := trimStart s in
  let (negative, s) :=
    match s with
    | String "-" rest => (true, rest)
    | String "+" rest => (false, rest)
    | _ => (false, s)
    end in
  let (radix, s) :=
    match s with
    | String "0" (String "x" rest) => (16%Z, rest)
    | String "0" (String "X" rest) => (16%Z, rest)
    | _ => (10%Z, s)
    end in
  match digits radix s None with
  | Some n => toNumber (if negative then (- n)%Z else n)
  | None => NaN
  end.

(** [v || d] for a number [v]: [NaN] and zero are falsy. *)
Definition or_default (v d : Number) : Number :=
  match v with
  | NaN | Finite 0%Z => d
  | _ => v
  end.

(** The decimal digits of an integer. *)
Definition decimal (n : Z) : string :=
  NilZero.string_of_int (Z.to_int n).

Fixpoint zeros (n : nat) : string :=
  match n with
  | O => ""
  | S n' => "0" ++ zeros n'
  end.

(** The pairs [(s, j)] with [s] of [k] digits such that [s * 10^j] reads
    back as the double [x], itself of [len] digits. *)
Definition candidates (k len x : Z) : list (Z * Z) :=
  let at_scale (j : Z) : list (Z * Z) :=
    if (j <? 0)%Z then []
    else
      let p := (10 ^ j)%Z in
      let s0 := (x / p)%Z in
      filter (fun c : Z * Z =>
                let s := fst c in
                (10 ^ (k - 1) <=? s)%Z && (s <? 10 ^ k)%Z
                && (nearest_double (s * p) =? x)%Z)
             [(s0, j); ((s0 + 1)%Z, j)] in
  (at_scale (len - k)%Z ++ at_scale (len - k + 1)%Z)%list.

(** Of two candidates the one closer to [x]; the even one of two that are
    as close. *)
Definition closer (x : Z) (a b : Z * Z) : Z * Z :=
  let da := Z.abs (fst a * 10 ^ snd a - x) in
  let db := Z.abs (fst b * 10 ^ snd b - x) in
  if (da <? db)%Z then a
  else if (db <? da)%Z then b
  else if Z.even (fst a) then a else b.

(** The fewest digits that still read back as [x]. *)
Fixpoint shortest (fuel : nat) (k len x : Z) : Z * Z :=
  match fuel with
  | O => (x, 0%Z)
  | S fuel' =>
      match candidates k len x with
      | c :: cs => fold_left (closer x) cs c
      | [] => shortest fuel' (k + 1)%Z len x
      end
  end.

(** [Number.prototype.toString] for a double that is a positive integer:
    its own digits below 2^53; above, the fewest digits that read back as
    it, filled up with zeros below 10^21 and with an exponent from there
    on. *)
Definition positiveToString (x : Z) : string :=
  if (x <? 2 ^ 53)%Z then decimal x
  else
    let len := Z.of_nat (String.length (decimal x)) in
    let (s, j) := shortest 17 1 len x in
    let ds := decimal s in
    let n := (Z.of_nat (String.length ds) + j)%Z in
    if (n <=? 21)%Z then ds ++ zeros (Z.to_nat j)
    else
      match ds with
      | String d EmptyString => String d ("e+" ++ decimal (n - 1))
      | String d rest => String d ("." ++ rest ++ "e+" ++ decimal (n - 1))
      | EmptyString => ""
      end.

(** A number interpolated in a template string. *)
Definition numberToString (v : Number) : string :=
  match v with
  | NaN => "NaN"
  | Infinity false => "Infinity"
  | Infinity true => "-Infinity"
  | Finite z =>
      if (z <? 0)%Z then "-" ++ positiveToString (- z) else positiveToString z
  end.

Definition isDigit (c : ascii) : bool :=
  ((48 <=? nat_of_ascii c) && (nat_of_ascii c <=? 57))%nat.

Fixpoint all_digits (s : string) : bool :=
  match s with
  | EmptyString => true
  | String c rest => isDigit c && all_digits rest
  end.

(** A string of at most fifteen decimal digits and nothing else. *)
Definition plain_number (s : string) : bool :=
  all_digits s && (String.length s <=? 15)%nat.

(** What [Math.random()] returns: a double that is at least 0 and less
    than 1, that is [m / 2^d] for a significand [m] of at most 53 bits. *)
Definition is_double01 (r : Q) : Prop :=
  exists m d : Z,
    (0 <= m < 2 ^ 53)%Z /\ (53 <= d <= 1074)%Z
    /\ (r * inject_Z (2 ^ d) == inject_Z m)%Q.

(** [Math.floor(r * n)] for the double [r] that [Math.random()] returned
    and a length [n] (a double itself, being below 2^53). *)
Definition floor_scaled (r : Q) (n : nat) : nat :=
  let x := (r * inject_Z (Z.of_nat n))%Q in
  let (A, B) := to_double (Qnum x) (Zpos (Qden x)) in
  Z.to_nat (A / B).

End JS.

(** ** The rules engine (chess.js), consumed through its interface *)

(** ['w'] and ['b']. *)
Inductive Color := White | Black.

Definition Color_eqb (a b : Color) : bool :=
  match a, b with
  | White, White | Black, Black => true
  | _, _ => false
  end.

Record Piece := { color : Color; type : string }.

(** The argument of [game.move]: a SAN string, or an object
    [{ from, to, promotion }]. *)
Inductive MoveArg :=
| San (san : string)
| FromTo (from : option string) (to : string) (promotion : string).

(** [move] returns [None] where chess.js returns [null] and leaves the
    position as it was. *)
Class RulesEngine := {
  Chess : Type;
  new_Chess : Chess;
  reset : Chess -> Chess;
  undo : Chess -> Chess;
  move : Chess -> MoveArg -> option Chess;
  moves : Chess -> list string;
  get : Chess -> string -> option Piece;
  fen : Chess -> string;
  turn : Chess -> Color;
  in_checkmate : Chess -> bool;
  in_draw : Chess -> bool;
  game_over : Chess -> bool
}.

(** What the orchestrator relies on when it takes moves back: [undo]
    restores the position a successful [move] started from. *)
Class RulesEngineLaws (R : RulesEngine) : Prop := {
  undo_move : forall (g g' : Chess) (m : MoveArg), move g m = Some g' -> undo g' = g
}.

(** A rule of the game the rules engine implements: a move empties the
    square it starts from, and no move starts from an empty square. *)
Class DepartureLaw (R : RulesEngine) : Prop := {
  departed_square :
    forall (g g' : Chess) (from : option string) (to promotion : string),
      move g (FromTo from to promotion) = Some g' ->
      forall to' promotion' : string, move g' (FromTo from to' promotion') = None
}.

(** ** The host: effects, timers, environment *)

Inductive Effect :=
| PostMessage (cmd : string)        (* this.engine.postMessage(cmd) *)
| WorkerTerminate                   (* this.engine.terminate() *)
| Ccall (cmd : string)              (* StockfishModule.ccall('uci_command', ...) *)
| WindowOnmessage (cmd : string)    (* window.onmessage({ data: cmd }) *)
| ConsoleLog (msg : string)
| ConsoleWarn (msg : string)
| ConsoleError (msg : string)
| Alert (msg : string)
| Uncaught (msg : string)           (* an exception nobody catches *)
| RenderBoard                       (* the board subtree rebuilt from the game *)
| PreventDefault.

Inductive Callback :=
| SafetyTimeout                     (* the closure of EngineManager.init *)
| RandomMoveTimeout                 (* the closure of ChessApp.triggerAi *)
| ModuleCheck (attempts : nat).     (* the interval of waitForStockfishModule *)

Record Timer := { delay : nat; repeating : bool; callback : Callback }.

(** The property [ccall] of a value: falsy (absent, say), a function, or
    something truthy that cannot be called. *)
Inductive CcallProperty := NoCcall | CcallFunction | CcallNotCallable.

(** The global [StockfishModule]: not declared or [undefined]; [null],
    whose [typeof] is ['object'] and whose properties cannot be read; or any
    other value, with its [ccall]. *)
Inductive GlobalModule :=
| NoModule
| NullModule
| ModuleWith (ccall : CcallProperty).

(** What the page offers the engine manager; scripts load while the page
    runs, so the host may change between two events. *)
Record Host := {
  worker_available : bool;          (* new Worker(...) does not throw *)
  StockfishModule : GlobalModule;
  Module_truthy : bool;             (* typeof Module !== 'undefined' && Module *)
  window_onmessage : bool           (* typeof window.onmessage === 'function' *)
}.

(** [typeof StockfishModule !== 'undefined']. *)
Definition StockfishModule_defined (h : Host) : bool :=
  match StockfishModule h with
  | NoModule => false
  | _ => true
  end.

Inductive Worker := StockfishWorker.

(** ** The state of the page

    One record for the two objects and what they reach: the fields of the
    [EngineManager], the fields of the [ChessApp], the three DOM values the
    core reads or writes, the listeners it installs, and the host. *)

Section App.

Context {R : RulesEngine}.

Record World := mkWorld {
  engine : option Worker;   (* this.engine: the live worker, or null *)
  isWorker : bool;
  isReady : bool;
  game : Chess;   (* this.game *)
  playerColor : Color;
  isThinking : bool;
  selectedSquare : option string;
  isDragging : bool;
  dragStartSquare : option string;
  draggedVisual : bool;   (* this.draggedVisual is an element *)
  gameStatus : string;   (* statusEl.innerText *)
  engineStatus : string;   (* engineStatusEl.innerText *)
  difficulty : string;   (* levelSelect.value *)
  messageListeners : nat;   (* 'message' listeners on window *)
  pointerupListeners : nat;   (* 'pointerup' listeners on document *)
  dragEndAttached : bool;   (* this.dragEndHandler is one of them *)
  host : Host;
  timers : list Timer;   (* pending setTimeout / setInterval *)
  effects : list Effect   (* oldest first *)
}.

Definition set_engine (v : option Worker) (w : World) : World :=
  mkWorld
    v (isWorker w) (isReady w) (game w) (playerColor w) (isThinking w)
    (selectedSquare w) (isDragging w) (dragStartSquare w) (draggedVisual w)
    (gameStatus w) (engineStatus w) (difficulty w) (messageListeners w)
    (pointerupListeners w) (dragEndAttached w) (host w) (timers w) (effects w).

Definition set_isWorker (v : bool) (w : World) : World :=
  mkWorld
    (engine w) v (isReady w) (game w) (playerColor w) (isThinking w)
    (selectedSquare w) (isDragging w) (dragStartSquare w) (draggedVisual w)
    (gameStatus w) (engineStatus w) (difficulty w) (messageListeners w)
    (pointerupListeners w) (dragEndAttached w) (host w) (timers w) (effects w).

Definition set_isReady (v : bool) (w : World) : World :=
  mkWorld
    (engine w) (isWorker w) v (game w) (playerColor w) (isThinking w)
    (selectedSquare w) (isDragging w) (dragStartSquare w) (draggedVisual w)
    (gameStatus w) (engineStatus w) (difficulty w) (messageListeners w)
    (pointerupListeners w) (dragEndAttached w) (host w) (timers w) (effects w).

Definition set_game (v : Chess) (w : World) : World :=
  mkWorld
    (engine w) (isWorker w) (isReady w) v (playerColor w) (isThinking w)
    (selectedSquare w) (isDragging w) (dragStartSquare w) (draggedVisual w)
    (gameStatus w) (engineStatus w) (difficulty w) (messageListeners w)
    (pointerupListeners w) (dragEndAttached w) (host w) (timers w) (effects w).

Definition set_isThinking (v : bool) (w : World) : World :=
  mkWorld
    (engine w) (isWorker w) (isReady w) (game w) (playerColor w) v
    (selectedSquare w) (isDragging w) (dragStartSquare w) (draggedVisual w)
    (gameStatus w) (engineStatus w) (difficulty w) (messageListeners w)
    (pointerupListeners w) (dragEndAttached w) (host w) (timers w) (effects w).

Definition set_selectedSquare (v : option string) (w : World) : World :=
  mkWorld
    (engine w) (isWorker w) (isReady w) (game w) (playerColor w)
    (isThinking w) v (isDragging w) (dragStartSquare w) (draggedVisual w)
    (gameStatus w) (engineStatus w) (difficulty w) (messageListeners w)
    (pointerupListeners w) (dragEndAttached w) (host w) (timers w) (effects w).

Definition set_isDragging (v : bool) (w : World) : World :=
  mkWorld
    (engine w) (isWorker w) (isReady w) (game w) (playerColor w)
    (isThinking w) (selectedSquare w) v (dragStartSquare w) (draggedVisual w)
    (gameStatus w) (engineStatus w) (difficulty w) (messageListeners w)
    (pointerupListeners w) (dragEndAttached w) (host w) (timers w) (effects w).

Definition set_dragStartSquare (v : option string) (w : World) : World :=
  mkWorld
    (engine w) (isWorker w) (isReady w) (game w) (playerColor w)
    (isThinking w) (selectedSquare w) (isDragging w) v (draggedVisual w)
    (gameStatus w) (engineStatus w) (difficulty w) (messageListeners w)
    (pointerupListeners w) (dragEndAttached w) (host w) (timers w) (effects w).

Definition set_draggedVisual (v : bool) (w : World) : World :=
  mkWorld
    (engine w) (isWorker w) (isReady w) (game w) (playerColor w)
    (isThinking w) (selectedSquare w) (isDragging w) (dragStartSquare w) v
    (gameStatus w) (engineStatus w) (difficulty w) (messageListeners w)
    (pointerupListeners w) (dragEndAttached w) (host w) (timers w) (effects w).

Definition set_gameStatus (v : string) (w : World) : World :=
  mkWorld
    (engine w) (isWorker w) (isReady w) (game w) (playerColor w)
    (isThinking w) (selectedSquare w) (isDragging w) (dragStartSquare w)
    (draggedVisual w) v (engineStatus w) (difficulty w) (messageListeners w)
    (pointerupListeners w) (dragEndAttached w) (host w) (timers w) (effects w).

Definition set_engineStatus (v : string) (w : World) : World :=
  mkWorld
    (engine w) (isWorker w) (isReady w) (game w) (playerColor w)
    (isThinking w) (selectedSquare w) (isDragging w) (dragStartSquare w)
    (draggedVisual w) (gameStatus w) v (difficulty w) (messageListeners w)
    (pointerupListeners w) (dragEndAttached w) (host w) (timers w) (effects w).

Definition set_messageListeners (v : nat) (w : World) : World :=
  mkWorld
    (engine w) (isWorker w) (isReady w) (game w) (playerColor w)
    (isThinking w) (selectedSquare w) (isDragging w) (dragStartSquare w)
    (draggedVisual w) (gameStatus w) (engineStatus w) (difficulty w) v
    (pointerupListeners w) (dragEndAttached w) (host w) (timers w) (effects w).

Definition set_pointerupListeners (v : nat) (w : World) : World :=
  mkWorld
    (engine w) (isWorker w) (isReady w) (game w) (playerColor w)
    (isThinking w) (selectedSquare w) (isDragging w) (dragStartSquare w)
    (draggedVisual w) (gameStatus w) (engineStatus w) (difficulty w)
    (messageListeners w) v (dragEndAttached w) (host w) (timers w) (effects w).

Definition set_dragEndAttached (v : bool) (w : World) : World :=
  mkWorld
    (engine w) (isWorker w) (isReady w) (game w) (playerColor w)
    (isThinking w) (selectedSquare w) (isDragging w) (dragStartSquare w)
    (draggedVisual w) (gameStatus w) (engineStatus w) (difficulty w)
    (messageListeners w) (pointerupListeners w) v (host w) (timers w)
    (effects w).

Definition set_host (v : Host) (w : World) : World :=
  mkWorld
    (engine w) (isWorker w) (isReady w) (game w) (playerColor w)
    (isThinking w) (selectedSquare w) (isDragging w) (dragStartSquare w)
    (draggedVisual w) (gameStatus w) (engineStatus w) (difficulty w)
    (messageListeners w) (pointerupListeners w) (dragEndAttached w) v
    (timers w) (effects w).

Definition set_timers (v : list Timer) (w : World) : World :=
  mkWorld
    (engine w) (isWorker w) (isReady w) (game w) (playerColor w)
    (isThinking w) (selectedSquare w) (isDragging w) (dragStartSquare w)
    (draggedVisual w) (gameStatus w) (engineStatus w) (difficulty w)
    (messageListeners w) (pointerupListeners w) (dragEndAttached w) (host w) v
    (effects w).

Definition set_effects (v : list Effect) (w : World) : World :=
  mkWorld
    (engine w) (isWorker w) (isReady w) (game w) (playerColor w)
    (isThinking w) (selectedSquare w) (isDragging w) (dragStartSquare w)
    (draggedVisual w) (gameStatus w) (engineStatus w) (difficulty w)
    (messageListeners w) (pointerupListeners w) (dragEndAttached w) (host w)
    (timers w) v.

Definition log (e : Effect) (w : World) : World :=
  set_effects (effects w ++ [e]) w.

(** [setTimeout] and [setInterval] append to the pending timers. *)
Definition setTimeout (cb : Callback) (ms : nat) (w : World) : World :=
  set_timers (timers w ++ [{| delay := ms; repeating := false; callback := cb |}]) w.

Definition setInterval (cb : Callback) (ms : nat) (w : World) : World :=
  set_timers (timers w ++ [{| delay := ms; repeating := true; callback := cb |}]) w.

(** The timer list without its [n]-th entry (a one-shot timer that fires,
    or [clearInterval]). *)
Fixpoint remove_nth {A : Type} (n : nat) (l : list A) : list A :=
  match l, n with
  | [], _ => []
  | _ :: l', 0 => l'
  | x :: l', S n' => x :: remove_nth n' l'
  end.

Fixpoint replace_nth {A : Type} (n : nat) (y : A) (l : list A) : list A :=
  match l, n with
  | [], _ => []
  | _ :: l', 0 => y :: l'
  | x :: l', S n' => x :: replace_nth n' y l'
  end.

(** ** class EngineManager

    The three callbacks handed to the constructor are section variables, as
    the class does not know what they do. *)

Section EngineManager.

Variable statusCallback : string -> World -> World.
Variable onReadyCallback : World -> World.
Variable onMoveCallback : option string -> World -> World.

(** The two property accesses of [sendCommand] that can throw. *)
Definition postMessage_of_null : string :=
  "TypeError: Cannot read properties of null (reading 'postMessage')".

Definition ccall_of_null : string :=
  "TypeError: Cannot read properties of null (reading 'ccall')".

(** [sendCommand(cmd)].  In worker mode [this.engine] is not null in any
    state the page reaches (lemma [worker_mode_has_engine] below); were it
    null, the call would throw.  In main-thread mode the test
    [typeof StockfishModule !== 'undefined' && StockfishModule.ccall] throws
    when [StockfishModule] is [null], and the call throws when [ccall] is
    not a function.  An exception is recorded in the effect log and nothing
    is delivered; the statements that would have followed the call in its
    callers are not cut short here. *)
Definition sendCommand (cmd : string) (w : World) : World :=
  if negb (isReady w) && negb (cmd =? "uci") then w
  else if isWorker w then
    match engine w with
    | Some _ => log (PostMessage cmd) w
    | None => log (Uncaught postMessage_of_null) w
    end
  else
    match StockfishModule (host w) with
    | NullModule => log (Uncaught ccall_of_null) w
    | ModuleWith CcallFunction => log (Ccall cmd) w
    | ModuleWith CcallNotCallable =>
        log (Uncaught "TypeError: StockfishModule.ccall is not a function") w
    | NoModule | ModuleWith NoCcall =>
        if window_onmessage (host w)
        then log (WindowOnmessage cmd) w
        else log (ConsoleWarn "No valid input channel for Stockfish Main Thread!") w
    end.

(** [handleMessage(line)]. *)
Definition handleMessage (line : string) (w : World) : World :=
  let w :=
    if line =? "uciok" then
      if negb (isReady w) then
        let w := set_isReady true w in
        let w := statusCallback
                   ("Stockfish Ready " ++ (if isWorker w then "(Worker)" else "(Main)")) w in
        onReadyCallback w
      else w
    else w in
  if JS.startsWith "bestmove" line
  then onMoveCallback (nth_error (JS.split " " line) 1) w
  else w.

(** [initMainThread()]: one more ['message'] listener on [window], each
    forwarding string data to [handleMessage]; then the handshake. *)
Definition initMainThread (w : World) : World :=
  let w := log (ConsoleLog "Initializing Main Thread Stockfish...") w in
  let w := set_messageListeners (S (messageListeners w)) w in
  sendCommand "uci" w.

(** One tick of the interval of [waitForStockfishModule()]; [check] is the
    position of the interval among the timers and [attempts] the counter the
    closure holds. *)
Definition moduleCheck (check attempts : nat) (w : World) : World :=
  let attempts := S attempts in
  if StockfishModule_defined (host w) || Module_truthy (host w) then
    let w := set_timers (remove_nth check (timers w)) w in
    initMainThread w
  else if (20 <? attempts)%nat then
    let w := set_timers (remove_nth check (timers w)) w in
    let w := statusCallback "Engine Load Failed (Random Moves Only)" w in
    let w := log (ConsoleError "StockfishModule not found.") w in
    log (Alert ("Error: No se pudo cargar el motor de ajedrez (Stockfish). "
                ++ "Esto suele pasar en iOS si abres el archivo localmente "
                ++ "debido a restricciones de seguridad. "
                ++ "Prueba a alojarlo en un servidor web.")) w
  else
    set_timers
      (replace_nth check
         {| delay := 500; repeating := true; callback := ModuleCheck attempts |}
         (timers w)) w.

Definition waitForStockfishModule (w : World) : World :=
  setInterval (ModuleCheck 0) 500 w.

(** [switchToMainThread()]. *)
Definition switchToMainThread (w : World) : World :=
  let w :=
    if isWorker w then
      match engine w with
      | Some _ => set_engine None (log WorkerTerminate w)
      | None => w
      end
    else w in
  let w := set_isWorker false w in
  let w := statusCallback "Loading Main Thread Engine..." w in
  waitForStockfishModule w.

(** The closure armed by [init()] with [setTimeout(..., 2000)]. *)
Definition safetyTimeout (w : World) : World :=
  if negb (isReady w) && isWorker w then
    let w := log (ConsoleWarn "Worker timed out, switching to main thread.") w in
    switchToMainThread w
  else w.

(** [this.engine.onerror]. *)
Definition engine_onerror (w : World) : World :=
  let w := log (ConsoleWarn "Worker failed, falling back to main thread:") w in
  switchToMainThread w.

(** [this.engine.onmessage]. *)
Definition engine_onmessage (data : string) (w : World) : World :=
  handleMessage data w.

(** [init()]: [new Worker(...)] either yields a worker or throws. *)
Definition init (w : World) : World :=
  let w := statusCallback "Initializing Engine..." w in
  if worker_available (host w) then
    let w := set_engine (Some StockfishWorker) w in
    let w := set_isWorker true w in
    let w := log (PostMessage "uci") w in
    setTimeout SafetyTimeout 2000 w
  else
    let w := log (ConsoleWarn "Worker creation failed instantly:") w in
    switchToMainThread w.

End EngineManager.

(** ** class ChessApp *)

(** The callbacks the constructor hands to the engine manager; the third is
    [handleAiMove], defined below. *)
Definition statusCallback (status : string) (w : World) : World :=
  set_engineStatus status w.

Definition onReadyCallback (w : World) : World :=
  log (ConsoleLog "Engine Ready!") w.

(** [renderBoard()] rebuilds the board subtree from [this.game],
    [this.selectedSquare] and the drag state; it writes nothing the core
    reads back. *)
Definition renderBoard (w : World) : World := log RenderBoard w.

Definition updateStatus (w : World) : World :=
  if in_checkmate (game w) then
    set_gameStatus
      (match turn (game w) with White => "Black Wins!" | Black => "White Wins!" end) w
  else if in_draw (game w) then set_gameStatus "Draw!" w
  else
    set_gameStatus
      (match turn (game w) with White => "Your Turn" | Black => "AI Turn" end) w.

Definition newGame (w : World) : World :=
  if isThinking w then w
  else
    let w := set_game (reset (game w)) w in
    let w := set_selectedSquare None w in
    let w := renderBoard w in
    let w := updateStatus w in
    let w := sendCommand "stop" w in
    sendCommand "ucinewgame" w.

Definition undoMove (w : World) : World :=
  if isThinking w then w
  else
    let w := set_game (undo (game w)) w in
    let w := set_game (undo (game w)) w in
    let w := renderBoard w in
    updateStatus w.

Definition triggerAi (w : World) : World :=
  if game_over (game w) then w
  else
    let w := set_isThinking true w in
    let w := set_gameStatus "AI is thinking..." w in
    let depth := JS.or_default (JS.parseInt (difficulty w)) (JS.Finite 10) in
    let fen := fen (game w) in
    if isReady w then
      let w := sendCommand ("position fen " ++ fen) w in
      let timeLimit := JS.Finite 2500 in
      sendCommand ("go depth " ++ JS.numberToString depth
                   ++ " movetime " ++ JS.numberToString timeLimit) w
    else
      let w := log (ConsoleWarn "Engine not ready, using pure random fallback") w in
      setTimeout RandomMoveTimeout 1000 w.

(** [tryMove(from, to)] with its return value. *)
Definition tryMove (from : option string) (to : string) (w : World) : bool * World :=
  match move (game w) (FromTo from to "q") with
  | Some g =>
      let w := set_game g w in
      let w := renderBoard w in
      let w := updateStatus w in
      let w := triggerAi w in
      (true, w)
  | None => (false, w)
  end.

(** [handlePointerDown(e, square)].  The event only positions the drag
    visual.  The board was rendered after the last change of the game, so
    the square that holds a piece has its piece element.  The closure for
    the release that is added to [document] is counted in
    [pointerupListeners], and [this.dragEndHandler] is then that closure. *)
Definition handlePointerDown (square : string) (w : World) : World :=
  if isThinking w then w
  else
    let (moved, w) :=
      if JS.truthy (selectedSquare w) && negb (isDragging w)
      then tryMove (selectedSquare w) square w
      else (false, w) in
    if moved then set_selectedSquare None w
    else
      let own :=
        match get (game w) square with
        | Some piece => Color_eqb (color piece) (playerColor w)
        | None => false
        end in
      if own then
        let w := log PreventDefault w in
        let w := set_isDragging true w in
        let w := set_dragStartSquare (Some square) w in
        let w := set_selectedSquare (Some square) w in
        let w := set_draggedVisual true w in
        let w := set_pointerupListeners (S (pointerupListeners w)) w in
        let w := set_dragEndAttached true w in
        renderBoard w
      else
        let w := set_selectedSquare None w in
        renderBoard w.

(** [handlePointerUp(e)]; [target] is the square under the pointer, if
    any.  [removeEventListener] takes [this.dragEndHandler] off [document]
    if it is still on it. *)
Definition handlePointerUp (target : option string) (w : World) : World :=
  let w := set_isDragging false w in
  let w := if draggedVisual w then set_draggedVisual false w else w in
  let w :=
    if dragEndAttached w
    then set_dragEndAttached false
           (set_pointerupListeners (Nat.pred (pointerupListeners w)) w)
    else w in
  let w :=
    match target with
    | Some target =>
        if negb (JS.strict_eq (Some target) (dragStartSquare w))
        then snd (tryMove (dragStartSquare w) target w)
        else w
    | None => w
    end in
  renderBoard w.

(** The position after [this.game.move(m)], whatever it returns. *)
Definition game_move (m : MoveArg) (w : World) : World :=
  match move (game w) m with
  | Some g => set_game g w
  | None => w
  end.

Definition handleAiMove (bestMove : option string) (w : World) : World :=
  if negb (isThinking w) then w
  else
    match bestMove with
    | Some token =>
        if JS.truthy bestMove && negb (token =? "(none)") then
          let from := JS.substring 0 2 token in
          let to := JS.substring 2 4 token in
          let promotion := JS.substring 4 5 token in
          let w := game_move (FromTo (Some from) to promotion) w in
          let w := set_isThinking false w in
          let w := renderBoard w in
          updateStatus w
        else
          let w := set_isThinking false w in
          updateStatus w
    | None =>
        let w := set_isThinking false w in
        updateStatus w
    end.

(** [makeRandomMove()]; [rnd] is the double [Math.random()] returns, in
    [0, 1).  An index past the end cannot arise there (lemma
    [floor_scaled_in_range] below); it would hand [undefined] to the rules
    engine. *)
Definition makeRandomMove (rnd : Q) (w : World) : World :=
  let ms := moves (game w) in
  let w :=
    if (0 <? length ms)%nat then
      match nth_error ms (JS.floor_scaled rnd (length ms)) with
      | Some mk => game_move (San mk) w
      | None => w
      end
    else w in
  let w := set_isThinking false w in
  let w := renderBoard w in
  updateStatus w.

(** The engine manager as the constructor wires it. *)
Definition EngineManager_handleMessage : string -> World -> World :=
  handleMessage statusCallback onReadyCallback handleAiMove.

Definition EngineManager_init : World -> World :=
  init statusCallback.

(** [new ChessApp()]: the fields, then [new EngineManager(...)], then
    [this.init()]. *)
Definition new_ChessApp (h : Host) (level : string) : World :=
  let w :=
    {| engine := None; isWorker := false; isReady := false;
       game := new_Chess; playerColor := White; isThinking := false;
       selectedSquare := None; isDragging := false; dragStartSquare := None;
       draggedVisual := false;
       gameStatus := ""; engineStatus := ""; difficulty := level;
       messageListeners := 0; pointerupListeners := 0; dragEndAttached := false;
       host := h; timers := []; effects := [] |} in
  let w := EngineManager_init w in
  let w := renderBoard w in
  updateStatus w.
(** ** The event loop

    The host is single-threaded: it runs one handler to completion per
    event.  A worker delivers its messages and errors to the handlers
    [init()] attached to it for as long as it has not been terminated, which
    is as long as [this.engine] holds it.  A string posted on [window]
    reaches every listener [initMainThread()] installed.  Timers may fire in
    any order.  A pointer release reaches the [pointerup] listeners that are
    on [document] when it is dispatched and have not been removed by the
    time their turn comes; every one of them calls [handlePointerUp]. *)

Inductive Event :=
| WorkerMessage (data : string)
| WorkerError
| WindowMessage (data : option string)   (* [None]: [e.data] is no string *)
| TimerFires (n : nat) (rnd : Q)         (* [rnd]: what [Math.random()] yields *)
| ClickNewGame
| ClickUndo
| PointerDown (square : string)
| PointerUp (target : option string)
| HostChanges (h : Host).

Definition fire (n : nat) (rnd : Q) (w : World) : World :=
  match nth_error (timers w) n with
  | None => w
  | Some t =>
      match callback t with
      | SafetyTimeout =>
          safetyTimeout statusCallback (set_timers (remove_nth n (timers w)) w)
      | RandomMoveTimeout =>
          makeRandomMove rnd (set_timers (remove_nth n (timers w)) w)
      | ModuleCheck attempts => moduleCheck statusCallback n attempts w
      end
  end.

Definition pointerup_calls (w : World) : nat :=
  if dragEndAttached w
  then Nat.max 1 (Nat.pred (pointerupListeners w))
  else pointerupListeners w.

Definition step (e : Event) (w : World) : World :=
  match e with
  | WorkerMessage data =>
      match engine w with
      | Some _ => engine_onmessage statusCallback onReadyCallback handleAiMove data w
      | None => w
      end
  | WorkerError =>
      match engine w with
      | Some _ => engine_onerror statusCallback w
      | None => w
      end
  | WindowMessage (Some line) =>
      Nat.iter (messageListeners w) (EngineManager_handleMessage line) w
  | WindowMessage None => w
  | TimerFires n rnd => fire n rnd w
  | ClickNewGame => newGame w
  | ClickUndo => undoMove w
  | PointerDown square => handlePointerDown square w
  | PointerUp target =>
      match pointerupListeners w with
      | 0 => w
      | S _ => Nat.iter (pointerup_calls w) (handlePointerUp target) w
      end
  | HostChanges h => set_host h w
  end.

Definition run (events : list Event) (w : World) : World :=
  fold_left (fun w e => step e w) events w.

(** [step] lets a worker that has been terminated deliver nothing.  The
    two handlers [init()] attached to it hold no such guard themselves;
    [deliver] also runs them for an event of the worker that arrives late,
    after [this.engine] has let go of it. *)
Inductive Delivery :=
| Dispatched (e : Event)
| LateWorkerMessage (data : string)
| LateWorkerError.

Definition deliver (d : Delivery) (w : World) : World :=
  match d with
  | Dispatched e => step e w
  | LateWorkerMessage data =>
      engine_onmessage statusCallback onReadyCallback handleAiMove data w
  | LateWorkerError => engine_onerror statusCallback w
  end.

Definition deliver_all (deliveries : list Delivery) (w : World) : World :=
  fold_left (fun w d => deliver d w) deliveries w.

(** The lines the engine manager is handed, in order. *)
Definition handleMessages (lines : list string) (w : World) : World :=
  fold_left (fun w line => EngineManager_handleMessage line w) lines w.

(** How often the ready callback has run: it is the only code that writes
    this line to the console. *)
Definition is_ready_call (e : Effect) : bool :=
  match e with
  | ConsoleLog msg => msg =? "Engine Ready!"
  | _ => false
  end.

Definition readyFired (w : World) : nat :=
  length (filter is_ready_call (effects w)).

(** The commands that reached a channel of the engine. *)
Definition delivered (e : Effect) : option string :=
  match e with
  | PostMessage cmd | Ccall cmd | WindowOnmessage cmd => Some cmd
  | _ => None
  end.

Fixpoint commands (l : list Effect) : list string :=
  match l with
  | [] => []
  | e :: l' =>
      match delivered e with
      | Some cmd => cmd :: commands l'
      | None => commands l'
      end
  end.

(** ** Vocabulary of the properties *)

(** [stable w w']: from [w] to [w'] the readiness flag kept its value and
    the ready callback did not run. *)
Definition stable (w w' : World) : Prop :=
  isReady w' = isReady w /\ readyFired w' = readyFired w.

Fixpoint no_space (s : string) : bool :=
  match s with
  | EmptyString => true
  | String c rest => negb (Ascii.eqb c " ") && no_space rest
  end.

(** What may follow the move token on the line: nothing, or a space and
    the rest (["ponder ..."]). *)
Definition tail_ok (rest : string) : bool :=
  match rest with
  | EmptyString => true
  | String c _ => Ascii.eqb c " "
  end.

Definition reply_line (token rest : string) : string :=
  "bestmove " ++ token ++ rest.

(** The position after a request to the rules engine. *)
Definition played (g : Chess) (m : MoveArg) : Chess :=
  match move g m with
  | Some g' => g'
  | None => g
  end.

(** The worker handle and the mode flag go together in every state the
    page can reach, so [sendCommand] never posts to [null]. *)
Definition channel_ok (w : World) : Prop :=
  isWorker w = true <-> engine w <> None.

Definition same_channel (w w' : World) : Prop :=
  isWorker w' = isWorker w /\ engine w' = engine w.

(** The events a pointer of the human raises. *)
Definition is_pointer (e : Event) : bool :=
  match e with
  | PointerDown _ | PointerUp _ => true
  | _ => false
  end.

(** The events the human raises: the two buttons and the pointer. *)
Definition is_user (e : Event) : bool :=
  match e with
  | ClickNewGame | ClickUndo | PointerDown _ | PointerUp _ => true
  | _ => false
  end.

(** The two states of the race of [init()]: still waiting for the worker,
    or decided (by readiness, or by a fallback to the main thread). *)
Definition pending (w : World) : Prop :=
  isReady w = false /\ isWorker w = true /\ engine w <> None.

Definition resolved (w : World) : Prop :=
  isReady w = true \/ isWorker w = false.

(** The line [updateStatus()] writes for a position. *)
Definition status_text (g : Chess) : string :=
  if in_checkmate g then
    match turn g with White => "Black Wins!" | Black => "White Wins!" end
  else if in_draw g then "Draw!"
  else match turn g with White => "Your Turn" | Black => "AI Turn" end.

(** The status line is up to date: it shows the position, or that the
    engine is thinking while it is. *)
Definition status_ok (w : World) : Prop :=
  gameStatus w = status_text (game w)
  \/ (isThinking w = true /\ gameStatus w = "AI is thinking...").

(** [sendCommand(cmd)] passes its gate and finds a channel: the worker;
    else [ccall], when it is a function; else [window.onmessage], when
    [StockfishModule] is missing or has no [ccall]. *)
Definition reaches_engine (cmd : string) (w : World) : bool :=
  (isReady w || (cmd =? "uci"))
  && (isWorker w
      || match StockfishModule (host w) with
         | ModuleWith CcallFunction => true
         | NullModule | ModuleWith CcallNotCallable => false
         | NoModule | ModuleWith NoCcall => window_onmessage (host w)
         end).

(** The interval of [waitForStockfishModule()] after [attempts] ticks. *)
Definition poll_timer (attempts : nat) : Timer :=
  {| delay := 500; repeating := true; callback := ModuleCheck attempts |}.

Definition is_poll (t : Timer) : bool :=
  match callback t with
  | ModuleCheck _ => true
  | _ => false
  end.

(** How many such intervals are running. *)
Definition polls (w : World) : nat := length (filter is_poll (timers w)).

(** The in-process engine has not shown up on the page. *)
Definition module_absent (h : Host) : Prop :=
  StockfishModule_defined h = false /\ Module_truthy h = false.

(** The exception of [sendCommand] in worker mode: a post to a worker that
    is not there. *)
Definition posted_to_null (e : Effect) : bool :=
  match e with
  | Uncaught msg => msg =? postMessage_of_null
  | _ => false
  end.

(** The fallback has been started at most once: in worker mode nothing
    polls and nothing listens on [window]; after it, either one interval
    polls or one listener is installed, never both, never two. *)
Definition fallback_once (w : World) : Prop :=
  if isWorker w
  then polls w = 0 /\ messageListeners w = 0
  else polls w + messageListeners w <= 1.

(** What holds of the engine manager in the states the page reaches: the
    mode flag tells whether there is a worker, and no command was posted to
    a worker that is not there.  With [once], which needs a terminated
    worker to be silent, the fallback has also been started at most once. *)
Definition adapter_ok (once : bool) (w : World) : Prop :=
  channel_ok w
  /\ forallb (fun e => negb (posted_to_null e)) (effects w) = true
  /\ (if once then fallback_once w else True).

(** The index of the interval [[i/n, (i+1)/n)] that holds the draw [r]:
    [n] intervals of the same length that tile [[0, 1)]. *)
Definition exact_index (r : Q) (n : nat) : nat :=
  Z.to_nat (Qfloor (r * inject_Z (Z.of_nat n))%Q).

(** The selection and the square of the last press go together, and while
    the engine thinks the rules engine takes no move from that square. *)
Definition drag_ok (w : World) : Prop :=
  (selectedSquare w = None \/ selectedSquare w = dragStartSquare w)
  /\ (isThinking w = true ->
      forall to : string, move (game w) (FromTo (dragStartSquare w) to "q") = None).

(** What a pointer event leaves as it is while the engine thinks: the
    position with its turn, the flag, the timers and what was sent. *)
Definition untouched (w w' : World) : Prop :=
  game w' = game w /\ isThinking w' = isThinking w /\ timers w' = timers w
  /\ commands (effects w') = commands (effects w).

(** The timers that will play a random move. *)
Definition is_random_move (t : Timer) : bool :=
  match callback t with
  | RandomMoveTimeout => true
  | _ => false
  end.

End App.

(** ** A miniature rules engine

    A stand-in for chess.js with the same interface, small enough to compute
    with: a position is the list of the moves played, latest first.  It
    accepts a move between two distinct squares and the three SAN strings it
    offers, never ends a game, and keeps the pieces of the starting array
    where they are. *)

Module Toy.

Definition sans : list string := ["e4"; "d4"; "Nf3"].

Definition is_square (s : string) : bool :=
  match s with
  | String f (String r EmptyString) =>
      let f := nat_of_ascii f in
      let r := nat_of_ascii r in
      ((97 <=? f) && (f <=? 104) && (49 <=? r) && (r <=? 56))%nat
  | _ => false
  end.

Definition accepts (m : MoveArg) : bool :=
  match m with
  | San s => existsb (String.eqb s) sans
  | FromTo (Some f) t _ => is_square f && is_square t && negb (f =? t)
  | FromTo None _ _ => false
  end.

Definition piece_at (s : string) : option Piece :=
  match s with
  | String _ (String "1" EmptyString) | String _ (String "2" EmptyString) =>
      Some {| color := White; type := "p" |}
  | String _ (String "7" EmptyString) | String _ (String "8" EmptyString) =>
      Some {| color := Black; type := "p" |}
  | _ => None
  end.

#[export] Instance engine : RulesEngine := {|
  Chess := list MoveArg;
  new_Chess := [];
  reset := fun _ => [];
  undo := fun g => tl g;
  move := fun g m => if accepts m then Some (m :: g) else None;
  moves := fun _ => sans;
  get := fun _ s => piece_at s;
  fen := fun g => "ply " ++ JS.decimal (Z.of_nat (length g));
  turn := fun g => if Nat.even (length g) then White else Black;
  in_checkmate := fun _ => false;
  in_draw := fun _ => false;
  game_over := fun _ => false
|}.

Definition browser : Host :=
  {| worker_available := true; StockfishModule := NoModule;
     Module_truthy := false; window_onmessage := false |}.

(** A fresh page whose worker starts. *)
Definition page : World := new_ChessApp browser "10".

(** The engine has answered the handshake. *)
Definition ready : World := run [WorkerMessage "uciok"] page.

(** The human has dragged e2 to e4 and the engine is searching. *)
Definition searching : World :=
  run [PointerDown "e2"; PointerUp (Some "e4")] ready.

(** The engine has replied e7e5. *)
Definition replied : World :=
  run [WorkerMessage "bestmove e7e5 ponder g1f3"] searching.

(** The human has moved on a page whose engine never answered. *)
Definition waiting : World :=
  run [PointerDown "e2"; PointerUp (Some "e4")] page.

(** A page on which [new Worker(...)] throws. *)
Definition no_worker : Host :=
  {| worker_available := false; StockfishModule := NoModule;
     Module_truthy := false; window_onmessage := false |}.

Definition fallback : World := new_ChessApp no_worker "10".

(** The in-process engine has loaded and takes its commands through
    [window.onmessage]. *)
Definition asm_build : Host :=
  {| worker_available := false; StockfishModule := NoModule;
     Module_truthy := true; window_onmessage := true |}.

(** A page that sets [StockfishModule] to [null] before the engine script
    has run. *)
Definition null_module : Host :=
  {| worker_available := false; StockfishModule := NullModule;
     Module_truthy := false; window_onmessage := true |}.

End Toy.

(** A second stand-in, whose games end with the first move (mate). *)

Module Endgame.

Definition engine : RulesEngine := {|
  Chess := list MoveArg;
  new_Chess := [];
  reset := fun _ => [];
  undo := fun g => tl g;
  move := fun g m => if Toy.accepts m then Some (m :: g) else None;
  moves := fun g => match g with [] => Toy.sans | _ => [] end;
  get := fun _ s => Toy.piece_at s;
  fen := fun g => "ply " ++ JS.decimal (Z.of_nat (length g));
  turn := fun g => if Nat.even (length g) then White else Black;
  in_checkmate := fun g => match g with [] => false | _ => true end;
  in_draw := fun _ => false;
  game_over := fun g => match g with [] => false | _ => true end
|}.

Definition page : @World engine := @new_ChessApp engine Toy.browser "10".

End Endgame.

(** A third stand-in, which knows that the square a move started from is
    empty afterwards: it takes no move from the square the latest move
    left. *)

Module Strict.

Definition accepts (g : list MoveArg) (m : MoveArg) : bool :=
  Toy.accepts m
  && match m, g with
     | FromTo from _ _, FromTo prev _ _ :: _ => negb (JS.strict_eq from prev)
     | _, _ => true
     end.

Definition engine : RulesEngine := {|
  Chess := list MoveArg;
  new_Chess := [];
  reset := fun _ => [];
  undo := fun g => tl g;
  move := fun g m => if accepts g m then Some (m :: g) else None;
  moves := fun _ => Toy.sans;
  get := fun _ s => Toy.piece_at s;
  fen := fun g => "ply " ++ JS.decimal (Z.of_nat (length g));
  turn := fun g => if Nat.even (length g) then White else Black;
  in_checkmate := fun _ => false;
  in_draw := fun _ => false;
  game_over := fun _ => false
|}.

Definition page : @World engine := @new_ChessApp engine Toy.browser "10".

End Strict.

(** * Properties *)

Section Properties.

Context {R : RulesEngine}.

(** ** What each method leaves alone *)

Lemma bestmove_is_not_uciok (line : string) :
  JS.startsWith "bestmove" line = true -> (line =? "uciok") = false.
Proof.
  intros H. destruct (String.eqb_spec line "uciok") as [->|]; [|reflexivity].
  vm_compute in H. discriminate.
Qed.

Lemma updateStatus_frame (w : World) :
  game (updateStatus w) = game w /\ isThinking (updateStatus w) = isThinking w
  /\ isReady (updateStatus w) = isReady w /\ isWorker (updateStatus w) = isWorker w
  /\ engine (updateStatus w) = engine w /\ effects (updateStatus w) = effects w
  /\ timers (updateStatus w) = timers w /\ host (updateStatus w) = host w.
Proof.
  unfold updateStatus.
  destruct (in_checkmate (game w)); [|destruct (in_draw (game w))];
    simpl; repeat split; reflexivity.
Qed.

Lemma sendCommand_frame (cmd : string) (w : World) :
  game (sendCommand cmd w) = game w /\ isThinking (sendCommand cmd w) = isThinking w
  /\ isReady (sendCommand cmd w) = isReady w /\ isWorker (sendCommand cmd w) = isWorker w
  /\ engine (sendCommand cmd w) = engine w /\ timers (sendCommand cmd w) = timers w
  /\ host (sendCommand cmd w) = host w.
Proof.
  unfold sendCommand.
  destruct (negb (isReady w) && negb (cmd =? "uci")); [repeat split; reflexivity|].
  destruct (isWorker w) eqn:Hw.
  - destruct (engine w) eqn:He; simpl; rewrite ?Hw, ?He; repeat split; reflexivity.
  - destruct (StockfishModule (host w)) as [| |[| |]];
      try destruct (window_onmessage (host w));
      simpl; rewrite ?Hw; repeat split; reflexivity.
Qed.

Lemma sendCommand_dropped (cmd : string) (w : World) :
  isReady w = false -> cmd <> "uci" -> sendCommand cmd w = w.
Proof.
  intros Hr Hcmd. unfold sendCommand. rewrite Hr.
  destruct (String.eqb_spec cmd "uci") as [E|_]; [contradiction|].
  reflexivity.
Qed.

(** A command sent in worker mode, once the engine is ready, is posted to
    the worker. *)
Lemma sendCommand_posts (cmd : string) (w : World) :
  isReady w = true -> isWorker w = true -> engine w <> None ->
  effects (sendCommand cmd w) = (effects w ++ [PostMessage cmd])%list.
Proof.
  intros Hr Hw He. unfold sendCommand. rewrite Hr, Hw. simpl.
  destruct (engine w); [reflexivity | contradiction].
Qed.

Lemma sendCommand_game (cmd : string) (w : World) :
  game (sendCommand cmd w) = game w.
Proof. apply sendCommand_frame. Qed.

Lemma sendCommand_isThinking (cmd : string) (w : World) :
  isThinking (sendCommand cmd w) = isThinking w.
Proof. apply sendCommand_frame. Qed.

Lemma sendCommand_isReady (cmd : string) (w : World) :
  isReady (sendCommand cmd w) = isReady w.
Proof. apply sendCommand_frame. Qed.

Lemma sendCommand_isWorker (cmd : string) (w : World) :
  isWorker (sendCommand cmd w) = isWorker w.
Proof. apply sendCommand_frame. Qed.

Lemma sendCommand_engine (cmd : string) (w : World) :
  engine (sendCommand cmd w) = engine w.
Proof. apply sendCommand_frame. Qed.

Lemma sendCommand_timers (cmd : string) (w : World) :
  timers (sendCommand cmd w) = timers w.
Proof. apply sendCommand_frame. Qed.

Lemma updateStatus_game (w : World) : game (updateStatus w) = game w.
Proof. apply updateStatus_frame. Qed.

Lemma updateStatus_isThinking (w : World) :
  isThinking (updateStatus w) = isThinking w.
Proof. apply updateStatus_frame. Qed.

Lemma updateStatus_isReady (w : World) : isReady (updateStatus w) = isReady w.
Proof. apply updateStatus_frame. Qed.

Lemma updateStatus_isWorker (w : World) : isWorker (updateStatus w) = isWorker w.
Proof. apply updateStatus_frame. Qed.

Lemma updateStatus_engine (w : World) : engine (updateStatus w) = engine w.
Proof. apply updateStatus_frame. Qed.

Lemma updateStatus_effects (w : World) : effects (updateStatus w) = effects w.
Proof. apply updateStatus_frame. Qed.

Lemma updateStatus_timers (w : World) : timers (updateStatus w) = timers w.
Proof. apply updateStatus_frame. Qed.

Create Rewrite HintDb frame.
#[local] Hint Rewrite
  sendCommand_game sendCommand_isThinking sendCommand_isReady
  sendCommand_isWorker sendCommand_engine sendCommand_timers
  updateStatus_game updateStatus_isThinking updateStatus_isReady
  updateStatus_isWorker updateStatus_engine updateStatus_effects
  updateStatus_timers : frame.

(** Peel the wrappers off a projection of a state. *)
Ltac frame := repeat (autorewrite with frame; cbn [
  engine isWorker isReady game playerColor isThinking selectedSquare isDragging
  dragStartSquare draggedVisual gameStatus engineStatus difficulty
  messageListeners pointerupListeners dragEndAttached host timers effects
  set_engine set_isWorker set_isReady set_game set_isThinking
  set_selectedSquare set_isDragging set_dragStartSquare set_draggedVisual
  set_gameStatus set_engineStatus set_messageListeners set_pointerupListeners
  set_dragEndAttached set_host set_timers set_effects
  log renderBoard statusCallback onReadyCallback setTimeout setInterval]).

Lemma commands_app (l1 l2 : list Effect) :
  commands (l1 ++ l2) = (commands l1 ++ commands l2)%list.
Proof.
  induction l1 as [|e l1 IH]; simpl; [reflexivity|].
  destruct (delivered e); simpl; rewrite IH; reflexivity.
Qed.

Lemma triggerAi_game (w : World) : game (triggerAi w) = game w.
Proof.
  unfold triggerAi.
  destruct (game_over (game w)); [reflexivity|].
  cbn zeta. destruct (isReady (set_gameStatus _ _)); frame; reflexivity.
Qed.

Lemma tryMove_game (from : option string) (to : string) (w : World) :
  match move (game w) (FromTo from to "q") with
  | Some g => tryMove from to w = (true, triggerAi (updateStatus (renderBoard (set_game g w))))
              /\ game (snd (tryMove from to w)) = g
  | None => tryMove from to w = (false, w)
  end.
Proof.
  unfold tryMove. destruct (move (game w) (FromTo from to "q")) as [g|].
  - split; [reflexivity|]. simpl.
    rewrite triggerAi_game, (proj1 (updateStatus_frame _)). reflexivity.
  - reflexivity.
Qed.

(** ** Stale replies *)

(** C1.  A best-move reply that reaches the reply handler while
    [isThinking] is false changes nothing at all: neither the position, nor
    the turn, nor the flag, whatever the reply carries; the same holds for
    the line that carries it through [handleMessage]. *)
Theorem stale_reply_discarded (w : World) :
  isThinking w = false ->
  (forall bestMove : option string, handleAiMove bestMove w = w)
  /\ (forall line : string,
        JS.startsWith "bestmove" line = true ->
        EngineManager_handleMessage line w = w).
Proof.
  intros Hidle.
  assert (Hdrop : forall bestMove, handleAiMove bestMove w = w).
  { intros bestMove. unfold handleAiMove. rewrite Hidle. reflexivity. }
  split; [exact Hdrop|].
  intros line Hline.
  unfold EngineManager_handleMessage, handleMessage.
  rewrite (bestmove_is_not_uciok line Hline), Hline.
  apply Hdrop.
Qed.

(** ** Commands before readiness *)

(** C4.  Before the engine has signalled readiness, [sendCommand] with any
    command but ['uci'] returns at once: the state is the one before the
    call, so nothing was delivered to a channel and nothing was kept for
    later. *)
Theorem command_dropped_before_ready (cmd : string) (w : World) :
  isReady w = false -> cmd <> "uci" -> sendCommand cmd w = w.
Proof.
  intros Hr Hcmd. unfold sendCommand.
  assert (Hguard : negb (isReady w) && negb (cmd =? "uci") = true).
  { rewrite Hr. apply String.eqb_neq in Hcmd. rewrite Hcmd. reflexivity. }
  rewrite Hguard. reflexivity.
Qed.

(** ** The pointer handlers and the rules engine *)

(** The position changes under a pointer handler
    only through a move the rules engine accepts. *)
Lemma handlePointerUp_game (target : option string) (w : World) :
  game (handlePointerUp target w) = game w
  \/ exists to : string,
       target = Some to
       /\ move (game w) (FromTo (dragStartSquare w) to "q")
          = Some (game (handlePointerUp target w)).
Proof.
  unfold handlePointerUp. cbn zeta.
  set (w1 := if draggedVisual (set_isDragging false w) then _ else _).
  set (w2 := if dragEndAttached w1 then _ else _).
  assert (Hg : game w2 = game w /\ dragStartSquare w2 = dragStartSquare w).
  { subst w2 w1. destruct (draggedVisual _); destruct (dragEndAttached _); split; reflexivity. }
  destruct Hg as [Hg Hd].
  destruct target as [to|]; [|left; exact Hg].
  rewrite Hd.
  destruct (negb (JS.strict_eq (Some to) (dragStartSquare w))); [|left; exact Hg].
  pose proof (tryMove_game (dragStartSquare w) to w2) as Ht.
  rewrite Hg in Ht.
  destruct (move (game w) (FromTo (dragStartSquare w) to "q")) as [g|] eqn:Hm.
  - right. exists to. split; [reflexivity|].
    destruct Ht as [_ Ht]. frame. rewrite Ht. exact Hm.
  - left. rewrite Ht. exact Hg.
Qed.

Lemma handlePointerDown_game (square : string) (w : World) :
  game (handlePointerDown square w) = game w
  \/ move (game w) (FromTo (selectedSquare w) square "q")
     = Some (game (handlePointerDown square w)).
Proof.
  unfold handlePointerDown.
  destruct (isThinking w); [left; reflexivity|].
  destruct (JS.truthy (selectedSquare w) && negb (isDragging w)).
  - pose proof (tryMove_game (selectedSquare w) square w) as Ht.
    destruct (move (game w) (FromTo (selectedSquare w) square "q")) as [g|].
    + right. destruct Ht as [Ht Hg]. rewrite Ht in *. simpl in *. rewrite Hg. reflexivity.
    + left. rewrite Ht.
      destruct (match get (game w) square with Some _ => _ | None => _ end); reflexivity.
  - left.
    destruct (match get (game w) square with Some _ => _ | None => _ end); reflexivity.
Qed.


(** ** New game and undo *)


(** C9.  While the engine is not thinking, [undoMove] calls the rules
    engine's [undo] twice and nothing else touches the position: after a
    move of the human and the reply of the engine, one undo brings back the
    position before the human's move. *)
Theorem undo_retracts_two_half_moves {L : RulesEngineLaws R} (w : World) :
  isThinking w = false ->
  game (undoMove w) = undo (undo (game w))
  /\ isThinking (undoMove w) = false
  /\ (forall (before afterHuman : Chess) (human reply : MoveArg),
        move before human = Some afterHuman ->
        move afterHuman reply = Some (game w) ->
        game (undoMove w) = before).
Proof.
  intros Hth.
  assert (Hg : game (undoMove w) = undo (undo (game w))).
  { unfold undoMove. rewrite Hth. frame. reflexivity. }
  repeat split.
  - exact Hg.
  - unfold undoMove. rewrite Hth. frame. exact Hth.
  - intros before afterHuman human reply Hh Hr.
    rewrite Hg, (undo_move _ _ _ Hr), (undo_move _ _ _ Hh). reflexivity.
Qed.

(** ** Readiness *)

Lemma stable_refl (w : World) : stable w w.
Proof. split; reflexivity. Qed.

Lemma stable_same (w w1 w2 : World) :
  isReady w2 = isReady w1 -> effects w2 = effects w1 -> stable w w1 -> stable w w2.
Proof. unfold stable, readyFired. intros -> -> H. exact H. Qed.

Lemma stable_log (e : Effect) (w w1 : World) :
  is_ready_call e = false -> stable w w1 -> stable w (log e w1).
Proof.
  unfold stable, readyFired. intros He [A B]. frame.
  rewrite filter_app, length_app. simpl. rewrite He. simpl. split; [exact A | lia].
Qed.

Lemma stable_updateStatus (w w1 : World) : stable w w1 -> stable w (updateStatus w1).
Proof. apply stable_same; frame; reflexivity. Qed.

(** Walks down a state expression built from the methods proved so far. *)
Ltac stable_step :=
  match goal with
  | |- stable ?w ?w => apply stable_refl
  | H : stable ?w ?w1 |- stable ?w ?w1 => exact H
  | |- stable _ (updateStatus _) => apply stable_updateStatus
  | |- stable _ (renderBoard _) => apply stable_log; [reflexivity|]
  | |- stable _ (log _ _) => apply stable_log; [reflexivity|]
  | |- stable _ (if ?b then _ else _) => destruct b
  | |- stable _ (match ?x with Some _ => _ | None => _ end) => destruct x
  | |- stable _ (?f ?x) => apply (stable_same _ x); [reflexivity | reflexivity |]
  end.

Lemma stable_sendCommand (cmd : string) (w w1 : World) :
  stable w w1 -> stable w (sendCommand cmd w1).
Proof.
  intros H. unfold sendCommand.
  destruct (negb (isReady w1) && negb (cmd =? "uci")); [exact H|].
  destruct (isWorker w1);
    [destruct (engine w1)
    |destruct (StockfishModule (host w1)) as [| |[| |]];
       try destruct (window_onmessage (host w1))];
    repeat stable_step.
Qed.

Lemma stable_triggerAi (w w1 : World) : stable w w1 -> stable w (triggerAi w1).
Proof.
  intros H. unfold triggerAi, setTimeout. cbn zeta.
  destruct (game_over (game w1)); [exact H|].
  destruct (isReady _).
  - do 2 apply stable_sendCommand. repeat stable_step.
  - repeat stable_step.
Qed.

Lemma stable_tryMove (from : option string) (to : string) (w w1 : World) :
  stable w w1 -> stable w (snd (tryMove from to w1)).
Proof.
  intros H. unfold tryMove.
  destruct (move (game w1) (FromTo from to "q")); [|exact H].
  cbn [snd]. apply stable_triggerAi. repeat stable_step.
Qed.

Lemma stable_game_move (m : MoveArg) (w w1 : World) :
  stable w w1 -> stable w (game_move m w1).
Proof. intros H. unfold game_move. repeat stable_step. Qed.

Lemma stable_handleAiMove (bestMove : option string) (w w1 : World) :
  stable w w1 -> stable w (handleAiMove bestMove w1).
Proof.
  intros H. unfold handleAiMove. cbn zeta.
  destruct (negb (isThinking w1)); [exact H|].
  destruct bestMove as [token|]; [destruct (JS.truthy (Some token) && _)|];
    repeat stable_step; apply stable_game_move; exact H.
Qed.

Lemma stable_makeRandomMove (rnd : Q) (w w1 : World) :
  stable w w1 -> stable w (makeRandomMove rnd w1).
Proof.
  intros H. unfold makeRandomMove. cbn zeta.
  do 2 stable_step. stable_step.
  destruct (0 <? length (moves (game w1)))%nat; [|exact H].
  destruct (nth_error _ _); [apply stable_game_move|]; exact H.
Qed.

Lemma stable_newGame (w w1 : World) : stable w w1 -> stable w (newGame w1).
Proof.
  intros H. unfold newGame. destruct (isThinking w1); [exact H|].
  cbn zeta. do 2 apply stable_sendCommand. repeat stable_step.
Qed.

Lemma stable_undoMove (w w1 : World) : stable w w1 -> stable w (undoMove w1).
Proof.
  intros H. unfold undoMove. destruct (isThinking w1); [exact H|].
  cbn zeta. repeat stable_step.
Qed.

Lemma stable_handlePointerDown (square : string) (w w1 : World) :
  stable w w1 -> stable w (handlePointerDown square w1).
Proof.
  intros H. unfold handlePointerDown. destruct (isThinking w1); [exact H|].
  assert (Hm : stable w (snd (if JS.truthy (selectedSquare w1) && negb (isDragging w1)
                              then tryMove (selectedSquare w1) square w1
                              else (false, w1)))).
  { destruct (_ && _); [apply stable_tryMove|]; exact H. }
  destruct (if JS.truthy (selectedSquare w1) && negb (isDragging w1) then _ else _)
    as [moved w2].
  cbn [snd] in Hm. repeat stable_step.
Qed.

Lemma stable_handlePointerUp (target : option string) (w w1 : World) :
  stable w w1 -> stable w (handlePointerUp target w1).
Proof.
  intros H. unfold handlePointerUp. cbn zeta.
  stable_step.
  set (w2 := if dragEndAttached _ then _ else _).
  assert (H2 : stable w w2) by (subst w2; repeat stable_step).
  destruct target as [to|]; [|exact H2].
  destruct (negb _); [apply stable_tryMove|]; exact H2.
Qed.

Lemma stable_iter (f : World -> World) (n : nat) (w w1 : World) :
  (forall w2, stable w w2 -> stable w (f w2)) ->
  stable w w1 -> stable w (Nat.iter n f w1).
Proof. intros Hf H. induction n; simpl; auto. Qed.

Lemma stable_initMainThread (w w1 : World) : stable w w1 -> stable w (initMainThread w1).
Proof. intros H. unfold initMainThread. apply stable_sendCommand. repeat stable_step. Qed.

Lemma stable_switchToMainThread (w w1 : World) :
  stable w w1 -> stable w (switchToMainThread statusCallback w1).
Proof.
  intros H. unfold switchToMainThread, waitForStockfishModule, setInterval, statusCallback.
  cbn zeta. repeat stable_step.
Qed.

Lemma stable_fire (n : nat) (rnd : Q) (w w1 : World) :
  stable w w1 -> stable w (fire n rnd w1).
Proof.
  intros H. unfold fire. destruct (nth_error (timers w1) n) as [t|]; [|exact H].
  destruct (callback t) as [| |attempts].
  - unfold safetyTimeout. destruct (_ && _).
    + apply stable_switchToMainThread. repeat stable_step.
    + repeat stable_step.
  - apply stable_makeRandomMove. repeat stable_step.
  - unfold moduleCheck, statusCallback. cbn zeta.
    destruct (_ || _); [apply stable_initMainThread|]; repeat stable_step.
Qed.

(** One line: the flag and the count of ready calls after it. *)
Lemma handleMessage_ready (line : string) (w : World) :
  isReady (EngineManager_handleMessage line w) = isReady w || (line =? "uciok")
  /\ readyFired (EngineManager_handleMessage line w)
     = readyFired w + (if negb (isReady w) && (line =? "uciok") then 1 else 0).
Proof.
  unfold EngineManager_handleMessage, handleMessage. cbn zeta.
  set (w1 := if line =? "uciok" then _ else _).
  assert (H1 : isReady w1 = isReady w || (line =? "uciok")
               /\ readyFired w1
                  = readyFired w + (if negb (isReady w) && (line =? "uciok") then 1 else 0)).
  { subst w1. destruct (line =? "uciok"), (isReady w) eqn:Hr; simpl;
      rewrite ?Hr; unfold readyFired; frame;
      rewrite ?filter_app, ?length_app; simpl; split; reflexivity || lia. }
  assert (H2 : stable w1 (if JS.startsWith "bestmove" line
                          then handleAiMove (nth_error (JS.split " " line) 1) w1
                          else w1)).
  { destruct (JS.startsWith "bestmove" line);
      [apply stable_handleAiMove|]; apply stable_refl. }
  destruct H1 as [A B], H2 as [C D]. split; congruence.
Qed.

Lemma handleMessages_cons (line : string) (lines : list string) (w : World) :
  handleMessages (line :: lines) w
  = handleMessages lines (EngineManager_handleMessage line w).
Proof. reflexivity. Qed.

Lemma handleMessages_app (lines later : list string) (w : World) :
  handleMessages (lines ++ later) w = handleMessages later (handleMessages lines w).
Proof. apply fold_left_app. Qed.

Lemma run_cons (e : Event) (events : list Event) (w : World) :
  run (e :: events) w = run events (step e w).
Proof. reflexivity. Qed.

(** Once ready, always ready, and the callback stays quiet: under lines... *)
Lemma handleMessages_after_ready (lines : list string) (w : World) :
  isReady w = true ->
  isReady (handleMessages lines w) = true
  /\ readyFired (handleMessages lines w) = readyFired w.
Proof.
  revert w. induction lines as [|line lines IH]; intros w Hr; [split; auto|].
  destruct (handleMessage_ready line w) as [A B]. rewrite Hr in A, B. simpl in A, B.
  destruct (IH _ A) as [C D]. rewrite handleMessages_cons.
  split; [exact C | rewrite D, B; lia].
Qed.

(** ... and under every event of the page. *)
Lemma step_after_ready (e : Event) (w : World) :
  isReady w = true ->
  isReady (step e w) = true /\ readyFired (step e w) = readyFired w.
Proof.
  intros Hr.
  assert (Hline : forall line w1, stable w w1 -> stable w (EngineManager_handleMessage line w1)).
  { intros line w1 [A B]. destruct (handleMessage_ready line w1) as [C D].
    rewrite A, Hr in C, D. simpl in C, D. split; [congruence | lia]. }
  assert (H : stable w (step e w)).
  { destruct e as [data| |[line|]|n rnd| | |square|target|h]; simpl.
    - destruct (engine w); [apply Hline|]; apply stable_refl.
    - destruct (engine w); [|apply stable_refl].
      unfold engine_onerror. apply stable_switchToMainThread. repeat stable_step.
    - apply stable_iter; [apply Hline | apply stable_refl].
    - apply stable_refl.
    - apply stable_fire, stable_refl.
    - apply stable_newGame, stable_refl.
    - apply stable_undoMove, stable_refl.
    - apply stable_handlePointerDown, stable_refl.
    - destruct (pointerupListeners w); [apply stable_refl|].
      apply stable_iter; [intros; apply stable_handlePointerUp; assumption | apply stable_refl].
    - repeat stable_step. }
  destruct H as [A B]. split; congruence.
Qed.

Lemma run_after_ready (events : list Event) (w : World) :
  isReady w = true ->
  isReady (run events w) = true /\ readyFired (run events w) = readyFired w.
Proof.
  revert w. induction events as [|e events IH]; intros w Hr; [split; auto|].
  destruct (step_after_ready e w Hr) as [A B].
  destruct (IH _ A) as [C D]. rewrite run_cons.
  split; [exact C | congruence].
Qed.

Lemma handleMessages_before_ready (lines : list string) (w : World) :
  isReady w = false -> ~ In "uciok" lines ->
  isReady (handleMessages lines w) = false
  /\ readyFired (handleMessages lines w) = readyFired w.
Proof.
  revert w. induction lines as [|line lines IH]; intros w Hr Hno; [split; auto|].
  assert (Hl : (line =? "uciok") = false).
  { destruct (String.eqb_spec line "uciok") as [->|]; [|reflexivity].
    exfalso. apply Hno. left. reflexivity. }
  destruct (handleMessage_ready line w) as [A B]. rewrite Hr, Hl in A, B. simpl in A, B.
  destruct (IH _ A (fun H => Hno (or_intror H))) as [C D].
  rewrite handleMessages_cons. split; [exact C | rewrite D, B; lia].
Qed.

Lemma handleMessages_first_ready (lines : list string) (w : World) :
  isReady w = false -> In "uciok" lines ->
  isReady (handleMessages lines w) = true
  /\ readyFired (handleMessages lines w) = S (readyFired w).
Proof.
  revert w. induction lines as [|line lines IH]; intros w Hr Hin; [destruct Hin|].
  destruct (handleMessage_ready line w) as [A B]. rewrite Hr in A, B. simpl in A, B.
  destruct (String.eqb_spec line "uciok") as [->|Hne].
  - destruct (handleMessages_after_ready lines _ A) as [C D].
    rewrite handleMessages_cons. split; [exact C | rewrite D, B; lia].
  - destruct Hin as [Heq|Hin]; [congruence|].
    destruct (IH _ A Hin) as [C D].
    rewrite handleMessages_cons. split; [exact C | rewrite D, B; lia].
Qed.

(** C3.  Start before readiness.  As long as no line is ['uciok'] the
    engine is not ready and the ready callback has not run.  After any
    lines that contain ['uciok'], however many times, the callback has run
    exactly once, and whatever comes later (further lines, then any events
    of the page) the engine is still ready and the callback has still run
    exactly once. *)
Theorem ready_callback_fires_once (w : World) (lines : list string) :
  isReady w = false ->
  (~ In "uciok" lines ->
     isReady (handleMessages lines w) = false
     /\ readyFired (handleMessages lines w) = readyFired w)
  /\ (In "uciok" lines ->
      forall (later : list string) (events : list Event),
        let w' := run events (handleMessages (lines ++ later) w) in
        isReady w' = true /\ readyFired w' = S (readyFired w)).
Proof.
  intros Hr. split.
  - apply handleMessages_before_ready. exact Hr.
  - intros Hin later events w'. subst w'.
    destruct (handleMessages_first_ready lines w Hr Hin) as [A B].
    rewrite handleMessages_app.
    destruct (handleMessages_after_ready later _ A) as [C D].
    destruct (run_after_ready events _ C) as [E F].
    split; [exact E | congruence].
Qed.

(** ** Best-move replies *)

Lemma split_word (s : string) : no_space s = true -> JS.split " " s = [s].
Proof.
  induction s as [|c s IH]; simpl; [reflexivity|].
  intros H. apply andb_prop in H. destruct H as [Hc Hs].
  apply negb_true_iff in Hc. rewrite Hc, (IH Hs). reflexivity.
Qed.

Lemma split_field (s t : string) :
  no_space s = true -> JS.split " " (s ++ String " " t) = s :: JS.split " " t.
Proof.
  induction s as [|c s IH]; simpl; [reflexivity|].
  intros H. apply andb_prop in H. destruct H as [Hc Hs].
  apply negb_true_iff in Hc. rewrite Hc, (IH Hs). reflexivity.
Qed.

Lemma append_empty (s : string) : s ++ "" = s.
Proof. induction s as [|c s IH]; simpl; [|rewrite IH]; reflexivity. Qed.

Lemma reply_line_token (token rest : string) :
  no_space token = true -> tail_ok rest = true ->
  nth_error (JS.split " " (reply_line token rest)) 1 = Some token.
Proof.
  intros Ht Hr. unfold reply_line.
  change ("bestmove " ++ token ++ rest) with ("bestmove" ++ String " " (token ++ rest)).
  rewrite split_field by reflexivity.
  destruct rest as [|c rest].
  - rewrite append_empty, split_word by exact Ht. reflexivity.
  - simpl in Hr. apply Ascii.eqb_eq in Hr. subst c.
    rewrite split_field by exact Ht. reflexivity.
Qed.

Lemma handleMessage_bestmove (line : string) (w : World) :
  JS.startsWith "bestmove" line = true ->
  EngineManager_handleMessage line w
  = handleAiMove (nth_error (JS.split " " line) 1) w.
Proof.
  intros H. unfold EngineManager_handleMessage, handleMessage.
  rewrite (bestmove_is_not_uciok line H), H. reflexivity.
Qed.

Lemma handleAiMove_thinking (bestMove : option string) (w : World) :
  isThinking w = true ->
  isThinking (handleAiMove bestMove w) = false
  /\ game (handleAiMove bestMove w)
     = match bestMove with
       | Some token =>
           if JS.truthy bestMove && negb (token =? "(none)")
           then played (game w)
                  (FromTo (Some (JS.substring 0 2 token)) (JS.substring 2 4 token)
                     (JS.substring 4 5 token))
           else game w
       | None => game w
       end.
Proof.
  intros Hth. unfold handleAiMove, played, game_move. rewrite Hth. cbn [negb].
  destruct bestMove as [token|]; [destruct (JS.truthy (Some token) && _)|];
    cbn zeta; try destruct (move (game w) _); frame; split; reflexivity.
Qed.

(** C5.  A line that begins with ['bestmove'] hands the second
    space-separated field to the reply handler.  While the engine is
    thinking, a line ['bestmove <token>'], alone or followed by a space and
    more, ends the thinking; a token of four characters is submitted to the
    rules engine as origin (first two), destination (next two) and an empty
    promotion, one of five characters with the fifth as promotion letter;
    the token ['(none)'] leaves the position as it is. *)
Theorem bestmove_decoded_and_applied (w : World) (token rest : string) :
  isThinking w = true -> no_space token = true -> tail_ok rest = true ->
  let w' := EngineManager_handleMessage (reply_line token rest) w in
  (forall line : string,
      JS.startsWith "bestmove" line = true ->
      EngineManager_handleMessage line w
      = handleAiMove (nth_error (JS.split " " line) 1) w)
  /\ w' = handleAiMove (Some token) w
  /\ isThinking w' = false
  /\ (token = "(none)" -> game w' = game w)
  /\ (token <> "" -> token <> "(none)" ->
      game w' = played (game w)
                  (FromTo (Some (JS.substring 0 2 token)) (JS.substring 2 4 token)
                     (JS.substring 4 5 token)))
  /\ (forall a b c d : ascii,
        token = String a (String b (String c (String d ""))) ->
        game w' = played (game w)
                    (FromTo (Some (String a (String b ""))) (String c (String d "")) ""))
  /\ (forall a b c d p : ascii,
        token = String a (String b (String c (String d (String p "")))) ->
        game w' = played (game w)
                    (FromTo (Some (String a (String b ""))) (String c (String d ""))
                       (String p ""))).
Proof.
  intros Hth Htok Hrest w'.
  assert (Hw' : w' = handleAiMove (Some token) w).
  { subst w'. rewrite handleMessage_bestmove by reflexivity.
    rewrite reply_line_token by assumption. reflexivity. }
  destruct (handleAiMove_thinking (Some token) w Hth) as [Hflag Hgame].
  rewrite <- Hw' in Hflag, Hgame.
  assert (Hdecode : token <> "" -> token <> "(none)" ->
            game w' = played (game w)
                        (FromTo (Some (JS.substring 0 2 token)) (JS.substring 2 4 token)
                           (JS.substring 4 5 token))).
  { intros Hne Hnone. rewrite Hgame.
    destruct token as [|c token]; [contradiction|].
    destruct (String.eqb_spec (String c token) "(none)"); [contradiction|reflexivity]. }
  split; [intros line; apply handleMessage_bestmove|].
  split; [exact Hw'|]. split; [exact Hflag|].
  split; [|split; [exact Hdecode|split]].
  - intros ->. exact Hgame.
  - intros a b c d ->. rewrite Hdecode; [reflexivity | discriminate | discriminate].
  - intros a b c d p ->. rewrite Hdecode; [reflexivity | discriminate | discriminate].
Qed.

(** ** The random fallback *)

(** *** The product of the draw and the length, as doubles multiply *)

Section DoubleProduct.

Local Open Scope Z_scope.

Lemma round_half_even_upper (N D M : Z) :
  0 < D -> N <= M * D -> JS.round_half_even N D <= M.
Proof.
  intros HD H. unfold JS.round_half_even.
  pose proof (Z.div_mod N D ltac:(lia)) as E.
  pose proof (Z.mod_pos_bound N D HD) as B.
  assert (Hq : N / D <= M) by nia.
  destruct (Z.compare_spec (2 * (N mod D)) D) as [C|C|C]; [|lia|];
    (assert (N / D < M) by nia); destruct (Z.even (N / D)); lia.
Qed.

Lemma round_half_even_lower (N D M : Z) :
  0 < D -> M * D <= N -> M <= JS.round_half_even N D.
Proof.
  intros HD H. unfold JS.round_half_even.
  pose proof (Z.div_mod N D ltac:(lia)) as E.
  pose proof (Z.mod_pos_bound N D HD) as B.
  assert (Hq : M <= N / D) by nia.
  destruct (2 * (N mod D) ?= D); [destruct (Z.even (N / D))| |]; lia.
Qed.

Lemma round_half_even_below (N D M : Z) :
  0 < D -> 2 * N < (2 * M - 1) * D -> JS.round_half_even N D <= M - 1.
Proof.
  intros HD H. unfold JS.round_half_even.
  pose proof (Z.div_mod N D ltac:(lia)) as E.
  pose proof (Z.mod_pos_bound N D HD) as B.
  assert (Hq : N / D <= M - 1) by nia.
  destruct (Z.compare_spec (2 * (N mod D)) D) as [C|C|C]; [|lia|];
    (assert (N / D < M - 1) by nia); destruct (Z.even (N / D)); lia.
Qed.

Lemma exponent_lower (N D : Z) :
  0 < N -> 0 < D -> 0 <= JS.exponent N D -> D * 2 ^ JS.exponent N D <= N.
Proof.
  intros HN HD. unfold JS.exponent, JS.scale2.
  set (e := Z.log2 N - Z.log2 D).
  pose proof (Z.log2_spec N HN) as [LN _].
  pose proof (Z.log2_spec D HD) as [_ LD].
  pose proof (Z.log2_nonneg D) as ND.
  destruct (0 <=? - e) eqn:Es.
  - apply Z.leb_le in Es.
    destruct (D <=? N * 2 ^ (- e)) eqn:T.
    + intros He. assert (e = 0) by lia. apply Z.leb_le in T.
      replace (- e) with 0 in T by lia. rewrite H. simpl in *. lia.
    + intros He. lia.
  - apply Z.leb_gt in Es.
    destruct (D * 2 ^ (- - e) <=? N) eqn:T.
    + intros _. apply Z.leb_le in T. rewrite Z.opp_involutive in T. exact T.
    + intros He.
      assert (E : Z.log2 N = Z.succ (Z.log2 D) + (e - 1)) by lia.
      rewrite E, Z.pow_add_r in LN by lia.
      assert (0 < 2 ^ (e - 1)) by (apply Z.pow_pos_nonneg; lia).
      nia.
Qed.

Lemma scale2_back (k s : Z) :
  0 <= s -> 0 <= k -> let (A, B) := JS.scale2 k 1 (- s) in A / B = k / 2 ^ s.
Proof.
  intros Hs Hk. unfold JS.scale2.
  destruct (0 <=? - s) eqn:E.
  - apply Z.leb_le in E. assert (s = 0) by lia. subst s. simpl.
    rewrite Z.mul_1_r. reflexivity.
  - rewrite Z.opp_involutive, Z.mul_1_l. reflexivity.
Qed.

(** what the draw being a double below one gives: r <= 1 - 2^-53 *)
Lemma double01_bounds (r : Q) :
  JS.is_double01 r ->
  0 <= Qnum r /\ Qnum r * 2 ^ 53 <= (2 ^ 53 - 1) * Zpos (Qden r).
Proof.
  intros (m & d & Hm & Hd & E).
  unfold Qeq in E. cbn [Qnum Qden Qmult inject_Z] in E.
  rewrite Pos.mul_1_r, !Z.mul_1_r in E.
  assert (P : 0 < 2 ^ d) by (apply Z.pow_pos_nonneg; lia).
  assert (P2 : 0 < 2 ^ (d - 53)) by (apply Z.pow_pos_nonneg; lia).
  assert (S : 2 ^ d = 2 ^ 53 * 2 ^ (d - 53))
    by (rewrite <- Z.pow_add_r by lia; f_equal; lia).
  pose proof (Pos2Z.is_pos (Qden r)) as HD.
  split.
  - nia.
  - set (a := Qnum r) in *. set (b := Zpos (Qden r)) in *.
    set (t := 2 ^ (d - 53)) in *. set (T := 2 ^ 53) in *.
    assert (m * b <= (T - 1) * b) by nia.
    assert (a * T * t <= (T - 1) * b) by nia.
    assert (1 <= t) by lia.
    assert (0 <= a) by nia.
    assert (a * T <= a * T * t) by nia.
    lia.
Qed.

Section Index.
Variables (r : Q) (n : nat).
Hypothesis Hr : JS.is_double01 r.
Hypothesis Hn : (0 < n)%nat.
Hypothesis Hn53 : Z.of_nat n < 2 ^ 53.

Let N := Qnum r * Z.of_nat n.
Let D := Zpos (Qden r).

Lemma floor_scaled_unfold :
  JS.floor_scaled r n =
  Z.to_nat (let (A, B) := JS.to_double N D in A / B).
Proof.
  unfold JS.floor_scaled. cbn [Qnum Qden Qmult inject_Z].
  rewrite Pos.mul_1_r. fold N D. destruct (JS.to_double N D). reflexivity.
Qed.

Lemma exact_index_unfold : exact_index r n = Z.to_nat (N / D).
Proof.
  unfold exact_index, Qfloor. cbn [Qnum Qden Qmult inject_Z].
  rewrite Pos.mul_1_r. reflexivity.
Qed.

Lemma N_bounds : 0 <= N /\ N < Z.of_nat n * D /\ N * 2 ^ 53 <= (2 ^ 53 - 1) * (Z.of_nat n * D).
Proof.
  destruct (double01_bounds r Hr) as [A B]. fold D in B.
  assert (0 < D) by (unfold D; lia).
  unfold N. repeat split; nia.
Qed.

Lemma exponent_small : 0 < N -> JS.exponent N D <= 52.
Proof.
  intros HN. destruct (Z_le_gt_dec (JS.exponent N D) 52) as [L|G]; [exact L|exfalso].
  assert (HD : 0 < D) by (unfold D; lia).
  pose proof (exponent_lower N D HN HD ltac:(lia)) as E.
  destruct N_bounds as (_ & U & _).
  assert (P : 2 ^ 53 <= 2 ^ JS.exponent N D) by (apply Z.pow_le_mono_r; lia).
  nia.
Qed.

(** The index, for a positive product: round [N * 2^s / D] to the nearest
    integer [k], and take [k / 2^s]. *)
Lemma floor_scaled_positive :
  0 < N ->
  let s := Z.min (52 - JS.exponent N D) 1074 in
  0 <= s /\
  JS.floor_scaled r n = Z.to_nat (JS.round_half_even (N * 2 ^ s) D / 2 ^ s).
Proof.
  intros HN s. pose proof (exponent_small HN) as E.
  assert (Hs : 0 <= s) by (unfold s; lia).
  split; [exact Hs|].
  rewrite floor_scaled_unfold. unfold JS.to_double.
  destruct (N <=? 0) eqn:Z0; [apply Z.leb_le in Z0; lia|].
  fold s. unfold JS.scale2 at 1.
  destruct (0 <=? s) eqn:S0; [|apply Z.leb_gt in S0; lia].
  assert (K : 0 <= JS.round_half_even (N * 2 ^ s) D).
  { apply round_half_even_lower; [unfold D; lia|].
    assert (0 < 2 ^ s) by (apply Z.pow_pos_nonneg; lia). nia. }
  pose proof (scale2_back (JS.round_half_even (N * 2 ^ s) D) s Hs K) as B.
  destruct (JS.scale2 _ 1 (- s)). rewrite B. reflexivity.
Qed.

(** The index is the exact one, or the next when the product rounds up. *)
Lemma floor_scaled_near_exact :
  JS.floor_scaled r n = exact_index r n \/ JS.floor_scaled r n = S (exact_index r n).
Proof.
  assert (HD : 0 < D) by (unfold D; lia).
  destruct N_bounds as (N0 & _ & _).
  rewrite exact_index_unfold.
  destruct (Z.eq_dec N 0) as [Z0|NZ].
  - left. rewrite floor_scaled_unfold. unfold JS.to_double. rewrite Z0. reflexivity.
  - assert (HN : 0 < N) by lia.
    destruct (floor_scaled_positive HN) as [Hs ->].
    set (s := Z.min (52 - JS.exponent N D) 1074) in *.
    set (F := N / D).
    assert (P : 0 < 2 ^ s) by (apply Z.pow_pos_nonneg; lia).
    pose proof (Z.div_mod N D ltac:(lia)) as E.
    pose proof (Z.mod_pos_bound N D HD) as B. fold F in E.
    assert (F0 : 0 <= F) by (apply Z.div_pos; lia).
    assert (L : F * 2 ^ s <= JS.round_half_even (N * 2 ^ s) D)
      by (apply round_half_even_lower; [lia | nia]).
    assert (U : JS.round_half_even (N * 2 ^ s) D <= (F + 1) * 2 ^ s)
      by (apply round_half_even_upper; [lia | nia]).
    set (k := JS.round_half_even (N * 2 ^ s) D) in *.
    assert (L' : F <= k / 2 ^ s) by (apply Z.div_le_lower_bound; lia).
    assert (U' : k / 2 ^ s <= F + 1) by (apply Z.div_le_upper_bound; lia).
    destruct (Z.eq_dec (k / 2 ^ s) F) as [->|Ne]; [left; reflexivity|right].
    replace (k / 2 ^ s) with (F + 1) by lia.
    rewrite Z2Nat.inj_add by lia. rewrite Nat.add_1_r. reflexivity.
Qed.

(** The index is below [n]: a list entry is always picked. *)
Lemma floor_scaled_in_range : (JS.floor_scaled r n < n)%nat.
Proof.
  assert (HD : 0 < D) by (unfold D; lia).
  destruct N_bounds as (N0 & U & T).
  destruct (Z.eq_dec N 0) as [Z0|NZ].
  - rewrite floor_scaled_unfold. unfold JS.to_double. rewrite Z0. simpl. exact Hn.
  - assert (HN : 0 < N) by lia.
    destruct (floor_scaled_positive HN) as [Hs ->].
    pose proof (exponent_small HN) as E52.
    set (e := JS.exponent N D) in *.
    set (s := Z.min (52 - e) 1074) in *.
    assert (P : 0 < 2 ^ s) by (apply Z.pow_pos_nonneg; lia).
    set (k := JS.round_half_even (N * 2 ^ s) D).
    assert (K0 : 0 <= k).
    { apply round_half_even_lower; [lia | nia]. }
    assert (K : k <= Z.of_nat n * 2 ^ s - 1).
    { destruct (Z_le_gt_dec 0 e) as [Pos|Neg].
      - (* the product and [n] may share a binade *)
        pose proof (exponent_lower N D HN HD Pos) as L. fold e in L.
        assert (Es : s = 52 - e) by (unfold s; lia).
        assert (P53 : 2 ^ 53 = 2 ^ (s + 1) * 2 ^ e)
          by (rewrite <- Z.pow_add_r by lia; f_equal; lia).
        assert (P1 : 2 ^ (s + 1) = 2 * 2 ^ s)
          by (rewrite Z.pow_add_r by lia; lia).
        assert (Pe : 0 < 2 ^ e) by (apply Z.pow_pos_nonneg; lia).
        replace (Z.of_nat n * 2 ^ s - 1) with (Z.of_nat n * 2 ^ s - 1) by lia.
        apply (round_half_even_below (N * 2 ^ s) D (Z.of_nat n * 2 ^ s)); [lia|].
        set (q := Z.of_nat n * D - N) in *.
        assert (Q1 : Z.of_nat n * D <= q * 2 ^ 53) by (unfold q; lia).
        assert (Q2 : D * 2 ^ e < Z.of_nat n * D) by lia.
        assert (Q3 : D * 2 ^ e < q * (2 ^ (s + 1) * 2 ^ e)) by (rewrite <- P53; lia).
        assert (Q4 : D < q * 2 ^ (s + 1)) by nia.
        unfold q in Q4. rewrite P1 in Q4. nia.
      - assert (S53 : 53 <= s) by (unfold s; lia).
        assert (P53 : 2 ^ 53 <= 2 ^ s) by (apply Z.pow_le_mono_r; lia).
        apply round_half_even_upper; [lia|].
        assert (T53 : 0 < 2 ^ 53) by (apply Z.pow_pos_nonneg; lia).
        assert (Q1 : N * 2 ^ s * 2 ^ 53
                     <= (Z.of_nat n * 2 ^ s - 1) * D * 2 ^ 53).
        { set (T2 := 2 ^ 53) in *. set (S2 := 2 ^ s) in *.
          assert (N * T2 * S2 <= (T2 - 1) * (Z.of_nat n * D) * S2) by nia.
          assert (D * T2 <= Z.of_nat n * D * S2) by nia.
          nia. }
        nia. }
    apply Nat2Z.inj_lt. rewrite Z2Nat.id by (apply Z.div_pos; lia).
    apply Z.div_lt_upper_bound; lia.
Qed.
End Index.

(** Every index is picked by some draw. *)
Lemma floor_scaled_onto (n i : nat) :
  Z.of_nat n <= 2 ^ 52 -> (i < n)%nat ->
  exists r, JS.is_double01 r /\ (0 <= r < 1)%Q /\ JS.floor_scaled r n = i.
Proof.
  intros Hn Hi.
  set (T := 2 ^ 53).
  assert (T53 : T = 2 * 2 ^ 52) by reflexivity.
  set (m := (Z.of_nat i * T + Z.of_nat n - 1) / Z.of_nat n).
  assert (Hn0 : 0 < Z.of_nat n) by lia.
  pose proof (Z.div_mod (Z.of_nat i * T + Z.of_nat n - 1) (Z.of_nat n) ltac:(lia)) as E.
  pose proof (Z.mod_pos_bound (Z.of_nat i * T + Z.of_nat n - 1) (Z.of_nat n) Hn0) as B.
  fold m in E.
  assert (L : Z.of_nat i * T <= m * Z.of_nat n) by nia.
  assert (U : m * Z.of_nat n < Z.of_nat i * T + Z.of_nat n) by nia.
  assert (M0 : 0 <= m) by nia.
  assert (M1 : m < T) by nia.
  set (r := (m # Z.to_pos T)%Q).
  assert (Hr : JS.is_double01 r).
  { exists m, 53. repeat split; try lia.
    unfold Qeq. cbn [Qnum Qden Qmult inject_Z r]. fold T.
    rewrite Pos.mul_1_r, Z2Pos.id by (unfold T; lia). lia. }
  exists r. split; [exact Hr|]. split.
  { unfold Qle, Qlt. cbn [Qnum Qden r]. rewrite Z2Pos.id by (unfold T; lia). lia. }
  assert (Hn53 : Z.of_nat n < 2 ^ 53) by (fold T; lia).
  assert (Hpos : (0 < n)%nat) by lia.
  destruct (floor_scaled_near_exact r n Hr Hpos Hn53) as [X|X].
  - rewrite X, (exact_index_unfold r n). cbn [Qnum Qden r].
    rewrite Z2Pos.id by (unfold T; lia).
    replace (m * Z.of_nat n / T) with (Z.of_nat i); [apply Nat2Z.id|].
    apply Z.div_unique with (r := m * Z.of_nat n - Z.of_nat i * T); lia.
  - (* the product is too far below [i + 1] to round up to it *)
    exfalso.
    assert (F : exact_index r n = i).
    { rewrite (exact_index_unfold r n). cbn [Qnum Qden r].
      rewrite Z2Pos.id by (unfold T; lia).
      replace (m * Z.of_nat n / T) with (Z.of_nat i); [apply Nat2Z.id|].
      apply Z.div_unique with (r := m * Z.of_nat n - Z.of_nat i * T); lia. }
    rewrite F in X.
    destruct (Z.eq_dec (m * Z.of_nat n) 0) as [Z0|NZ].
    { rewrite (floor_scaled_unfold r n) in X. cbn [Qnum Qden r] in X.
      unfold JS.to_double in X. rewrite Z0 in X. simpl in X. lia. }
    assert (HN : 0 < Qnum r * Z.of_nat n) by (cbn [Qnum r]; nia).
    destruct (floor_scaled_positive r n Hr Hpos Hn53 HN) as [Hs Y].
    cbn zeta in Y. rewrite Y in X. cbn [Qnum Qden r] in X, Hs.
    rewrite Z2Pos.id in X, Hs by (unfold T; lia).
    set (s := Z.min (52 - JS.exponent (m * Z.of_nat n) T) 1074) in *.
    assert (P : 0 < 2 ^ s) by (apply Z.pow_pos_nonneg; lia).
    assert (K : JS.round_half_even (m * Z.of_nat n * 2 ^ s) T
                <= (Z.of_nat i + 1) * 2 ^ s - 1).
    { apply round_half_even_below; [unfold T; lia|]. nia. }
    assert (Q : JS.round_half_even (m * Z.of_nat n * 2 ^ s) T / 2 ^ s < Z.of_nat i + 1)
      by (apply Z.div_lt_upper_bound; lia).
    assert (Q0 : 0 <= JS.round_half_even (m * Z.of_nat n * 2 ^ s) T / 2 ^ s).
    { apply Z.div_pos; [|lia]. apply round_half_even_lower; [unfold T; lia | nia]. }
    lia.
Qed.

End DoubleProduct.

(** *** The intervals of the draw

    The exact product [r * n] has the floor [i] exactly on the draws of
    [[i/n, (i+1)/n)]. *)

Lemma Qfloor_unique (x : Q) (z : Z) :
  (inject_Z z <= x < inject_Z (z + 1))%Q <-> Qfloor x = z.
Proof.
  split.
  - intros [Hlo Hhi].
    apply Qfloor_resp_le in Hlo. rewrite Qfloor_Z in Hlo.
    pose proof (Qfloor_le x) as Hle.
    pose proof (Qle_lt_trans _ _ _ Hle Hhi) as Hlt.
    rewrite <- Zlt_Qlt in Hlt. lia.
  - intros <-. split; [apply Qfloor_le | apply Qlt_floor].
Qed.

Lemma exact_index_interval (r : Q) (n i : nat) :
  (0 <= r)%Q ->
  exact_index r n = i
  <-> (inject_Z (Z.of_nat i) <= r * inject_Z (Z.of_nat n) < inject_Z (Z.of_nat i + 1))%Q.
Proof.
  intros Hr. unfold exact_index.
  assert (H0 : (0 <= Qfloor (r * inject_Z (Z.of_nat n)))%Z).
  { change 0%Z with (Qfloor 0). apply Qfloor_resp_le.
    apply Qmult_le_0_compat; [exact Hr|].
    change 0%Q with (inject_Z 0). rewrite <- Zle_Qle. lia. }
  rewrite Qfloor_unique. lia.
Qed.

Lemma scaled_bounds (r a : Q) (n : nat) :
  (0 < n)%nat ->
  ((a / inject_Z (Z.of_nat n) <= r)%Q <-> (a <= r * inject_Z (Z.of_nat n))%Q)
  /\ ((r < a / inject_Z (Z.of_nat n))%Q <-> (r * inject_Z (Z.of_nat n) < a)%Q).
Proof.
  intros Hn.
  assert (Hpos : (0 < inject_Z (Z.of_nat n))%Q).
  { change 0%Q with (inject_Z 0). rewrite <- Zlt_Qlt. lia. }
  assert (Hne : ~ (inject_Z (Z.of_nat n) == 0)%Q).
  { intros E. rewrite E in Hpos. apply (Qlt_irrefl _ Hpos). }
  split; split; intros H.
  - rewrite <- (Qmult_le_r _ _ _ Hpos) in H.
    unfold Qdiv in H. rewrite <- Qmult_assoc, (Qmult_comm (/ _)), Qmult_inv_r, Qmult_1_r in H by exact Hne.
    exact H.
  - apply Qle_shift_div_r; assumption.
  - rewrite <- (Qmult_lt_r _ _ _ Hpos) in H.
    unfold Qdiv in H. rewrite <- Qmult_assoc, (Qmult_comm (/ _)), Qmult_inv_r, Qmult_1_r in H by exact Hne.
    exact H.
  - apply Qlt_shift_div_l; assumption.
Qed.

Lemma exact_index_uniform (r : Q) (n i : nat) :
  (0 < n)%nat -> (0 <= r)%Q ->
  exact_index r n = i
  <-> (inject_Z (Z.of_nat i) / inject_Z (Z.of_nat n) <= r
       < inject_Z (Z.of_nat i + 1) / inject_Z (Z.of_nat n))%Q.
Proof.
  intros Hn Hr. rewrite exact_index_interval by exact Hr.
  destruct (scaled_bounds r (inject_Z (Z.of_nat i)) n Hn) as [A _].
  destruct (scaled_bounds r (inject_Z (Z.of_nat i + 1)) n Hn) as [_ B].
  rewrite A, B. reflexivity.
Qed.

Lemma double01_nonneg (r : Q) : JS.is_double01 r -> (0 <= r)%Q.
Proof.
  intros H. destruct (double01_bounds r H) as [H0 _].
  unfold Qle. simpl. lia.
Qed.

Lemma makeRandomMove_isThinking (rnd : Q) (w : World) :
  isThinking (makeRandomMove rnd w) = false.
Proof. unfold makeRandomMove. cbn zeta. frame. reflexivity. Qed.

Lemma makeRandomMove_game (rnd : Q) (w : World) :
  game (makeRandomMove rnd w)
  = match moves (game w) with
    | [] => game w
    | _ :: _ =>
        match nth_error (moves (game w)) (JS.floor_scaled rnd (length (moves (game w)))) with
        | Some mk => played (game w) (San mk)
        | None => game w
        end
    end.
Proof.
  unfold makeRandomMove, played, game_move. cbn zeta. frame.
  destruct (moves (game w)) as [|m ms] eqn:Hms; [reflexivity|].
  cbn [length Nat.ltb Nat.leb].
  destruct (nth_error _ _); [destruct (move (game w) _)|]; reflexivity.
Qed.


(** ** Start-up: the worker and its fallback *)

Lemma same_channel_refl (w : World) : same_channel w w.
Proof. split; reflexivity. Qed.

Lemma same_channel_same (w w1 w2 : World) :
  isWorker w2 = isWorker w1 -> engine w2 = engine w1 ->
  same_channel w w1 -> same_channel w w2.
Proof. unfold same_channel. intros -> -> H. exact H. Qed.

Lemma same_channel_updateStatus (w w1 : World) :
  same_channel w w1 -> same_channel w (updateStatus w1).
Proof. apply same_channel_same; frame; reflexivity. Qed.

Ltac channel_step :=
  match goal with
  | |- same_channel ?w ?w => apply same_channel_refl
  | H : same_channel ?w ?w1 |- same_channel ?w ?w1 => exact H
  | |- same_channel _ (updateStatus _) => apply same_channel_updateStatus
  | |- same_channel _ (if ?b then _ else _) => destruct b
  | |- same_channel _ (match ?x with Some _ => _ | None => _ end) => destruct x
  | |- same_channel _ (?f ?x) =>
      apply (same_channel_same _ x); [frame; reflexivity | frame; reflexivity |]
  end.

Lemma same_channel_sendCommand (cmd : string) (w w1 : World) :
  same_channel w w1 -> same_channel w (sendCommand cmd w1).
Proof. apply same_channel_same; frame; reflexivity. Qed.

Lemma same_channel_triggerAi (w w1 : World) :
  same_channel w w1 -> same_channel w (triggerAi w1).
Proof.
  intros H. unfold triggerAi, setTimeout. cbn zeta.
  destruct (game_over (game w1)); [exact H|].
  destruct (isReady _).
  - do 2 apply same_channel_sendCommand. repeat channel_step.
  - repeat channel_step.
Qed.

Lemma same_channel_tryMove (from : option string) (to : string) (w w1 : World) :
  same_channel w w1 -> same_channel w (snd (tryMove from to w1)).
Proof.
  intros H. unfold tryMove.
  destruct (move (game w1) (FromTo from to "q")); [|exact H].
  cbn [snd]. apply same_channel_triggerAi. repeat channel_step.
Qed.

Lemma same_channel_game_move (m : MoveArg) (w w1 : World) :
  same_channel w w1 -> same_channel w (game_move m w1).
Proof. intros H. unfold game_move. repeat channel_step. Qed.

Lemma same_channel_handleMessage (line : string) (w w1 : World) :
  same_channel w w1 -> same_channel w (EngineManager_handleMessage line w1).
Proof.
  intros H. unfold EngineManager_handleMessage, handleMessage. cbn zeta.
  set (w2 := if line =? "uciok" then _ else _).
  assert (H2 : same_channel w w2).
  { subst w2. unfold onReadyCallback, statusCallback. repeat channel_step. }
  destruct (JS.startsWith "bestmove" line); [|exact H2].
  unfold handleAiMove. cbn zeta.
  destruct (negb (isThinking w2)); [exact H2|].
  destruct (nth_error _ 1) as [token|]; [destruct (JS.truthy (Some token) && _)|];
    repeat channel_step; apply same_channel_game_move; exact H2.
Qed.

Lemma same_channel_iter (f : World -> World) (n : nat) (w w1 : World) :
  (forall w2, same_channel w w2 -> same_channel w (f w2)) ->
  same_channel w w1 -> same_channel w (Nat.iter n f w1).
Proof. intros Hf H. induction n; simpl; auto. Qed.

Lemma same_channel_ok (w w' : World) : same_channel w w' -> channel_ok w -> channel_ok w'.
Proof. unfold same_channel, channel_ok. intros [-> ->] H. exact H. Qed.

Lemma switchToMainThread_channel (w : World) :
  channel_ok w ->
  isWorker (switchToMainThread statusCallback w) = false
  /\ engine (switchToMainThread statusCallback w) = None.
Proof.
  unfold channel_ok, switchToMainThread, waitForStockfishModule, setInterval, statusCallback.
  intros H. cbn zeta. frame. split; [reflexivity|].
  destruct (isWorker w) eqn:Hw; destruct (engine w) as [e|] eqn:He;
    frame; rewrite ?He; try reflexivity.
  assert (Hn : Some e <> None) by discriminate.
  apply H in Hn. discriminate.
Qed.

Lemma channel_ok_off (w : World) : isWorker w = false -> engine w = None -> channel_ok w.
Proof. unfold channel_ok. intros -> ->. split; [discriminate | contradiction]. Qed.

Lemma channel_ok_step (e : Event) (w : World) : channel_ok w -> channel_ok (step e w).
Proof.
  intros Hok.
  assert (Hswitch : forall w1, same_channel w w1 ->
            channel_ok (switchToMainThread statusCallback w1)).
  { intros w1 H1. pose proof (same_channel_ok _ _ H1 Hok) as Hok1.
    destruct (switchToMainThread_channel w1 Hok1). apply channel_ok_off; assumption. }
  destruct e as [data| |[line|]|n rnd| | |square|target|h]; simpl; try exact Hok.
  - destruct (engine w) eqn:He; [|exact Hok].
    apply (same_channel_ok w); [|exact Hok].
    apply same_channel_handleMessage, same_channel_refl.
  - destruct (engine w) eqn:He; [|exact Hok].
    unfold engine_onerror. apply Hswitch. repeat channel_step.
  - apply (same_channel_ok w); [|exact Hok].
    apply same_channel_iter; [apply same_channel_handleMessage | apply same_channel_refl].
  - unfold fire. destruct (nth_error (timers w) n) as [t|]; [|exact Hok].
    destruct (callback t) as [| |attempts].
    + unfold safetyTimeout. destruct (_ && _).
      * apply Hswitch. repeat channel_step.
      * apply (same_channel_ok w); [|exact Hok]. repeat channel_step.
    + apply (same_channel_ok w); [|exact Hok].
      unfold makeRandomMove. cbn zeta. do 3 channel_step.
      destruct (0 <? _)%nat; [|repeat channel_step].
      destruct (nth_error _ _); [apply same_channel_game_move|]; repeat channel_step.
    + apply (same_channel_ok w); [|exact Hok].
      unfold moduleCheck, initMainThread, statusCallback. cbn zeta.
      destruct (_ || _); [apply same_channel_sendCommand|]; repeat channel_step.
  - apply (same_channel_ok w); [|exact Hok].
    unfold newGame. destruct (isThinking w); [apply same_channel_refl|].
    cbn zeta. do 2 apply same_channel_sendCommand. repeat channel_step.
  - apply (same_channel_ok w); [|exact Hok].
    unfold undoMove. destruct (isThinking w); repeat channel_step.
  - apply (same_channel_ok w); [|exact Hok].
    unfold handlePointerDown. destruct (isThinking w); [apply same_channel_refl|].
    assert (Hm : same_channel w
                   (snd (if JS.truthy (selectedSquare w) && negb (isDragging w)
                         then tryMove (selectedSquare w) square w
                         else (false, w)))).
    { destruct (_ && _); [apply same_channel_tryMove|]; apply same_channel_refl. }
    destruct (if JS.truthy (selectedSquare w) && negb (isDragging w) then _ else _)
      as [moved w2].
    cbn [snd] in Hm. repeat channel_step.
  - destruct (pointerupListeners w); [exact Hok|].
    apply (same_channel_ok w); [|exact Hok].
    apply same_channel_iter; [|apply same_channel_refl].
    intros w2 H2. unfold handlePointerUp. cbn zeta. channel_step.
    set (w3 := if dragEndAttached _ then _ else _).
    assert (H3 : same_channel w w3) by (subst w3; repeat channel_step).
    destruct target as [to|]; [|exact H3].
    destruct (negb _); [apply same_channel_tryMove|]; exact H3.
Qed.

Lemma channel_ok_new (h : Host) (level : string) : channel_ok (new_ChessApp h level).
Proof.
  unfold new_ChessApp, EngineManager_init, init. cbn zeta.
  apply (same_channel_ok (init statusCallback
           {| engine := None; isWorker := false; isReady := false;
              game := new_Chess; playerColor := White; isThinking := false;
              selectedSquare := None; isDragging := false; dragStartSquare := None;
              draggedVisual := false;
              gameStatus := ""; engineStatus := ""; difficulty := level;
              messageListeners := 0; pointerupListeners := 0; dragEndAttached := false;
              host := h; timers := []; effects := [] |})).
  { unfold init. repeat channel_step. }
  unfold init, statusCallback. cbn zeta. frame.
  destruct (worker_available h).
  - unfold channel_ok. frame. split; [discriminate | reflexivity].
  - apply channel_ok_off; reflexivity.
Qed.

(** In every state the page reaches, worker mode has a worker. *)
Lemma worker_mode_has_engine (h : Host) (level : string) (events : list Event) :
  channel_ok (run events (new_ChessApp h level)).
Proof.
  generalize (channel_ok_new h level). generalize (new_ChessApp h level).
  induction events as [|e events IH]; intros w Hok; [exact Hok|].
  rewrite run_cons. apply IH, channel_ok_step, Hok.
Qed.

(** ** Human input while the engine thinks *)

Lemma sendCommand_drag (cmd : string) (w : World) :
  selectedSquare (sendCommand cmd w) = selectedSquare w
  /\ dragStartSquare (sendCommand cmd w) = dragStartSquare w.
Proof.
  unfold sendCommand.
  destruct (negb (isReady w) && negb (cmd =? "uci")); [split; reflexivity|].
  destruct (isWorker w);
    [destruct (engine w)
    |destruct (StockfishModule (host w)) as [| |[| |]];
       try destruct (window_onmessage (host w))];
    split; reflexivity.
Qed.

Lemma sendCommand_selectedSquare (cmd : string) (w : World) :
  selectedSquare (sendCommand cmd w) = selectedSquare w.
Proof. apply sendCommand_drag. Qed.

Lemma sendCommand_dragStartSquare (cmd : string) (w : World) :
  dragStartSquare (sendCommand cmd w) = dragStartSquare w.
Proof. apply sendCommand_drag. Qed.

Lemma updateStatus_selectedSquare (w : World) :
  selectedSquare (updateStatus w) = selectedSquare w.
Proof.
  unfold updateStatus.
  destruct (in_checkmate (game w)); [|destruct (in_draw (game w))]; reflexivity.
Qed.

Lemma updateStatus_dragStartSquare (w : World) :
  dragStartSquare (updateStatus w) = dragStartSquare w.
Proof.
  unfold updateStatus.
  destruct (in_checkmate (game w)); [|destruct (in_draw (game w))]; reflexivity.
Qed.

#[local] Hint Rewrite
  sendCommand_selectedSquare sendCommand_dragStartSquare
  updateStatus_selectedSquare updateStatus_dragStartSquare : frame.

Lemma drag_same (w1 w2 : World) :
  game w2 = game w1 -> isThinking w2 = isThinking w1 ->
  selectedSquare w2 = selectedSquare w1 -> dragStartSquare w2 = dragStartSquare w1 ->
  drag_ok w1 -> drag_ok w2.
Proof. unfold drag_ok. intros -> -> -> -> H. exact H. Qed.

Lemma drag_idle (w : World) :
  isThinking w = false ->
  selectedSquare w = None \/ selectedSquare w = dragStartSquare w ->
  drag_ok w.
Proof. intros Hidle H. split; [exact H|]. rewrite Hidle. discriminate. Qed.

Lemma drag_deselect (w : World) : drag_ok w -> drag_ok (set_selectedSquare None w).
Proof. intros [_ B]. split; [left; reflexivity | exact B]. Qed.

(** Walks down a state expression whose wrappers keep the position, the
    flag and the two squares. *)
Ltac drag_step :=
  match goal with
  | H : drag_ok ?w |- drag_ok ?w => exact H
  | |- drag_ok (if ?b then _ else _) => destruct b
  | |- drag_ok (match ?x with Some _ => _ | None => _ end) => destruct x
  | |- drag_ok (?f ?x) =>
      apply (drag_same x); [frame; reflexivity | frame; reflexivity
                           | frame; reflexivity | frame; reflexivity |]
  end.

Lemma triggerAi_drag (w : World) :
  selectedSquare (triggerAi w) = selectedSquare w
  /\ dragStartSquare (triggerAi w) = dragStartSquare w.
Proof.
  unfold triggerAi. destruct (game_over (game w)); [split; reflexivity|].
  cbn zeta. destruct (isReady (set_gameStatus _ _)); frame; split; reflexivity.
Qed.

(** A move from the square of the last press leaves that square empty:
    whether the engine is then asked or not, no second move starts there. *)
Lemma drag_tryMove {L : DepartureLaw R} (to : string) (w : World) :
  drag_ok w -> drag_ok (snd (tryMove (dragStartSquare w) to w)).
Proof.
  intros H. unfold tryMove.
  destruct (move (game w) (FromTo (dragStartSquare w) to "q")) as [g|] eqn:Hm; [|exact H].
  cbn [snd]. destruct (triggerAi_drag (updateStatus (renderBoard (set_game g w)))) as [Hs Hd].
  split.
  - rewrite Hs, Hd. frame. exact (proj1 H).
  - intros _ to'. rewrite triggerAi_game, Hd. frame.
    exact (departed_square _ _ _ _ _ Hm to' "q").
Qed.

Lemma drag_handlePointerDown {L : DepartureLaw R} (square : string) (w : World) :
  drag_ok w -> drag_ok (handlePointerDown square w).
Proof.
  intros H. unfold handlePointerDown.
  destruct (isThinking w) eqn:Hidle; [exact H|].
  assert (Hpress : drag_ok
            (if match get (game w) square with
                | Some piece => Color_eqb (color piece) (playerColor w)
                | None => false
                end
             then renderBoard
                    (set_dragEndAttached true
                       (set_pointerupListeners (S (pointerupListeners w))
                          (set_draggedVisual true
                             (set_selectedSquare (Some square)
                                (set_dragStartSquare (Some square)
                                   (set_isDragging true (log PreventDefault w)))))))
             else renderBoard (set_selectedSquare None w))).
  { destruct (match get (game w) square with Some _ => _ | None => _ end);
      apply drag_idle; frame; try exact Hidle; [right | left]; reflexivity. }
  destruct (JS.truthy (selectedSquare w) && negb (isDragging w)) eqn:Hc; [|exact Hpress].
  apply andb_prop in Hc. destruct Hc as [Hsel _].
  assert (E : selectedSquare w = dragStartSquare w).
  { destruct H as [[E|E] _]; [rewrite E in Hsel; discriminate | exact E]. }
  rewrite E.
  pose proof (drag_tryMove square w H) as Ht.
  pose proof (tryMove_game (dragStartSquare w) square w) as Hg.
  destruct (move (game w) (FromTo (dragStartSquare w) square "q")) as [g|].
  - destruct Hg as [Hg _]. rewrite Hg in *. cbn [snd] in Ht.
    apply drag_deselect, Ht.
  - rewrite Hg. exact Hpress.
Qed.

(** The release handler up to the move it may try. *)
Lemma handlePointerUp_eq (target : option string) (w : World) :
  exists w2 : World,
    game w2 = game w /\ isThinking w2 = isThinking w
    /\ selectedSquare w2 = selectedSquare w /\ dragStartSquare w2 = dragStartSquare w
    /\ timers w2 = timers w /\ effects w2 = effects w
    /\ handlePointerUp target w
       = renderBoard
           match target with
           | Some target =>
               if negb (JS.strict_eq (Some target) (dragStartSquare w2))
               then snd (tryMove (dragStartSquare w2) target w2)
               else w2
           | None => w2
           end.
Proof.
  unfold handlePointerUp. cbn zeta.
  set (w1 := if draggedVisual (set_isDragging false w) then _ else _).
  set (w2 := if dragEndAttached w1 then _ else _).
  exists w2. subst w2 w1.
  destruct (draggedVisual _); destruct (dragEndAttached _); repeat split; reflexivity.
Qed.

Lemma drag_handlePointerUp {L : DepartureLaw R} (target : option string) (w : World) :
  drag_ok w -> drag_ok (handlePointerUp target w).
Proof.
  intros H. destruct (handlePointerUp_eq target w) as (w2 & Hg & Ht & Hs & Hd & _ & _ & ->).
  assert (H2 : drag_ok w2) by (apply (drag_same w); assumption).
  apply (drag_same
           match target with
           | Some target =>
               if negb (JS.strict_eq (Some target) (dragStartSquare w2))
               then snd (tryMove (dragStartSquare w2) target w2)
               else w2
           | None => w2
           end); [reflexivity | reflexivity | reflexivity | reflexivity |].
  destruct target as [to|]; [|exact H2].
  destruct (negb _); [apply drag_tryMove|]; exact H2.
Qed.

Lemma game_move_drag (m : MoveArg) (w : World) :
  isThinking (game_move m w) = isThinking w
  /\ selectedSquare (game_move m w) = selectedSquare w
  /\ dragStartSquare (game_move m w) = dragStartSquare w.
Proof. unfold game_move. destruct (move (game w) m); repeat split; reflexivity. Qed.

Lemma drag_handleAiMove (bestMove : option string) (w : World) :
  drag_ok w -> drag_ok (handleAiMove bestMove w).
Proof.
  intros H. unfold handleAiMove.
  destruct (negb (isThinking w)); [exact H|].
  cbn zeta.
  destruct bestMove as [token|]; [destruct (JS.truthy (Some token) && _)|];
    apply drag_idle; frame; try reflexivity;
    rewrite ?(proj1 (proj2 (game_move_drag _ _))), ?(proj2 (proj2 (game_move_drag _ _)));
    exact (proj1 H).
Qed.

Lemma drag_makeRandomMove (rnd : Q) (w : World) :
  drag_ok w -> drag_ok (makeRandomMove rnd w).
Proof.
  intros H. unfold makeRandomMove. cbn zeta.
  apply drag_idle; frame; [reflexivity|].
  destruct (0 <? length (moves (game w)))%nat; [|exact (proj1 H)].
  destruct (nth_error _ _); [|exact (proj1 H)].
  rewrite (proj1 (proj2 (game_move_drag _ _))), (proj2 (proj2 (game_move_drag _ _))).
  exact (proj1 H).
Qed.

Lemma drag_handleMessage (line : string) (w : World) :
  drag_ok w -> drag_ok (EngineManager_handleMessage line w).
Proof.
  intros H. unfold EngineManager_handleMessage, handleMessage. cbn zeta.
  set (w2 := if line =? "uciok" then _ else _).
  assert (H2 : drag_ok w2).
  { subst w2. unfold onReadyCallback, statusCallback. repeat drag_step. }
  destruct (JS.startsWith "bestmove" line); [apply drag_handleAiMove|]; exact H2.
Qed.

Lemma drag_switchToMainThread (w : World) :
  drag_ok w -> drag_ok (switchToMainThread statusCallback w).
Proof.
  intros H. unfold switchToMainThread, waitForStockfishModule, setInterval, statusCallback.
  cbn zeta. repeat drag_step.
Qed.

Lemma drag_iter (f : World -> World) (n : nat) (w : World) :
  (forall w1, drag_ok w1 -> drag_ok (f w1)) -> drag_ok w -> drag_ok (Nat.iter n f w).
Proof. intros Hf H. induction n; simpl; auto. Qed.

Lemma drag_step_ok {L : DepartureLaw R} (e : Event) (w : World) :
  drag_ok w -> drag_ok (step e w).
Proof.
  intros H.
  destruct e as [data| |[line|]|n rnd| | |square|target|h]; cbn [step].
  - destruct (engine w); [apply drag_handleMessage|]; exact H.
  - destruct (engine w); [|exact H].
    unfold engine_onerror. apply drag_switchToMainThread. repeat drag_step.
  - apply drag_iter; [apply drag_handleMessage | exact H].
  - exact H.
  - unfold fire. destruct (nth_error (timers w) n) as [t|]; [|exact H].
    destruct (callback t) as [| |attempts].
    + unfold safetyTimeout. destruct (_ && _).
      * apply drag_switchToMainThread. repeat drag_step.
      * repeat drag_step.
    + apply drag_makeRandomMove. repeat drag_step.
    + unfold moduleCheck, initMainThread, statusCallback. cbn zeta.
      destruct (_ || _); [|destruct (20 <? S attempts)%nat]; repeat drag_step.
  - unfold newGame. destruct (isThinking w) eqn:Hidle; [exact H|].
    cbn zeta. apply drag_idle; frame; [exact Hidle | left; reflexivity].
  - unfold undoMove. destruct (isThinking w) eqn:Hidle; [exact H|].
    cbn zeta. apply drag_idle; frame; [exact Hidle | exact (proj1 H)].
  - apply drag_handlePointerDown, H.
  - destruct (pointerupListeners w); [exact H|].
    apply drag_iter; [intros w1; apply drag_handlePointerUp | exact H].
  - revert H. apply drag_same; reflexivity.
Qed.

Lemma drag_new_ChessApp (h : Host) (level : string) : drag_ok (new_ChessApp h level).
Proof.
  unfold new_ChessApp, EngineManager_init, init, switchToMainThread,
    waitForStockfishModule, setInterval, setTimeout, statusCallback.
  cbn zeta. apply drag_idle; frame.
  - destruct (worker_available h); frame; reflexivity.
  - left. destruct (worker_available h); frame; reflexivity.
Qed.

Lemma drag_deliver {L : DepartureLaw R} (d : Delivery) (w : World) :
  drag_ok w -> drag_ok (deliver d w).
Proof.
  intros H. destruct d as [e|data|]; cbn [deliver].
  - apply drag_step_ok, H.
  - apply drag_handleMessage, H.
  - unfold engine_onerror. apply drag_switchToMainThread. repeat drag_step.
Qed.

Lemma drag_deliver_all {L : DepartureLaw R}
    (h : Host) (level : string) (deliveries : list Delivery) :
  drag_ok (deliver_all deliveries (new_ChessApp h level)).
Proof.
  generalize (drag_new_ChessApp h level). generalize (new_ChessApp h level).
  induction deliveries as [|d deliveries IH]; intros w H; [exact H|].
  change (deliver_all (d :: deliveries) w) with (deliver_all deliveries (deliver d w)).
  apply IH, drag_deliver, H.
Qed.

Lemma handlePointerUp_thinking (target : option string) (w : World) :
  drag_ok w -> isThinking w = true ->
  drag_ok (handlePointerUp target w) /\ untouched w (handlePointerUp target w).
Proof.
  intros H Hth. pose proof (proj2 H Hth) as Hnone.
  destruct (handlePointerUp_eq target w) as (w2 & Hg & Ht & Hs & Hd & Htm & He & E).
  assert (E' : handlePointerUp target w = renderBoard w2).
  { rewrite E. f_equal. destruct target as [to|]; [|reflexivity].
    destruct (negb _); [|reflexivity].
    unfold tryMove. rewrite Hg, Hd, Hnone. reflexivity. }
  rewrite E'. split.
  - apply (drag_same w); try assumption.
  - unfold untouched. frame. rewrite commands_app, He, app_nil_r.
    repeat split; assumption.
Qed.

Lemma pointer_event_thinking (e : Event) (w : World) :
  drag_ok w -> isThinking w = true -> is_pointer e = true ->
  drag_ok (step e w) /\ untouched w (step e w).
Proof.
  intros H Hth He.
  assert (Hrefl : untouched w w) by (repeat split; reflexivity).
  destruct e; try discriminate He; cbn [step].
  - unfold handlePointerDown. rewrite Hth. split; [exact H | exact Hrefl].
  - destruct (pointerupListeners w); [split; [exact H | exact Hrefl]|].
    induction (pointerup_calls w) as [|k IH]; [split; [exact H | exact Hrefl]|].
    rewrite Nat.iter_succ. destruct IH as (Hk & Ug & Ut & Utm & Uc).
    assert (Hthk : isThinking (Nat.iter k (handlePointerUp target) w) = true)
      by (rewrite Ut; exact Hth).
    destruct (handlePointerUp_thinking target _ Hk Hthk) as (Hk' & Vg & Vt & Vtm & Vc).
    split; [exact Hk'|].
    repeat split; congruence.
Qed.

(** C8.  While [isThinking] is true, no move attempt of the human changes
    the position.  A press returns before anything else, in any state: no
    call of [tryMove], no change at all.  The release handler holds no such
    guard and does call [tryMove] from the square of the last press; in the
    states the page reaches (late events of a terminated worker included),
    that is the square the human's move has just left, so the rules engine,
    for which a move empties the square it starts from, takes no move from
    it: [tryMove] returns false and changes nothing.  So whatever the
    pointer does, presses and releases, also with listeners left from
    overlapping drags, the position, the turn and the flag stay, no timer is
    armed and no command is sent. *)
Theorem move_attempts_rejected_while_thinking {L : DepartureLaw R}
    (h : Host) (level : string) (deliveries : list Delivery) :
  let w := deliver_all deliveries (new_ChessApp h level) in
  isThinking w = true ->
  (forall (w0 : World) (square : string),
      isThinking w0 = true ->
      handlePointerDown square w0 = w0 /\ step (PointerDown square) w0 = w0)
  /\ (forall to : string, tryMove (dragStartSquare w) to w = (false, w))
  /\ (forall target : option string,
        untouched w (handlePointerUp target w)
        /\ untouched w (step (PointerUp target) w))
  /\ (forall gestures : list Event,
        forallb is_pointer gestures = true -> untouched w (run gestures w)).
Proof.
  intros w Hth.
  assert (H : drag_ok w) by apply drag_deliver_all.
  split; [|split; [|split]].
  - intros w0 square H0. unfold step, handlePointerDown. rewrite H0. split; reflexivity.
  - intros to. unfold tryMove. rewrite (proj2 H Hth). reflexivity.
  - intros target. split.
    + apply handlePointerUp_thinking; assumption.
    + apply pointer_event_thinking; [assumption | assumption | reflexivity].
  - clearbody w. clear deliveries.
    assert (G : forall gestures w1,
              drag_ok w1 -> isThinking w1 = true ->
              forallb is_pointer gestures = true -> untouched w1 (run gestures w1)).
    { induction gestures as [|e gestures IH]; intros w1 H1 T1 Hall.
      - repeat split; reflexivity.
      - apply andb_prop in Hall. destruct Hall as [He Hrest].
        destruct (pointer_event_thinking e w1 H1 T1 He) as (H2 & Ug & Ut & Utm & Uc).
        assert (T2 : isThinking (step e w1) = true) by (rewrite Ut; exact T1).
        rewrite run_cons.
        destruct (IH (step e w1) H2 T2 Hrest) as (Vg & Vt & Vtm & Vc).
        repeat split; congruence. }
    intros gestures. apply G; assumption.
Qed.

(** * Further properties of the two classes *)

(** ** The 2000 ms timer and the events that come late *)

(** X19.  [init()] arms a one-shot timer of 2000 ms next to the worker.
    When it fires while the worker is still pending, the worker is
    terminated and dropped, the mode flag is cleared and polling for the
    in-process engine starts.  When it fires after the race is decided, by
    readiness or by a fallback, it does nothing, and a further ['uciok']
    after readiness does nothing.  The error handler of the worker has no
    guard: whenever it runs on a live worker, ready or not, the worker is
    dropped and polling starts. *)
Theorem safety_timeout_guarded (w : World) :
  (worker_available (host w) = true ->
     timers (EngineManager_init w)
     = (timers w ++ [{| delay := 2000; repeating := false;
                        callback := SafetyTimeout |}])%list
     /\ isWorker (EngineManager_init w) = true
     /\ engine (EngineManager_init w) = Some StockfishWorker)
  /\ (pending w ->
      let w' := safetyTimeout statusCallback w in
      engine w' = None /\ isWorker w' = false /\ isReady w' = false
      /\ effects w'
         = (effects w ++ [ConsoleWarn "Worker timed out, switching to main thread.";
                          WorkerTerminate])%list
      /\ engineStatus w' = "Loading Main Thread Engine..."
      /\ timers w'
         = (timers w ++ [{| delay := 500; repeating := true;
                            callback := ModuleCheck 0 |}])%list)
  /\ (resolved w -> safetyTimeout statusCallback w = w)
  /\ (isReady w = true -> EngineManager_handleMessage "uciok" w = w)
  /\ (isWorker w = true -> engine w <> None ->
      let w' := engine_onerror statusCallback w in
      engine w' = None /\ isWorker w' = false /\ isReady w' = isReady w
      /\ effects w'
         = (effects w ++ [ConsoleWarn "Worker failed, falling back to main thread:";
                          WorkerTerminate])%list
      /\ timers w'
         = (timers w ++ [{| delay := 500; repeating := true;
                            callback := ModuleCheck 0 |}])%list).
Proof.
  repeat match goal with |- _ /\ _ => split end.
  - unfold EngineManager_init, init, statusCallback, setTimeout. cbn zeta. frame.
    intros ->. frame. repeat split; reflexivity.
  - intros (Hr & Hw & He) w'. subst w'.
    unfold safetyTimeout, switchToMainThread, waitForStockfishModule, setInterval,
      statusCallback. rewrite Hr, Hw. cbn [negb andb]. cbn zeta. frame. rewrite Hw.
    destruct (engine w); [|contradiction]. frame.
    rewrite Hr, <- app_assoc. repeat split; reflexivity.
  - intros [Hr|Hw]; unfold safetyTimeout; [rewrite Hr | rewrite Hw, andb_false_r]; reflexivity.
  - intros Hr. unfold EngineManager_handleMessage, handleMessage. rewrite Hr. reflexivity.
  - intros Hw He w'. subst w'.
    unfold engine_onerror, switchToMainThread, waitForStockfishModule, setInterval,
      statusCallback.
    destruct (engine w) eqn:E; [|contradiction]. cbn zeta. frame.
    rewrite Hw, E. frame. rewrite <- app_assoc. repeat split; reflexivity.
Qed.

(** ** The search request *)

Lemma updateStatus_gameStatus (w : World) :
  gameStatus (updateStatus w) = status_text (game w).
Proof.
  unfold updateStatus, status_text.
  destruct (in_checkmate (game w)); [|destruct (in_draw (game w))]; reflexivity.
Qed.

Lemma digit_facts (c : ascii) :
  JS.isDigit c = true ->
  JS.isWhiteSpace c = false
  /\ exists d : Z, JS.digitValue c = Some d /\ (0 <= d <= 9)%Z.
Proof.
  destruct c as [[] [] [] [] [] [] [] []]; intros H;
    try (vm_compute in H; discriminate H);
    (split; [reflexivity|]; eexists; split; [reflexivity | vm_compute; split; discriminate]).
Qed.

Lemma digits_plain (s : string) (a : Z) :
  JS.all_digits s = true -> (0 <= a)%Z ->
  exists v : Z,
    JS.digits 10 s (Some a) = Some v
    /\ (a * 10 ^ Z.of_nat (String.length s) <= v
        < (a + 1) * 10 ^ Z.of_nat (String.length s))%Z.
Proof.
  revert a. induction s as [|c rest IH]; intros a H Ha.
  - exists a. split; [reflexivity|]. simpl. lia.
  - simpl in H. apply andb_prop in H. destruct H as [Hc Hrest].
    destruct (digit_facts c Hc) as (_ & d & Hd & Hr).
    cbn [JS.digits]. rewrite Hd.
    destruct (Z.ltb_spec d 10) as [_|Hge]; [|lia].
    destruct (IH (a * 10 + d)%Z Hrest ltac:(lia)) as (v & Hv & Hb).
    exists v. split; [exact Hv|].
    cbn [String.length]. rewrite Nat2Z.inj_succ, Z.pow_succ_r by lia.
    assert (0 < 10 ^ Z.of_nat (String.length rest))%Z by (apply Z.pow_pos_nonneg; lia).
    nia.
Qed.

Lemma parseInt_digits (s : string) :
  JS.all_digits s = true ->
  JS.parseInt s
  = match JS.digits 10 s None with
    | Some n => JS.toNumber n
    | None => JS.NaN
    end.
Proof.
  destruct s as [|c rest]; [reflexivity|].
  intros H. simpl in H. apply andb_prop in H. destruct H as [Hc Hrest].
  unfold JS.parseInt.
  assert (Ht : JS.trimStart (String c rest) = String c rest).
  { cbn [JS.trimStart]. rewrite (proj1 (digit_facts c Hc)). reflexivity. }
  rewrite Ht.
  destruct c as [[] [] [] [] [] [] [] []];
    try (vm_compute in Hc; discriminate Hc); try reflexivity.
  destruct rest as [|c2 rest2]; [reflexivity|].
  simpl in Hrest. apply andb_prop in Hrest. destruct Hrest as [Hc2 _].
  destruct c2 as [[] [] [] [] [] [] [] []];
    try (vm_compute in Hc2; discriminate Hc2); reflexivity.
Qed.

Lemma parseInt_plain (s : string) :
  JS.plain_number s = true ->
  JS.parseInt s = JS.NaN
  \/ exists v : Z, (0 <= v < 10 ^ 15)%Z /\ JS.parseInt s = JS.Finite v.
Proof.
  unfold JS.plain_number. intros H. apply andb_prop in H. destruct H as [Hd Hl].
  rewrite (parseInt_digits s Hd).
  destruct s as [|c rest]; [left; reflexivity|right].
  simpl in Hd. apply andb_prop in Hd. destruct Hd as [Hc Hrest].
  destruct (digit_facts c Hc) as (_ & d & Hdv & Hr).
  cbn [JS.digits]. rewrite Hdv.
  destruct (Z.ltb_spec d 10) as [_|Hge]; [|lia].
  destruct (digits_plain rest d Hrest ltac:(lia)) as (v & Hv & Hb).
  rewrite Hv. exists v.
  apply Nat.leb_le in Hl. cbn [String.length] in Hl.
  assert (P : (0 < 10 ^ Z.of_nat (String.length rest))%Z) by (apply Z.pow_pos_nonneg; lia).
  assert (Q : (10 * 10 ^ Z.of_nat (String.length rest) <= 10 ^ 15)%Z).
  { rewrite <- Z.pow_succ_r by lia. apply Z.pow_le_mono_r; lia. }
  assert (B : (0 <= v < 10 ^ 15)%Z) by nia.
  split; [exact B|].
  unfold JS.toNumber.
  assert (T : (10 ^ 15 < 2 ^ 53)%Z) by reflexivity.
  destruct (Z.ltb_spec (Z.abs v) (2 ^ 53)) as [_|Hbig]; [reflexivity | lia].
Qed.

Lemma numberToString_small (d : Z) :
  (0 <= d < 10 ^ 15)%Z -> JS.numberToString (JS.Finite d) = JS.decimal d.
Proof.
  intros H. unfold JS.numberToString, JS.positiveToString.
  assert (T : (10 ^ 15 < 2 ^ 53)%Z) by reflexivity.
  destruct (Z.ltb_spec d 0) as [Hneg|_]; [lia|].
  destruct (Z.ltb_spec d (2 ^ 53)) as [_|Hbig]; [reflexivity | lia].
Qed.

(** X1.  When the human's move leaves a game that is not over and the
    engine is a ready worker, [triggerAi] sets [isThinking] and posts
    exactly two commands, the position first and the search second, and
    arms no timer.  With a selector that holds decimal digits and nothing
    else, at most fifteen of them, the search is bounded by 2500 ms and by
    the depth the digits denote, or by 10 when they denote zero or the
    selector is empty: the depth is never zero. *)
Theorem search_request_when_ready (w : World) :
  game_over (game w) = false -> isReady w = true ->
  isWorker w = true -> engine w <> None ->
  JS.plain_number (difficulty w) = true ->
  let w' := triggerAi w in
  exists depth : Z,
    (0 < depth < 10 ^ 15)%Z
    /\ JS.or_default (JS.parseInt (difficulty w)) (JS.Finite 10) = JS.Finite depth
    /\ (JS.parseInt (difficulty w) = JS.NaN \/ JS.parseInt (difficulty w) = JS.Finite 0 ->
        depth = 10%Z)
    /\ isThinking w' = true
    /\ game w' = game w
    /\ timers w' = timers w
    /\ effects w'
       = (effects w
          ++ [PostMessage ("position fen " ++ fen (game w));
              PostMessage ("go depth " ++ JS.decimal depth ++ " movetime 2500")])%list.
Proof.
  intros Hover Hready Hworker Hengine Hplain w'.
  assert (Hdepth : exists depth : Z,
            (0 < depth < 10 ^ 15)%Z
            /\ JS.or_default (JS.parseInt (difficulty w)) (JS.Finite 10) = JS.Finite depth
            /\ (JS.parseInt (difficulty w) = JS.NaN
                \/ JS.parseInt (difficulty w) = JS.Finite 0 -> depth = 10%Z)).
  { assert (T : (10 < 10 ^ 15)%Z) by reflexivity.
    destruct (parseInt_plain (difficulty w) Hplain) as [E|(v & Hv & E)]; rewrite E.
    - exists 10%Z. repeat split; try lia; reflexivity.
    - destruct (Z.eq_dec v 0) as [->|Hnz].
      + exists 10%Z. repeat split; try lia; reflexivity.
      + exists v. split; [lia|]. split; [destruct v; [contradiction | reflexivity | reflexivity]|].
        intros [F|F]; [discriminate F | injection F as F; contradiction]. }
  destruct Hdepth as (depth & Hrange & Hd & Hten).
  exists depth. split; [exact Hrange|]. split; [exact Hd|]. split; [exact Hten|].
  assert (Hw' : w' = sendCommand ("go depth " ++ JS.decimal depth ++ " movetime 2500")
                       (sendCommand ("position fen " ++ fen (game w))
                          (set_gameStatus "AI is thinking..." (set_isThinking true w)))).
  { subst w'. unfold triggerAi. rewrite Hover. cbn zeta. frame. rewrite Hready, Hd.
    rewrite (numberToString_small depth) by lia. reflexivity. }
  rewrite Hw'. repeat split.
  - frame. reflexivity.
  - frame. reflexivity.
  - frame. reflexivity.
  - rewrite sendCommand_posts by (frame; assumption).
    rewrite sendCommand_posts by (frame; assumption).
    frame. rewrite <- app_assoc. reflexivity.
Qed.

(** X2.  A move of the human that ends the game is played and shown, and
    the engine is left alone: [tryMove] returns true, the status line shows
    the result, and neither the thinking flag nor the timers change and
    nothing is sent. *)
Theorem final_move_asks_no_engine
    (from : option string) (to : string) (g : Chess) (w : World) :
  move (game w) (FromTo from to "q") = Some g -> game_over g = true ->
  fst (tryMove from to w) = true
  /\ game (snd (tryMove from to w)) = g
  /\ gameStatus (snd (tryMove from to w)) = status_text g
  /\ isThinking (snd (tryMove from to w)) = isThinking w
  /\ timers (snd (tryMove from to w)) = timers w
  /\ effects (snd (tryMove from to w)) = (effects w ++ [RenderBoard])%list.
Proof.
  intros Hmove Hover. unfold tryMove. rewrite Hmove. cbn [fst snd].
  unfold triggerAi. frame. rewrite Hover.
  repeat split; frame; try reflexivity.
  rewrite updateStatus_gameStatus. reflexivity.
Qed.

(** ** Where a command goes *)

(** X3.  [sendCommand] touches nothing but the effect log, and hands the
    command to at most one channel: to exactly one when the gate is open
    (the engine is ready, or the command is ['uci']) and a channel exists:
    the worker; else [ccall], when it is a function; else [window.onmessage],
    when [StockfishModule] is missing or has no [ccall].  Otherwise the
    command is lost: dropped at the gate, lost with a warning, or lost to
    the exception that the test of [ccall] raises on [null] or its call
    raises when it is no function. *)
Theorem sendCommand_delivery (cmd : string) (w : World) :
  channel_ok w ->
  commands (effects (sendCommand cmd w))
  = (commands (effects w) ++ (if reaches_engine cmd w then [cmd] else []))%list
  /\ game (sendCommand cmd w) = game w
  /\ isThinking (sendCommand cmd w) = isThinking w
  /\ isReady (sendCommand cmd w) = isReady w
  /\ isWorker (sendCommand cmd w) = isWorker w
  /\ engine (sendCommand cmd w) = engine w
  /\ timers (sendCommand cmd w) = timers w.
Proof.
  intros Hok. split; [|frame; repeat split; reflexivity].
  unfold sendCommand, reaches_engine, channel_ok in *.
  destruct (isReady w), (cmd =? "uci"), (isWorker w), (engine w);
    cbn [negb andb orb];
    try (exfalso; apply (proj1 Hok); reflexivity);
    try destruct (StockfishModule (host w)) as [| |[| |]];
    try destruct (window_onmessage (host w));
    frame; rewrite ?commands_app, ?app_nil_r; reflexivity.
Qed.

(** ** Replies that carry no playable move *)

Lemma handleAiMove_no_token (bestMove : option string) (w : World) :
  isThinking w = true -> JS.truthy bestMove = false ->
  handleAiMove bestMove w = updateStatus (set_isThinking false w).
Proof.
  intros Hth Hfalsy. unfold handleAiMove. rewrite Hth. cbn [negb].
  destruct bestMove as [token|]; [|reflexivity].
  rewrite Hfalsy. reflexivity.
Qed.

Lemma startsWith_append (p s x : string) :
  JS.startsWith p s = true -> JS.startsWith p (s ++ x) = true.
Proof.
  unfold JS.startsWith. revert s.
  induction p as [|a p IH]; intros [|b s]; simpl; try reflexivity; try discriminate.
  - destruct x; reflexivity.
  - destruct (ascii_dec a b); [apply IH | discriminate].
Qed.

(** X4.  A ['bestmove'] line without a move token, either with no space at
    all (the bare tag) or with a second space right after the first (an
    empty field), ends the thinking and leaves the position alone; the
    board is not even redrawn. *)
Theorem reply_without_token (tag rest : string) (w : World) :
  isThinking w = true ->
  JS.startsWith "bestmove" tag = true -> no_space tag = true ->
  forall line : string,
    line = tag \/ line = tag ++ "  " ++ rest ->
    let w' := EngineManager_handleMessage line w in
    isThinking w' = false
    /\ game w' = game w
    /\ gameStatus w' = status_text (game w)
    /\ effects w' = effects w
    /\ timers w' = timers w.
Proof.
  intros Hth Htag Hword line Hline w'.
  assert (Hprefix : JS.startsWith "bestmove" line = true).
  { destruct Hline as [->| ->]; [exact Htag | apply startsWith_append, Htag]. }
  assert (Hfield : JS.truthy (nth_error (JS.split " " line) 1) = false).
  { destruct Hline as [->| ->].
    - rewrite split_word by exact Hword. reflexivity.
    - change (tag ++ "  " ++ rest) with (tag ++ String " " (String " " rest)).
      rewrite split_field by exact Hword. reflexivity. }
  subst w'. rewrite handleMessage_bestmove by exact Hprefix.
  rewrite handleAiMove_no_token by assumption.
  repeat split; frame; try reflexivity.
  rewrite updateStatus_gameStatus. reflexivity.
Qed.

(** X5.  A move of the engine that the rules engine rejects is dropped
    without a retry: the position stays, the thinking ends, the board is
    redrawn once, the status line shows the unchanged position, and
    nothing is sent and no timer armed. *)
Theorem rejected_reply_ends_search (token : string) (w : World) :
  isThinking w = true -> token <> "" -> token <> "(none)" ->
  move (game w)
    (FromTo (Some (JS.substring 0 2 token)) (JS.substring 2 4 token)
       (JS.substring 4 5 token)) = None ->
  let w' := handleAiMove (Some token) w in
  isThinking w' = false
  /\ game w' = game w
  /\ gameStatus w' = status_text (game w)
  /\ effects w' = (effects w ++ [RenderBoard])%list
  /\ timers w' = timers w.
Proof.
  intros Hth Hne Hnone Hrej w'. subst w'.
  unfold handleAiMove, game_move. rewrite Hth. cbn [negb].
  destruct token as [|c token]; [contradiction|].
  destruct (String.eqb_spec (String c token) "(none)") as [E|_]; [contradiction|].
  cbn [JS.truthy andb negb]. cbn zeta. rewrite Hrej.
  repeat split; frame; try reflexivity.
  rewrite updateStatus_gameStatus. reflexivity.
Qed.

(** X6.  Only the first five characters of a move token count: whatever
    follows them is ignored. *)
Theorem token_tail_ignored (a b c d p : ascii) (extra : string) (w : World) :
  let token := String a (String b (String c (String d (String p "")))) in
  token ++ extra <> "(none)" ->
  handleAiMove (Some (token ++ extra)) w = handleAiMove (Some token) w.
Proof.
  intros token Hnone. subst token. unfold handleAiMove.
  destruct (negb (isThinking w)); [reflexivity|].
  cbn [append JS.truthy andb].
  destruct (String.eqb_spec
              (String a (String b (String c (String d (String p extra))))) "(none)")
    as [E|_]; [contradiction|].
  destruct (String.eqb_spec
              (String a (String b (String c (String d (String p ""))))) "(none)")
    as [E|_]; [discriminate|].
  destruct extra; reflexivity.
Qed.

(** ** Gestures *)

Lemma Color_eqb_refl (c : Color) : Color_eqb c c = true.
Proof. destruct c; reflexivity. Qed.

(** X7.  A release that is off the board, or on the square the drag
    started from, attempts no move: the position, the thinking flag, the
    selection and the timers stay, the drag ends, and the board is
    redrawn. *)
Theorem release_without_move (target : option string) (w : World) :
  target = None \/ target = dragStartSquare w ->
  let w' := handlePointerUp target w in
  game w' = game w
  /\ isThinking w' = isThinking w
  /\ selectedSquare w' = selectedSquare w
  /\ dragStartSquare w' = dragStartSquare w
  /\ isDragging w' = false
  /\ draggedVisual w' = false
  /\ timers w' = timers w
  /\ effects w' = (effects w ++ [RenderBoard])%list.
Proof.
  intros Htarget w'. subst w'. unfold handlePointerUp. cbn zeta.
  assert (Hskip : forall w1 : World,
            dragStartSquare w1 = dragStartSquare w ->
            match target with
            | Some t =>
                if negb (JS.strict_eq (Some t) (dragStartSquare w1))
                then snd (tryMove (dragStartSquare w1) t w1)
                else w1
            | None => w1
            end = w1).
  { intros w1 H1. destruct target as [t|]; [|reflexivity].
    destruct Htarget as [E|E]; [discriminate|].
    rewrite H1, <- E. cbn [JS.strict_eq]. rewrite String.eqb_refl. reflexivity. }
  frame. rewrite Hskip.
  - destruct (draggedVisual w) eqn:Hv; frame;
      destruct (dragEndAttached w) eqn:Ha; frame;
      rewrite ?Hv; repeat split; reflexivity.
  - destruct (draggedVisual w); frame; destruct (dragEndAttached w); reflexivity.
Qed.

Lemma handlePointerDown_selects (square : string) (piece : Piece) (w : World) :
  isThinking w = false ->
  JS.truthy (selectedSquare w) && negb (isDragging w) = false ->
  get (game w) square = Some piece -> color piece = playerColor w ->
  handlePointerDown square w
  = renderBoard
      (set_dragEndAttached true
         (set_pointerupListeners (S (pointerupListeners w))
            (set_draggedVisual true
               (set_selectedSquare (Some square)
                  (set_dragStartSquare (Some square)
                     (set_isDragging true (log PreventDefault w))))))).
Proof.
  intros Hth Hsel Hget Hcolor. unfold handlePointerDown.
  rewrite Hth, Hsel, Hget, Hcolor, Color_eqb_refl. reflexivity.
Qed.

(** X8.  A click on a piece of the human (press and release on its
    square, with nothing selected before) selects it and moves nothing:
    the square is the selection and the drag origin, no drag is left in
    progress, the release listener that the press added is gone again, and
    the position and the thinking flag are as before. *)
Theorem click_selects_own_piece (square : string) (piece : Piece) (w : World) :
  isThinking w = false -> selectedSquare w = None ->
  get (game w) square = Some piece -> color piece = playerColor w ->
  let w' := handlePointerUp (Some square) (handlePointerDown square w) in
  selectedSquare w' = Some square
  /\ dragStartSquare w' = Some square
  /\ isDragging w' = false
  /\ draggedVisual w' = false
  /\ game w' = game w
  /\ isThinking w' = false
  /\ pointerupListeners w' = pointerupListeners w
  /\ dragEndAttached w' = false
  /\ timers w' = timers w
  /\ effects w' = (effects w ++ [PreventDefault; RenderBoard; RenderBoard])%list.
Proof.
  intros Hth Hsel Hget Hcolor w'. subst w'.
  rewrite (handlePointerDown_selects square piece) by (rewrite ?Hsel; assumption || reflexivity).
  unfold handlePointerUp. cbn zeta. frame.
  cbn [JS.strict_eq]. rewrite String.eqb_refl. cbn [negb]. frame.
  rewrite <- !app_assoc. repeat split; try reflexivity. exact Hth.
Qed.


(** ** Start-up *)

Lemma updateStatus_eq (w : World) :
  updateStatus w = set_gameStatus (status_text (game w)) w.
Proof.
  unfold updateStatus, status_text.
  destruct (in_checkmate (game w)); [|destruct (in_draw (game w))]; reflexivity.
Qed.

(** X10.  A fresh page is idle on the starting position with an up-to-date
    status line and an engine that is not ready.  If the worker can be
    created, ['uci'] is posted to it and the 2000 ms timer is the only one
    armed.  If creating it throws, the page falls back at once: no worker,
    nothing sent, and the polling interval is the only timer. *)
Theorem startup_state (h : Host) (level : string) :
  let w := new_ChessApp h level in
  isReady w = false /\ isThinking w = false /\ game w = new_Chess
  /\ gameStatus w = status_text new_Chess
  /\ selectedSquare w = None /\ messageListeners w = 0
  /\ (worker_available h = true ->
      isWorker w = true /\ engine w = Some StockfishWorker
      /\ timers w = [{| delay := 2000; repeating := false; callback := SafetyTimeout |}]
      /\ commands (effects w) = ["uci"]
      /\ engineStatus w = "Initializing Engine...")
  /\ (worker_available h = false ->
      isWorker w = false /\ engine w = None
      /\ timers w = [poll_timer 0]
      /\ commands (effects w) = []
      /\ engineStatus w = "Loading Main Thread Engine...").
Proof.
  intros w. subst w.
  unfold new_ChessApp, EngineManager_init, init, switchToMainThread,
    waitForStockfishModule, setInterval, setTimeout, statusCallback.
  cbn zeta. rewrite updateStatus_eq. frame.
  destruct (worker_available h); frame;
    repeat match goal with |- _ /\ _ => split end; try reflexivity;
    intros E; try discriminate E; repeat split; reflexivity.
Qed.

(** ** Polling for the in-process engine *)

Lemma sendCommand_log (cmd : string) (w : World) :
  sendCommand cmd w = w \/ exists e : Effect, sendCommand cmd w = log e w.
Proof.
  unfold sendCommand.
  destruct (negb (isReady w) && negb (cmd =? "uci")); [left; reflexivity|].
  right.
  destruct (isWorker w); [destruct (engine w)|];
    try destruct (StockfishModule (host w)) as [| |[| |]];
    try destruct (window_onmessage (host w));
    eexists; reflexivity.
Qed.

Lemma sendCommand_messageListeners (cmd : string) (w : World) :
  messageListeners (sendCommand cmd w) = messageListeners w.
Proof. destruct (sendCommand_log cmd w) as [->|[e ->]]; reflexivity. Qed.

#[local] Hint Rewrite sendCommand_messageListeners : frame.

Lemma replace_nth_same {A : Type} (n : nat) (x : A) (l : list A) :
  nth_error l n = Some x -> replace_nth n x l = l.
Proof.
  revert n. induction l as [|y l IH]; intros [|n]; simpl; try discriminate.
  - intros [= ->]. reflexivity.
  - intros H. rewrite (IH _ H). reflexivity.
Qed.

Lemma replace_nth_twice {A : Type} (n : nat) (x y : A) (l : list A) :
  replace_nth n y (replace_nth n x l) = replace_nth n y l.
Proof.
  revert n. induction l as [|z l IH]; intros [|n]; simpl; try reflexivity.
  rewrite IH. reflexivity.
Qed.

Lemma nth_error_replace_nth {A : Type} (n : nat) (x y : A) (l : list A) :
  nth_error l n = Some x -> nth_error (replace_nth n y l) n = Some y.
Proof.
  revert n. induction l as [|z l IH]; intros [|n]; simpl; try discriminate.
  - reflexivity.
  - apply IH.
Qed.

Lemma remove_nth_replace_nth {A : Type} (n : nat) (y : A) (l : list A) :
  remove_nth n (replace_nth n y l) = remove_nth n l.
Proof.
  revert n. induction l as [|z l IH]; intros [|n]; simpl; try reflexivity.
  rewrite IH. reflexivity.
Qed.

Lemma set_timers_same (w : World) : set_timers (timers w) w = w.
Proof. destruct w. reflexivity. Qed.

(** One tick while the engine has not shown up. *)
Lemma fire_poll_absent (n attempts : nat) (rnd : Q) (w : World) :
  nth_error (timers w) n = Some (poll_timer attempts) -> module_absent (host w) ->
  fire n rnd w
  = if (20 <? S attempts)%nat then
      log (Alert ("Error: No se pudo cargar el motor de ajedrez (Stockfish). "
                  ++ "Esto suele pasar en iOS si abres el archivo localmente "
                  ++ "debido a restricciones de seguridad. "
                  ++ "Prueba a alojarlo en un servidor web."))
        (log (ConsoleError "StockfishModule not found.")
           (statusCallback "Engine Load Failed (Random Moves Only)"
              (set_timers (remove_nth n (timers w)) w)))
    else set_timers (replace_nth n (poll_timer (S attempts)) (timers w)) w.
Proof.
  intros Hnth [Hs Hm]. unfold fire, moduleCheck. rewrite Hnth.
  cbn [callback poll_timer]. rewrite Hs, Hm. reflexivity.
Qed.

Lemma iter_poll_absent (n : nat) (rnd : Q) (w : World) (k : nat) :
  nth_error (timers w) n = Some (poll_timer 0) -> module_absent (host w) ->
  k <= 20 ->
  Nat.iter k (step (TimerFires n rnd)) w
  = set_timers (replace_nth n (poll_timer k) (timers w)) w.
Proof.
  intros Hnth Habsent. induction k as [|k IH]; intros Hk.
  - simpl. rewrite (replace_nth_same _ _ _ Hnth), set_timers_same. reflexivity.
  - rewrite Nat.iter_succ, IH by lia. cbn [step].
    rewrite (fire_poll_absent n k).
    + destruct (Nat.ltb_spec 20 (S k)) as [Hlt|_]; [lia|].
      frame. rewrite replace_nth_twice. reflexivity.
    + frame. apply (nth_error_replace_nth _ _ _ _ Hnth).
    + exact Habsent.
Qed.

(** X11.  While the in-process engine does not show up, the polling
    interval ticks twenty times without any other effect and gives up on
    the twenty-first tick: the interval is cleared, the engine status
    reports the failure, one error is logged and one alert raised, and the
    engine stays not ready. *)
Theorem polling_gives_up_after_21_ticks (n : nat) (rnd : Q) (w : World) :
  nth_error (timers w) n = Some (poll_timer 0) -> module_absent (host w) ->
  (forall k : nat,
      k <= 20 ->
      let wk := Nat.iter k (step (TimerFires n rnd)) w in
      nth_error (timers wk) n = Some (poll_timer k)
      /\ length (timers wk) = length (timers w)
      /\ engineStatus wk = engineStatus w
      /\ effects wk = effects w)
  /\ (let w' := Nat.iter 21 (step (TimerFires n rnd)) w in
      timers w' = remove_nth n (timers w)
      /\ engineStatus w' = "Engine Load Failed (Random Moves Only)"
      /\ (exists msg : string,
             effects w'
             = (effects w ++ [ConsoleError "StockfishModule not found."; Alert msg])%list)
      /\ isReady w' = isReady w
      /\ messageListeners w' = messageListeners w).
Proof.
  intros Hnth Habsent. split.
  - intros k Hk wk. subst wk. rewrite (iter_poll_absent n rnd w k Hnth Habsent Hk).
    frame. split; [apply (nth_error_replace_nth _ _ _ _ Hnth)|].
    split; [|split; reflexivity].
    clear. generalize (timers w). intros l. revert n.
    induction l as [|t l IH]; intros [|n]; simpl; try reflexivity.
    rewrite IH. reflexivity.
  - intros w'. subst w'. rewrite Nat.iter_succ.
    rewrite (iter_poll_absent n rnd w 20 Hnth Habsent (Nat.le_refl 20)).
    cbn [step]. rewrite (fire_poll_absent n 20).
    + cbn [Nat.ltb Nat.leb]. frame. rewrite remove_nth_replace_nth, <- app_assoc.
      split; [reflexivity|]. split; [reflexivity|].
      split; [eexists; reflexivity|]. split; reflexivity.
    + frame. apply (nth_error_replace_nth _ _ _ _ Hnth).
    + exact Habsent.
Qed.

(** X12.  When the in-process engine is found on a tick, the interval is
    cleared, one listener is put on [window], and ['uci'] is sent although
    the engine is not ready.  It reaches the engine through [ccall] when
    that is a function, and through [window.onmessage] when
    [StockfishModule] is missing or has no [ccall]; with [StockfishModule]
    set to [null] the test of [ccall] throws after the listener is in place,
    and nothing is sent.  In every case a ['uciok'] posted on [window]
    afterwards makes the engine ready in main-thread mode, and the ready
    callback runs once. *)
Theorem in_process_handshake (n attempts : nat) (rnd : Q) (w : World) :
  nth_error (timers w) n = Some (poll_timer attempts) ->
  StockfishModule_defined (host w) || Module_truthy (host w) = true ->
  isWorker w = false -> isReady w = false -> messageListeners w = 0 ->
  let w1 := step (TimerFires n rnd) w in
  timers w1 = remove_nth n (timers w)
  /\ messageListeners w1 = 1
  /\ isReady w1 = false
  /\ commands (effects w1)
     = (commands (effects w)
        ++ match StockfishModule (host w) with
           | ModuleWith CcallFunction => ["uci"]
           | NullModule | ModuleWith CcallNotCallable => []
           | NoModule | ModuleWith NoCcall =>
               if window_onmessage (host w) then ["uci"] else []
           end)%list
  /\ (StockfishModule (host w) = NullModule ->
      effects w1
      = (effects w ++ [ConsoleLog "Initializing Main Thread Stockfish...";
                       Uncaught ccall_of_null])%list)
  /\ (let w2 := step (WindowMessage (Some "uciok")) w1 in
      isReady w2 = true
      /\ engineStatus w2 = "Stockfish Ready (Main)"
      /\ readyFired w2 = S (readyFired w)
      /\ timers w2 = timers w1).
Proof.
  intros Hnth Hfound Hmain Hready Hnone w1.
  assert (Hw1 : w1 = sendCommand "uci"
                       (set_messageListeners 1
                          (log (ConsoleLog "Initializing Main Thread Stockfish...")
                             (set_timers (remove_nth n (timers w)) w)))).
  { subst w1. cbn [step]. unfold fire, moduleCheck, initMainThread. rewrite Hnth.
    cbn [callback poll_timer]. rewrite Hfound. cbn zeta. frame. rewrite Hnone.
    reflexivity. }
  assert (Hcmd : commands (effects w1)
                 = (commands (effects w)
                    ++ match StockfishModule (host w) with
                       | ModuleWith CcallFunction => ["uci"]
                       | NullModule | ModuleWith CcallNotCallable => []
                       | NoModule | ModuleWith NoCcall =>
                           if window_onmessage (host w) then ["uci"] else []
                       end)%list).
  { rewrite Hw1. unfold sendCommand. frame. rewrite Hready, Hmain.
    change ("uci" =? "uci") with true. cbn [negb andb].
    destruct (StockfishModule (host w)) as [| |[| |]];
      try destruct (window_onmessage (host w));
      frame; rewrite !commands_app; cbn [commands delivered];
      rewrite ?app_nil_r; reflexivity. }
  assert (Hnull : StockfishModule (host w) = NullModule ->
                  effects w1
                  = (effects w ++ [ConsoleLog "Initializing Main Thread Stockfish...";
                                   Uncaught ccall_of_null])%list).
  { intros E. rewrite Hw1. unfold sendCommand. frame. rewrite Hready, Hmain, E.
    change ("uci" =? "uci") with true. cbn [negb andb]. frame.
    rewrite <- app_assoc. reflexivity. }
  assert (Hl : messageListeners w1 = 1) by (rewrite Hw1; frame; reflexivity).
  assert (Hr : isReady w1 = false) by (rewrite Hw1; frame; exact Hready).
  assert (Hm : isWorker w1 = false) by (rewrite Hw1; frame; exact Hmain).
  assert (Ht : timers w1 = remove_nth n (timers w)) by (rewrite Hw1; frame; reflexivity).
  assert (Hf : readyFired w1 = readyFired w).
  { rewrite Hw1. apply stable_sendCommand.
    apply (stable_same _ (log (ConsoleLog "Initializing Main Thread Stockfish...")
                            (set_timers (remove_nth n (timers w)) w)));
      [reflexivity | reflexivity |].
    apply stable_log; [reflexivity|].
    apply (stable_same _ w); [reflexivity | reflexivity | apply stable_refl]. }
  split; [exact Ht|]. split; [exact Hl|]. split; [exact Hr|]. split; [exact Hcmd|].
  split; [exact Hnull|].
  intros w2. subst w2. cbn [step]. rewrite Hl.
  change (Nat.iter 1 (EngineManager_handleMessage "uciok") w1)
    with (EngineManager_handleMessage "uciok" w1).
  unfold EngineManager_handleMessage, handleMessage, statusCallback, onReadyCallback.
  change ("uciok" =? "uciok") with true. change (JS.startsWith "bestmove" "uciok") with false.
  cbn iota. rewrite Hr. cbn [negb]. cbn zeta. frame. rewrite Hm.
  split; [reflexivity|]. split; [reflexivity|]. split; [|reflexivity].
  unfold readyFired in *. frame. rewrite filter_app, length_app, Hf. simpl. lia.
Qed.

(** ** What holds of the engine manager in every reachable state *)

Lemma adapter_same (once : bool) (w1 w2 : World) :
  isWorker w2 = isWorker w1 -> engine w2 = engine w1 -> effects w2 = effects w1 ->
  timers w2 = timers w1 -> messageListeners w2 = messageListeners w1 ->
  adapter_ok once w1 -> adapter_ok once w2.
Proof.
  unfold adapter_ok, fallback_once, channel_ok, polls. intros -> -> -> -> -> H. exact H.
Qed.

(** Without the count of the fallbacks, timers and listeners do not
    matter. *)
Lemma adapter_frame (w1 w2 : World) :
  isWorker w2 = isWorker w1 -> engine w2 = engine w1 -> effects w2 = effects w1 ->
  adapter_ok false w1 -> adapter_ok false w2.
Proof. unfold adapter_ok, channel_ok. intros -> -> -> H. exact H. Qed.

Lemma adapter_log (once : bool) (e : Effect) (w : World) :
  posted_to_null e = false -> adapter_ok once w -> adapter_ok once (log e w).
Proof.
  unfold adapter_ok, fallback_once, channel_ok, polls. intros He (A & B & C). frame.
  split; [exact A|]. split; [|exact C].
  rewrite forallb_app, B. simpl. rewrite He. reflexivity.
Qed.

Lemma adapter_updateStatus (once : bool) (w : World) :
  adapter_ok once w -> adapter_ok once (updateStatus w).
Proof. rewrite updateStatus_eq. apply adapter_same; reflexivity. Qed.

(** In worker mode there is a worker to post to; the exceptions of the
    main-thread branch are not posts to a missing worker. *)
Lemma adapter_sendCommand (once : bool) (cmd : string) (w : World) :
  adapter_ok once w -> adapter_ok once (sendCommand cmd w).
Proof.
  intros H. unfold sendCommand.
  destruct (negb (isReady w) && negb (cmd =? "uci")); [exact H|].
  destruct (isWorker w) eqn:Hw.
  - destruct (engine w) eqn:He; [apply adapter_log; [reflexivity | exact H]|].
    exfalso. destruct H as (A & _). apply (proj1 A Hw). exact He.
  - destruct (StockfishModule (host w)) as [| |[| |]];
      try destruct (window_onmessage (host w));
      (apply adapter_log; [reflexivity | exact H]).
Qed.

Lemma adapter_setTimeout (once : bool) (cb : Callback) (ms : nat) (w : World) :
  match cb with ModuleCheck _ => False | _ => True end ->
  adapter_ok once w -> adapter_ok once (setTimeout cb ms w).
Proof.
  unfold adapter_ok, fallback_once, channel_ok, polls, setTimeout.
  intros Hcb (A & B & C). frame.
  split; [exact A|]. split; [exact B|].
  destruct once; [|exact I].
  rewrite filter_app, length_app.
  assert (E : filter is_poll [{| delay := ms; repeating := false; callback := cb |}] = []).
  { unfold is_poll. simpl. destruct cb; [reflexivity | reflexivity | contradiction]. }
  rewrite E. simpl. rewrite Nat.add_0_r. exact C.
Qed.

(** Walks down a state expression, one wrapper at a time. *)
Ltac adapter_step :=
  match goal with
  | H : adapter_ok ?o ?w |- adapter_ok ?o ?w => exact H
  | |- adapter_ok _ (updateStatus _) => apply adapter_updateStatus
  | |- adapter_ok _ (renderBoard _) => apply adapter_log; [reflexivity|]
  | |- adapter_ok _ (log _ _) => apply adapter_log; [reflexivity|]
  | |- adapter_ok _ (sendCommand _ _) => apply adapter_sendCommand
  | |- adapter_ok _ (setTimeout _ _ _) => apply adapter_setTimeout; [exact I|]
  | |- adapter_ok _ (if ?b then _ else _) => destruct b
  | |- adapter_ok _ (match ?x with Some _ => _ | None => _ end) => destruct x
  | |- adapter_ok _ (?f ?x) =>
      apply (adapter_same _ x); [reflexivity | reflexivity | reflexivity
                                | reflexivity | reflexivity |]
  end.

Lemma adapter_triggerAi (once : bool) (w : World) :
  adapter_ok once w -> adapter_ok once (triggerAi w).
Proof. intros H. unfold triggerAi. cbn zeta. repeat adapter_step. Qed.

Lemma adapter_tryMove (once : bool) (from : option string) (to : string) (w : World) :
  adapter_ok once w -> adapter_ok once (snd (tryMove from to w)).
Proof.
  intros H. unfold tryMove.
  destruct (move (game w) (FromTo from to "q")); [|exact H].
  cbn [snd]. apply adapter_triggerAi. repeat adapter_step.
Qed.

Lemma adapter_game_move (once : bool) (m : MoveArg) (w : World) :
  adapter_ok once w -> adapter_ok once (game_move m w).
Proof. intros H. unfold game_move. repeat adapter_step. Qed.

Lemma adapter_handleAiMove (once : bool) (bestMove : option string) (w : World) :
  adapter_ok once w -> adapter_ok once (handleAiMove bestMove w).
Proof.
  intros H. unfold handleAiMove. cbn zeta.
  destruct (negb (isThinking w)); [exact H|].
  destruct bestMove as [token|]; [destruct (JS.truthy (Some token) && _)|];
    repeat adapter_step; apply adapter_game_move; exact H.
Qed.

Lemma adapter_makeRandomMove (once : bool) (rnd : Q) (w : World) :
  adapter_ok once w -> adapter_ok once (makeRandomMove rnd w).
Proof.
  intros H. unfold makeRandomMove. cbn zeta. do 3 adapter_step.
  destruct (0 <? length (moves (game w)))%nat; [|exact H].
  destruct (nth_error _ _); [apply adapter_game_move|]; exact H.
Qed.

Lemma adapter_newGame (once : bool) (w : World) :
  adapter_ok once w -> adapter_ok once (newGame w).
Proof.
  intros H. unfold newGame. destruct (isThinking w); [exact H|].
  cbn zeta. repeat adapter_step.
Qed.

Lemma adapter_undoMove (once : bool) (w : World) :
  adapter_ok once w -> adapter_ok once (undoMove w).
Proof.
  intros H. unfold undoMove. destruct (isThinking w); [exact H|].
  cbn zeta. repeat adapter_step.
Qed.

Lemma adapter_handlePointerDown (once : bool) (square : string) (w : World) :
  adapter_ok once w -> adapter_ok once (handlePointerDown square w).
Proof.
  intros H. unfold handlePointerDown. destruct (isThinking w); [exact H|].
  assert (Hm : adapter_ok once
                 (snd (if JS.truthy (selectedSquare w) && negb (isDragging w)
                       then tryMove (selectedSquare w) square w
                       else (false, w)))).
  { destruct (_ && _); [apply adapter_tryMove|]; exact H. }
  destruct (if JS.truthy (selectedSquare w) && negb (isDragging w) then _ else _)
    as [moved w2].
  cbn [snd] in Hm. clear H. repeat adapter_step.
Qed.

Lemma adapter_handlePointerUp (once : bool) (target : option string) (w : World) :
  adapter_ok once w -> adapter_ok once (handlePointerUp target w).
Proof.
  intros H. unfold handlePointerUp. cbn zeta. adapter_step.
  set (w2 := if dragEndAttached _ then _ else _).
  assert (H2 : adapter_ok once w2) by (subst w2; repeat adapter_step).
  destruct target as [to|]; [|exact H2].
  destruct (negb _); [apply adapter_tryMove|]; exact H2.
Qed.

Lemma adapter_iter (once : bool) (f : World -> World) (n : nat) (w : World) :
  (forall w1, adapter_ok once w1 -> adapter_ok once (f w1)) ->
  adapter_ok once w -> adapter_ok once (Nat.iter n f w).
Proof. intros Hf H. induction n; simpl; auto. Qed.

Lemma adapter_handleMessage (once : bool) (line : string) (w : World) :
  adapter_ok once w -> adapter_ok once (EngineManager_handleMessage line w).
Proof.
  intros H. unfold EngineManager_handleMessage, handleMessage. cbn zeta.
  set (w2 := if line =? "uciok" then _ else _).
  assert (H2 : adapter_ok once w2).
  { subst w2. unfold onReadyCallback, statusCallback. repeat adapter_step. }
  destruct (JS.startsWith "bestmove" line); [apply adapter_handleAiMove|]; exact H2.
Qed.

(** The pollers among the timers when one timer goes or is replaced. *)
Lemma polls_remove_nth (n : nat) (t : Timer) (l : list Timer) :
  nth_error l n = Some t ->
  length (filter is_poll l)
  = length (filter is_poll (remove_nth n l)) + (if is_poll t then 1 else 0).
Proof.
  revert n. induction l as [|x l IH]; intros [|n]; simpl; try discriminate.
  - intros [= ->]. destruct (is_poll t); simpl; lia.
  - intros H. specialize (IH _ H). destruct (is_poll x); simpl; lia.
Qed.

Lemma polls_replace_nth (n : nat) (t t' : Timer) (l : list Timer) :
  nth_error l n = Some t -> is_poll t' = is_poll t ->
  length (filter is_poll (replace_nth n t' l)) = length (filter is_poll l).
Proof.
  revert n. induction l as [|x l IH]; intros [|n]; simpl; try discriminate.
  - intros [= ->] ->. destruct (is_poll t); reflexivity.
  - intros H E. specialize (IH _ H E). destruct (is_poll x); simpl; lia.
Qed.

(** The fallback keeps the mode flag and the worker together wherever it
    starts; it is the first one when nothing polls or listens yet. *)
Lemma adapter_switchToMainThread (once : bool) (w : World) :
  adapter_ok once w ->
  (once = true -> polls w = 0 /\ messageListeners w = 0) ->
  adapter_ok once (switchToMainThread statusCallback w).
Proof.
  unfold adapter_ok, fallback_once, channel_ok, polls, switchToMainThread,
    waitForStockfishModule, setInterval, statusCallback.
  intros (A & B & _) Hfirst. cbn zeta. frame.
  assert (Hpolls : once = true ->
            length (filter is_poll
                      (timers w ++ [{| delay := 500; repeating := true;
                                       callback := ModuleCheck 0 |}]))
            + messageListeners w <= 1).
  { intros E. destruct (Hfirst E) as [Hp Hl].
    rewrite filter_app, length_app, Hp, Hl. simpl. lia. }
  destruct (isWorker w) eqn:Hw; [destruct (engine w) eqn:He|]; frame.
  - split; [split; [discriminate | contradiction]|].
    split; [rewrite forallb_app, B; reflexivity|].
    destruct once; [apply Hpolls; reflexivity | exact I].
  - exfalso. apply (proj1 A eq_refl). reflexivity.
  - rewrite ?Hw. split; [exact A|]. split; [exact B|].
    destruct once; [apply Hpolls; reflexivity | exact I].
Qed.

Lemma adapter_fire (once : bool) (n : nat) (rnd : Q) (w : World) :
  adapter_ok once w -> adapter_ok once (fire n rnd w).
Proof.
  intros H. unfold fire.
  destruct (nth_error (timers w) n) as [t|] eqn:Hnth; [|exact H].
  pose proof (polls_remove_nth n t (timers w) Hnth) as Hrem.
  assert (Hgone : is_poll t = false ->
                  adapter_ok once (set_timers (remove_nth n (timers w)) w)).
  { intros Ht. rewrite Ht, Nat.add_0_r in Hrem.
    destruct H as (A & B & C). unfold adapter_ok, fallback_once, channel_ok, polls in *.
    frame. rewrite <- Hrem. repeat split; try exact B; try exact C; apply A. }
  destruct (callback t) as [| |attempts] eqn:Hcb.
  - assert (Ht : is_poll t = false) by (unfold is_poll; rewrite Hcb; reflexivity).
    specialize (Hgone Ht). unfold safetyTimeout.
    destruct (negb (isReady _) && isWorker _) eqn:Hguard; [|exact Hgone].
    apply andb_prop in Hguard. destruct Hguard as [_ Hw].
    apply adapter_switchToMainThread; [apply adapter_log; [reflexivity | exact Hgone]|].
    intros ->. destruct Hgone as (_ & _ & C). unfold fallback_once in C.
    rewrite Hw in C. exact C.
  - assert (Ht : is_poll t = false) by (unfold is_poll; rewrite Hcb; reflexivity).
    apply adapter_makeRandomMove, Hgone, Ht.
  - assert (Ht : is_poll t = true) by (unfold is_poll; rewrite Hcb; reflexivity).
    rewrite Ht in Hrem.
    destruct H as (A & B & C).
    unfold moduleCheck, initMainThread, statusCallback. cbn zeta.
    destruct once.
    + unfold fallback_once, polls in C.
      assert (Hmode : isWorker w = false).
      { destruct (isWorker w); [|reflexivity]. destruct C as [C _]. lia. }
      rewrite Hmode in C.
      destruct (StockfishModule_defined (host w) || Module_truthy (host w)).
      * apply adapter_sendCommand.
        unfold adapter_ok, fallback_once, polls. split; [exact A|].
        split; [frame; rewrite forallb_app, B; reflexivity|].
        frame. rewrite Hmode. lia.
      * destruct (20 <? S attempts)%nat.
        -- assert (Hstop : adapter_ok true (set_timers (remove_nth n (timers w)) w)).
           { unfold adapter_ok, fallback_once, polls. split; [exact A|]. split; [exact B|].
             frame. rewrite Hmode. lia. }
           repeat adapter_step.
        -- unfold adapter_ok, fallback_once, polls. split; [exact A|]. split; [exact B|].
           frame. rewrite Hmode.
           rewrite (polls_replace_nth n t); [exact C | exact Hnth | rewrite Ht; reflexivity].
    + assert (Hany : forall l, adapter_ok false (set_timers l w)).
      { intros l. unfold adapter_ok. split; [exact A|]. split; [exact B | exact I]. }
      destruct (StockfishModule_defined (host w) || Module_truthy (host w));
        [|destruct (20 <? S attempts)%nat].
      * apply adapter_sendCommand.
        apply (adapter_frame (log (ConsoleLog "Initializing Main Thread Stockfish...")
                                (set_timers (remove_nth n (timers w)) w)));
          [reflexivity | reflexivity | reflexivity |].
        apply adapter_log; [reflexivity | apply Hany].
      * pose proof (Hany (remove_nth n (timers w))) as Hstop. repeat adapter_step.
      * apply Hany.
Qed.

Lemma adapter_step_ok (once : bool) (e : Event) (w : World) :
  adapter_ok once w -> adapter_ok once (step e w).
Proof.
  intros H.
  destruct e as [data| |[line|]|n rnd| | |square|target|h]; cbn [step].
  - destruct (engine w); [apply adapter_handleMessage|]; exact H.
  - destruct (engine w) eqn:He; [|exact H].
    unfold engine_onerror.
    assert (Hw : isWorker w = true).
    { destruct H as (A & _). apply A. rewrite He. discriminate. }
    apply adapter_switchToMainThread; [apply adapter_log; [reflexivity | exact H]|].
    intros ->. destruct H as (_ & _ & C). unfold fallback_once in C.
    rewrite Hw in C. exact C.
  - apply adapter_iter; [apply adapter_handleMessage | exact H].
  - exact H.
  - apply adapter_fire, H.
  - apply adapter_newGame, H.
  - apply adapter_undoMove, H.
  - apply adapter_handlePointerDown, H.
  - destruct (pointerupListeners w); [exact H|].
    apply adapter_iter; [apply adapter_handlePointerUp | exact H].
  - revert H. apply adapter_same; reflexivity.
Qed.

(** The handlers of the worker themselves, run for a late event. *)
Lemma adapter_deliver (d : Delivery) (w : World) :
  adapter_ok false w -> adapter_ok false (deliver d w).
Proof.
  intros H. destruct d as [e|data|]; cbn [deliver].
  - apply adapter_step_ok, H.
  - apply adapter_handleMessage, H.
  - unfold engine_onerror.
    apply adapter_switchToMainThread; [apply adapter_log; [reflexivity | exact H]|].
    discriminate.
Qed.

Lemma adapter_new_ChessApp (once : bool) (h : Host) (level : string) :
  adapter_ok once (new_ChessApp h level).
Proof.
  unfold new_ChessApp, EngineManager_init, init, setTimeout, statusCallback. cbn zeta.
  do 2 adapter_step. frame.
  destruct (worker_available h).
  - unfold adapter_ok, fallback_once, channel_ok, polls. frame.
    split; [split; [discriminate | reflexivity]|]. split; [reflexivity|].
    destruct once; [split; reflexivity | exact I].
  - apply adapter_switchToMainThread; [|intros _; split; reflexivity].
    apply adapter_log; [reflexivity|].
    unfold adapter_ok, fallback_once, channel_ok, polls. frame.
    split; [split; [discriminate | contradiction]|]. split; [reflexivity|].
    destruct once; [simpl; lia | exact I].
Qed.

(** X13.  In every state the page reaches, whatever the host and the
    events, and also when events of a terminated worker still reach its
    handlers: the mode flag is set exactly when [this.engine] holds a
    worker, no command was posted to a worker that is not there, and none
    will be by the next call of [sendCommand]. *)
Theorem adapter_invariant (h : Host) (level : string) (deliveries : list Delivery) :
  let w := deliver_all deliveries (new_ChessApp h level) in
  (isWorker w = true <-> engine w <> None)
  /\ forallb (fun e => negb (posted_to_null e)) (effects w) = true
  /\ (forall cmd : string,
        forallb (fun e => negb (posted_to_null e)) (effects (sendCommand cmd w)) = true).
Proof.
  intros w.
  assert (H : adapter_ok false w).
  { subst w. generalize (adapter_new_ChessApp false h level).
    generalize (new_ChessApp h level).
    induction deliveries as [|d deliveries IH]; intros w0 H0; [exact H0|].
    change (deliver_all (d :: deliveries) w0) with (deliver_all deliveries (deliver d w0)).
    apply IH, adapter_deliver, H0. }
  split; [apply H|]. split; [apply H|].
  intros cmd. apply (adapter_sendCommand false cmd w H).
Qed.

(** X18.  As long as a worker that has been terminated delivers nothing
    more (the event loop of [step]), the fallback to the main thread starts
    at most once: in worker mode nothing polls for the in-process engine and
    nothing listens on [window], and afterwards there is one polling
    interval or one listener, never more, so a line posted on [window] is
    handled at most once. *)
Theorem fallback_starts_at_most_once (h : Host) (level : string) (events : list Event) :
  let w := run events (new_ChessApp h level) in
  (isWorker w = true -> polls w = 0 /\ messageListeners w = 0)
  /\ polls w + messageListeners w <= 1
  /\ (forall line : string,
        step (WindowMessage (Some line)) w = w
        \/ step (WindowMessage (Some line)) w = EngineManager_handleMessage line w).
Proof.
  intros w.
  assert (H : adapter_ok true w).
  { subst w. generalize (adapter_new_ChessApp true h level).
    generalize (new_ChessApp h level).
    induction events as [|e events IH]; intros w0 H0; [exact H0|].
    rewrite run_cons. apply IH, adapter_step_ok, H0. }
  destruct H as (A & B & C). unfold fallback_once in C.
  assert (Hsum : polls w + messageListeners w <= 1).
  { destruct (isWorker w); [destruct C; lia | exact C]. }
  split; [|split; [exact Hsum|]].
  - intros Hw. rewrite Hw in C. exact C.
  - intros line. cbn [step].
    destruct (messageListeners w) as [|[|k]]; [left | right | lia]; reflexivity.
Qed.

(** ** The mode only moves away from the worker *)

(** An event keeps the channel, or ends in main-thread mode. *)
Lemma step_channel (e : Event) (w : World) :
  channel_ok w ->
  same_channel w (step e w)
  \/ (isWorker (step e w) = false /\ engine (step e w) = None).
Proof.
  intros Hok.
  assert (Hswitch : forall w1, same_channel w w1 ->
            isWorker (switchToMainThread statusCallback w1) = false
            /\ engine (switchToMainThread statusCallback w1) = None).
  { intros w1 H1. apply switchToMainThread_channel, (same_channel_ok _ _ H1 Hok). }
  destruct e as [data| |[line|]|n rnd| | |square|target|h]; cbn [step].
  - left. destruct (engine w); [apply same_channel_handleMessage|]; apply same_channel_refl.
  - destruct (engine w); [right | left; apply same_channel_refl].
    unfold engine_onerror. apply Hswitch. repeat channel_step.
  - left. apply same_channel_iter;
      [apply same_channel_handleMessage | apply same_channel_refl].
  - left. apply same_channel_refl.
  - unfold fire. destruct (nth_error (timers w) n) as [t|];
      [|left; apply same_channel_refl].
    destruct (callback t) as [| |attempts].
    + unfold safetyTimeout. destruct (_ && _).
      * right. apply Hswitch. repeat channel_step.
      * left. repeat channel_step.
    + left. unfold makeRandomMove. cbn zeta. do 3 channel_step.
      destruct (0 <? _)%nat; [|repeat channel_step].
      destruct (nth_error _ _); [apply same_channel_game_move|]; repeat channel_step.
    + left. unfold moduleCheck, initMainThread, statusCallback. cbn zeta.
      destruct (_ || _); [apply same_channel_sendCommand|]; repeat channel_step.
  - left. unfold newGame. destruct (isThinking w); [apply same_channel_refl|].
    cbn zeta. do 2 apply same_channel_sendCommand. repeat channel_step.
  - left. unfold undoMove. destruct (isThinking w); repeat channel_step.
  - left. unfold handlePointerDown. destruct (isThinking w); [apply same_channel_refl|].
    assert (Hm : same_channel w
                   (snd (if JS.truthy (selectedSquare w) && negb (isDragging w)
                         then tryMove (selectedSquare w) square w
                         else (false, w)))).
    { destruct (_ && _); [apply same_channel_tryMove|]; apply same_channel_refl. }
    destruct (if JS.truthy (selectedSquare w) && negb (isDragging w) then _ else _)
      as [moved w2].
    cbn [snd] in Hm. repeat channel_step.
  - left. destruct (pointerupListeners w); [apply same_channel_refl|].
    apply same_channel_iter; [|apply same_channel_refl].
    intros w2 H2. unfold handlePointerUp. cbn zeta. channel_step.
    set (w3 := if dragEndAttached _ then _ else _).
    assert (H3 : same_channel w w3) by (subst w3; repeat channel_step).
    destruct target as [to|]; [|exact H3].
    destruct (negb _); [apply same_channel_tryMove|]; exact H3.
  - left. repeat channel_step.
Qed.

Lemma main_mode_run (events : list Event) (w : World) :
  channel_ok w -> isWorker w = false ->
  isWorker (run events w) = false /\ engine (run events w) = None.
Proof.
  revert w. induction events as [|e events IH]; intros w Hok Hw.
  - change (run [] w) with w. split; [exact Hw|].
    destruct (engine w) eqn:He; [|reflexivity].
    assert (Hn : engine w <> None) by (rewrite He; discriminate).
    apply Hok in Hn. congruence.
  - rewrite run_cons. apply IH; [apply channel_ok_step, Hok|].
    destruct (step_channel e w Hok) as [[A _]|[A _]]; congruence.
Qed.

(** X14.  The engine manager never goes back to the worker: once a page
    has left worker mode, it stays in main-thread mode without a worker
    whatever happens next, and no second worker is ever created. *)
Theorem mode_never_reverts (h : Host) (level : string) (before after : list Event) :
  let w := run before (new_ChessApp h level) in
  isWorker w = false ->
  isWorker (run after w) = false /\ engine (run after w) = None.
Proof.
  intros w Hw. apply main_mode_run; [|exact Hw].
  apply worker_mode_has_engine.
Qed.

(** ** The status line *)

Lemma status_same (w1 w2 : World) :
  game w2 = game w1 -> isThinking w2 = isThinking w1 -> gameStatus w2 = gameStatus w1 ->
  status_ok w1 -> status_ok w2.
Proof. unfold status_ok. intros -> -> -> H. exact H. Qed.

Lemma status_updateStatus (w : World) : status_ok (updateStatus w).
Proof. left. rewrite updateStatus_eq. reflexivity. Qed.

Lemma status_sendCommand (cmd : string) (w : World) :
  status_ok w -> status_ok (sendCommand cmd w).
Proof.
  destruct (sendCommand_log cmd w) as [->|[e ->]]; [trivial|].
  apply status_same; reflexivity.
Qed.

Ltac status_step :=
  match goal with
  | H : status_ok ?w |- status_ok ?w => exact H
  | |- status_ok (updateStatus _) => apply status_updateStatus
  | |- status_ok (sendCommand _ _) => apply status_sendCommand
  | |- status_ok (if ?b then _ else _) => destruct b
  | |- status_ok (match ?x with Some _ => _ | None => _ end) => destruct x
  | |- status_ok (?f ?x) =>
      apply (status_same x); [frame; reflexivity | frame; reflexivity
                             | frame; reflexivity |]
  end.

Lemma status_triggerAi (w : World) : status_ok w -> status_ok (triggerAi w).
Proof.
  intros H. unfold triggerAi. cbn zeta.
  destruct (game_over (game w)); [exact H|].
  assert (Hb : status_ok (set_gameStatus "AI is thinking..." (set_isThinking true w))).
  { right. split; reflexivity. }
  clear H. unfold setTimeout. repeat status_step.
Qed.

Lemma status_tryMove (from : option string) (to : string) (w : World) :
  status_ok w -> status_ok (snd (tryMove from to w)).
Proof.
  intros H. unfold tryMove.
  destruct (move (game w) (FromTo from to "q")); [|exact H].
  cbn [snd]. apply status_triggerAi, status_updateStatus.
Qed.

Lemma status_handleAiMove (bestMove : option string) (w : World) :
  status_ok w -> status_ok (handleAiMove bestMove w).
Proof.
  intros H. unfold handleAiMove. cbn zeta.
  destruct (negb (isThinking w)); [exact H|].
  destruct bestMove as [token|]; [destruct (JS.truthy (Some token) && _)|];
    apply status_updateStatus.
Qed.

Lemma status_handlePointerDown (square : string) (w : World) :
  status_ok w -> status_ok (handlePointerDown square w).
Proof.
  intros H. unfold handlePointerDown. destruct (isThinking w); [exact H|].
  assert (Hm : status_ok (snd (if JS.truthy (selectedSquare w) && negb (isDragging w)
                               then tryMove (selectedSquare w) square w
                               else (false, w)))).
  { destruct (_ && _); [apply status_tryMove|]; exact H. }
  destruct (if JS.truthy (selectedSquare w) && negb (isDragging w) then _ else _)
    as [moved w2].
  cbn [snd] in Hm. clear H. repeat status_step.
Qed.

Lemma status_handlePointerUp (target : option string) (w : World) :
  status_ok w -> status_ok (handlePointerUp target w).
Proof.
  intros H. unfold handlePointerUp. cbn zeta. status_step.
  set (w2 := if dragEndAttached _ then _ else _).
  assert (H2 : status_ok w2) by (subst w2; repeat status_step).
  destruct target as [to|]; [|exact H2].
  destruct (negb _); [apply status_tryMove|]; exact H2.
Qed.

Lemma status_iter (f : World -> World) (n : nat) (w : World) :
  (forall w1, status_ok w1 -> status_ok (f w1)) ->
  status_ok w -> status_ok (Nat.iter n f w).
Proof. intros Hf H. induction n; simpl; auto. Qed.

Lemma status_handleMessage (line : string) (w : World) :
  status_ok w -> status_ok (EngineManager_handleMessage line w).
Proof.
  intros H. unfold EngineManager_handleMessage, handleMessage. cbn zeta.
  set (w2 := if line =? "uciok" then _ else _).
  assert (H2 : status_ok w2).
  { subst w2. unfold onReadyCallback, statusCallback. repeat status_step. }
  destruct (JS.startsWith "bestmove" line); [apply status_handleAiMove|]; exact H2.
Qed.

Lemma status_switchToMainThread (w : World) :
  status_ok w -> status_ok (switchToMainThread statusCallback w).
Proof.
  intros H. unfold switchToMainThread, waitForStockfishModule, setInterval, statusCallback.
  cbn zeta. repeat status_step.
Qed.

Lemma status_step_ok (e : Event) (w : World) : status_ok w -> status_ok (step e w).
Proof.
  intros H.
  destruct e as [data| |[line|]|n rnd| | |square|target|h]; cbn [step].
  - destruct (engine w); [apply status_handleMessage|]; exact H.
  - destruct (engine w); [|exact H].
    unfold engine_onerror. apply status_switchToMainThread. repeat status_step.
  - apply status_iter; [apply status_handleMessage | exact H].
  - exact H.
  - unfold fire. destruct (nth_error (timers w) n) as [t|]; [|exact H].
    destruct (callback t) as [| |attempts].
    + unfold safetyTimeout. destruct (_ && _);
        [apply status_switchToMainThread|]; repeat status_step.
    + unfold makeRandomMove. cbn zeta. apply status_updateStatus.
    + unfold moduleCheck, initMainThread, statusCallback. cbn zeta.
      repeat status_step.
  - unfold newGame. destruct (isThinking w); [exact H|].
    cbn zeta. repeat status_step.
  - unfold undoMove. destruct (isThinking w); [exact H|].
    cbn zeta. apply status_updateStatus.
  - apply status_handlePointerDown, H.
  - destruct (pointerupListeners w); [exact H|].
    apply status_iter; [apply status_handlePointerUp | exact H].
  - repeat status_step.
Qed.

(** X15.  The status line is never stale: in every state the page
    reaches it shows what [updateStatus] would write for the current
    position, or, only while the thinking flag is set, that the engine is
    thinking. *)
Theorem status_line_invariant (h : Host) (level : string) (events : list Event) :
  let w := run events (new_ChessApp h level) in
  gameStatus w = status_text (game w)
  \/ (isThinking w = true /\ gameStatus w = "AI is thinking...").
Proof.
  intros w. subst w.
  assert (H0 : status_ok (new_ChessApp h level)).
  { unfold new_ChessApp. cbn zeta. apply status_updateStatus. }
  revert H0. generalize (new_ChessApp h level).
  induction events as [|e events IH]; intros w H; [exact H|].
  rewrite run_cons. apply IH, status_step_ok, H.
Qed.

(** ** While the engine thinks *)

(** X16.  While the thinking flag is set and no drag is pending, the page
    is deaf to the human: neither the two buttons nor any press or release
    changes anything at all. *)
Theorem frozen_while_thinking (w : World) :
  isThinking w = true -> pointerupListeners w = 0 ->
  forall events : list Event, forallb is_user events = true -> run events w = w.
Proof.
  intros Hth Hnone events. induction events as [|e events IH]; [reflexivity|].
  intros Hall. apply andb_prop in Hall. destruct Hall as [He Hrest].
  assert (Hstep : step e w = w).
  { destruct e; try discriminate He; cbn [step].
    - unfold newGame. rewrite Hth. reflexivity.
    - unfold undoMove. rewrite Hth. reflexivity.
    - unfold handlePointerDown. rewrite Hth. reflexivity.
    - rewrite Hnone. reflexivity. }
  rewrite run_cons, Hstep. apply IH, Hrest.
Qed.

Lemma triggerAi_keeps_thinking (w : World) :
  isThinking w = true -> isThinking (triggerAi w) = true.
Proof.
  intros H. unfold triggerAi. cbn zeta.
  destruct (game_over (game w)); [exact H|].
  destruct (isReady _); frame; reflexivity.
Qed.

Lemma tryMove_keeps_thinking (from : option string) (to : string) (w : World) :
  isThinking w = true -> isThinking (snd (tryMove from to w)) = true.
Proof.
  intros H. unfold tryMove.
  destruct (move (game w) (FromTo from to "q")); [|exact H].
  cbn [snd]. apply triggerAi_keeps_thinking. frame. exact H.
Qed.

Lemma handlePointerUp_keeps_thinking (target : option string) (w : World) :
  isThinking w = true -> isThinking (handlePointerUp target w) = true.
Proof.
  intros H. unfold handlePointerUp. cbn zeta. frame.
  set (w2 := if dragEndAttached _ then _ else _).
  assert (H2 : isThinking w2 = true).
  { subst w2. destruct (draggedVisual w); frame;
      destruct (dragEndAttached w); frame; exact H. }
  destruct target as [to|]; [|exact H2].
  destruct (negb _); [apply tryMove_keeps_thinking|]; exact H2.
Qed.

Lemma handleMessage_keeps_thinking (line : string) (w : World) :
  JS.startsWith "bestmove" line = false ->
  isThinking (EngineManager_handleMessage line w) = isThinking w.
Proof.
  intros Hline. unfold EngineManager_handleMessage, handleMessage. rewrite Hline.
  cbn zeta. destruct (line =? "uciok"); [destruct (negb (isReady w))|]; reflexivity.
Qed.

Lemma switchToMainThread_isThinking (w : World) :
  isThinking (switchToMainThread statusCallback w) = isThinking w.
Proof.
  unfold switchToMainThread, waitForStockfishModule, setInterval, statusCallback.
  cbn zeta. frame. destruct (isWorker w); [destruct (engine w)|]; reflexivity.
Qed.

(** X17.  Only two things end the thinking: a line that begins with
    ['bestmove'], from the worker or posted on [window], and the timer of
    the random fallback.  No other event clears the flag. *)
Theorem thinking_ends_by_reply_or_timer (e : Event) (w : World) :
  isThinking w = true -> isThinking (step e w) = false ->
  (exists line : string,
      (e = WorkerMessage line \/ e = WindowMessage (Some line))
      /\ JS.startsWith "bestmove" line = true)
  \/ (exists (n : nat) (rnd : Q) (t : Timer),
         e = TimerFires n rnd /\ nth_error (timers w) n = Some t
         /\ callback t = RandomMoveTimeout).
Proof.
  intros Hth Hend.
  destruct e as [data| |[line|]|n rnd| | |square|target|h]; cbn [step] in Hend.
  - destruct (JS.startsWith "bestmove" data) eqn:Hline.
    + left. exists data. split; [left; reflexivity | exact Hline].
    + exfalso. destruct (engine w); [|congruence].
      unfold engine_onmessage in Hend.
      change (handleMessage statusCallback onReadyCallback handleAiMove data w)
        with (EngineManager_handleMessage data w) in Hend.
      rewrite handleMessage_keeps_thinking in Hend by exact Hline. congruence.
  - exfalso. destruct (engine w); [|congruence].
    unfold engine_onerror in Hend. rewrite switchToMainThread_isThinking in Hend.
    frame. simpl in Hend. congruence.
  - destruct (JS.startsWith "bestmove" line) eqn:Hline.
    + left. exists line. split; [right; reflexivity | exact Hline].
    + exfalso.
      assert (Hk : forall k : nat,
                isThinking (Nat.iter k (EngineManager_handleMessage line) w) = true).
      { intros k. induction k as [|k IH]; [exact Hth|].
        rewrite Nat.iter_succ, handleMessage_keeps_thinking by exact Hline. exact IH. }
      rewrite Hk in Hend. discriminate Hend.
  - congruence.
  - unfold fire in Hend. destruct (nth_error (timers w) n) as [t|] eqn:Hnth; [|congruence].
    destruct (callback t) as [| |attempts] eqn:Hcb.
    + exfalso. unfold safetyTimeout in Hend.
      destruct (_ && _); [rewrite switchToMainThread_isThinking in Hend|];
        simpl in Hend; congruence.
    + right. exists n, rnd, t. repeat split; assumption.
    + exfalso. unfold moduleCheck, initMainThread, statusCallback in Hend.
      cbn zeta in Hend.
      destruct (_ || _); [|destruct (20 <? S attempts)%nat];
        autorewrite with frame in Hend; simpl in Hend; congruence.
  - unfold newGame in Hend. rewrite Hth in Hend. congruence.
  - unfold undoMove in Hend. rewrite Hth in Hend. congruence.
  - unfold handlePointerDown in Hend. rewrite Hth in Hend. congruence.
  - exfalso. destruct (pointerupListeners w); [congruence|].
    assert (Hk : forall k : nat,
              isThinking (Nat.iter k (handlePointerUp target) w) = true).
    { intros k. induction k as [|k IH]; [exact Hth|].
      rewrite Nat.iter_succ. apply handlePointerUp_keeps_thinking, IH. }
    rewrite Hk in Hend. discriminate Hend.
  - simpl in Hend. congruence.
Qed.

End Properties.

(** * The properties on the miniature engine *)

#[export] Instance Toy_laws : RulesEngineLaws Toy.engine.
Proof.
  constructor. intros g g' m H. simpl in H.
  destruct (Toy.accepts m); [|discriminate].
  injection H as <-. reflexivity.
Qed.

(** A reply that arrives after the engine's move has been played. *)
Lemma stale_reply_discarded_witness :
  isThinking Toy.replied = false
  /\ handleAiMove (Some "e7e5") Toy.replied = Toy.replied
  /\ EngineManager_handleMessage "bestmove e7e5 ponder g1f3" Toy.replied = Toy.replied.
Proof.
  destruct (stale_reply_discarded Toy.replied eq_refl) as [A B].
  split; [reflexivity|]. split; [apply A | apply B; reflexivity].
Defined.

Lemma command_dropped_before_ready_witness :
  isReady Toy.page = false /\ sendCommand "stop" Toy.page = Toy.page.
Proof.
  split; [reflexivity|].
  apply command_dropped_before_ready; [reflexivity | discriminate].
Defined.




(** After e2e4 and the reply e7e5, one undo restores the starting array. *)
Lemma undo_retracts_two_half_moves_witness :
  isThinking Toy.replied = false /\ game (undoMove Toy.replied) = new_Chess.
Proof.
  split; [reflexivity|].
  destruct (undo_retracts_two_half_moves Toy.replied eq_refl) as (_ & _ & H).
  apply (H new_Chess [FromTo (Some "e2") "e4" "q"]
           (FromTo (Some "e2") "e4" "q") (FromTo (Some "e7") "e5" ""));
    reflexivity.
Defined.

Lemma ready_callback_fires_once_witness :
  let w' :=
    run [WorkerError; ClickNewGame]
      (handleMessages
         (["info string loaded"; "uciok"] ++ ["uciok"; "bestmove e2e4"]) Toy.page) in
  readyFired Toy.page = 0 /\ isReady w' = true /\ readyFired w' = S (readyFired Toy.page).
Proof.
  split; [reflexivity|].
  apply (ready_callback_fires_once Toy.page ["info string loaded"; "uciok"] eq_refl).
  right. left. reflexivity.
Defined.

Lemma bestmove_decoded_and_applied_witness :
  let w' := EngineManager_handleMessage "bestmove e7e8q ponder a2a3" Toy.searching in
  isThinking w' = false
  /\ game w' = FromTo (Some "e7") "e8" "q" :: game Toy.searching.
Proof.
  intros w'.
  destruct (bestmove_decoded_and_applied Toy.searching "e7e8q" " ponder a2a3"
              eq_refl eq_refl eq_refl) as (_ & _ & A & _ & _ & _ & B).
  split; [exact A|].
  apply (B "e" "7" "e" "8" "q")%char. reflexivity.
Defined.


(** The rules engine that knows about the square a move has left. *)
#[export] Instance Strict_law : DepartureLaw Strict.engine.
Proof.
  constructor. intros g g' from to promotion H to' promotion'. simpl in *.
  destruct (Strict.accepts g (FromTo from to promotion)); [|discriminate].
  injection H as <-.
  unfold Strict.accepts.
  assert (E : JS.strict_eq from from = true).
  { destruct from as [sq|]; [apply String.eqb_refl | reflexivity]. }
  rewrite E, andb_false_r. reflexivity.
Qed.

(** Two pointers: e2 is pressed, then d2, and d2 is dragged to d4.  The
    engine thinks, and the listener of the first press is still on
    [document].  When the first pointer is released over d5, the handler
    asks for d2 to d5, and the rules engine refuses. *)
Lemma move_attempts_rejected_while_thinking_witness :
  let w :=
    deliver_all [Dispatched (WorkerMessage "uciok"); Dispatched (PointerDown "e2");
                 Dispatched (PointerDown "d2"); Dispatched (PointerUp (Some "d4"))]
      (@new_ChessApp Strict.engine Toy.browser "10") in
  isThinking w = true /\ pointerupListeners w = 1
  /\ dragStartSquare w = Some "d2"
  /\ tryMove (dragStartSquare w) "d5" w = (false, w)
  /\ untouched w (step (PointerUp (Some "d5")) w).
Proof.
  intros w.
  assert (T : isThinking w = true) by (vm_compute; reflexivity).
  destruct (@move_attempts_rejected_while_thinking Strict.engine Strict_law Toy.browser "10"
              [Dispatched (WorkerMessage "uciok"); Dispatched (PointerDown "e2");
               Dispatched (PointerDown "d2"); Dispatched (PointerUp (Some "d4"))] T)
    as (_ & A & B & _).
  split; [exact T|]. split; [vm_compute; reflexivity|]. split; [vm_compute; reflexivity|].
  split; [exact (A "d5") | exact (proj2 (B (Some "d5")))].
Defined.

(** C7.  The failing input: the worker answers the handshake, so that the
    race of [init()] is decided, and reports an error afterwards.  The
    2000 ms timer, late as well, does nothing.  The error takes effect: the
    worker is terminated and dropped, the mode flag is cleared and polling
    starts, while the engine still counts as ready.  On a page without an
    in-process engine the human's next move then starts a search that
    reaches no engine, with no timer for a random move: the engine's turn
    never ends.  The handlers hold no guard for the other order either:
    after the timer has started the fallback, the worker is terminated, but
    an error or a ['uciok'] of it that still reached its handler would start
    a second polling interval, or make the engine ready. *)
Theorem late_error_takes_effect :
  let w1 := run [WorkerMessage "uciok"] Toy.page in
  let w2 := step WorkerError w1 in
  let w3 := run [PointerDown "e2"; PointerUp (Some "e4")] w2 in
  let v1 := step (TimerFires 0 0%Q) Toy.page in
  (isReady w1 = true /\ isWorker w1 = true /\ engine w1 = Some StockfishWorker
   /\ engineStatus w1 = "Stockfish Ready (Worker)")
  /\ safetyTimeout statusCallback w1 = w1
  /\ (engine w2 = None /\ isWorker w2 = false /\ isReady w2 = true
      /\ engineStatus w2 = "Loading Main Thread Engine..."
      /\ effects w2
         = (effects w1 ++ [ConsoleWarn "Worker failed, falling back to main thread:";
                           WorkerTerminate])%list
      /\ timers w2 = (timers w1 ++ [poll_timer 0])%list)
  /\ (isThinking w3 = true
      /\ game w3 = [FromTo (Some "e2") "e4" "q"]
      /\ commands (effects w3) = commands (effects w2)
      /\ filter is_random_move (timers w3) = [])
  /\ (engine v1 = None /\ isWorker v1 = false /\ isReady v1 = false /\ polls v1 = 1
      /\ polls (deliver LateWorkerError v1) = 2
      /\ isReady (deliver (LateWorkerMessage "uciok") v1) = true).
Proof.
  vm_compute. repeat split; reflexivity.
Qed.

(** * The further properties on the miniature engines *)

(** * The further properties on the miniature engines *)

Lemma search_request_when_ready_witness :
  isThinking (triggerAi Toy.ready) = true
  /\ effects (triggerAi Toy.ready)
     = (effects Toy.ready
        ++ [PostMessage "position fen ply 0"; PostMessage "go depth 10 movetime 2500"])%list.
Proof.
  destruct (search_request_when_ready Toy.ready eq_refl eq_refl eq_refl)
    as (depth & _ & D & _ & A & _ & _ & B); [discriminate | reflexivity |].
  vm_compute in D. injection D as <-.
  split; [exact A | exact B].
Defined.

(** The first move mates: it is played and the engine is not asked. *)
Lemma final_move_asks_no_engine_witness :
  fst (@tryMove Endgame.engine (Some "e2") "e4" Endgame.page) = true
  /\ gameStatus (snd (@tryMove Endgame.engine (Some "e2") "e4" Endgame.page))
     = "White Wins!"
  /\ isThinking (snd (@tryMove Endgame.engine (Some "e2") "e4" Endgame.page)) = false.
Proof.
  destruct (@final_move_asks_no_engine Endgame.engine (Some "e2") "e4"
              [FromTo (Some "e2") "e4" "q"] Endgame.page eq_refl eq_refl)
    as (A & _ & B & C & _).
  split; [exact A|]. split; [exact B | exact C].
Defined.

Lemma sendCommand_delivery_witness :
  commands (effects (sendCommand "stop" Toy.ready))
  = (commands (effects Toy.ready) ++ ["stop"])%list
  /\ commands (effects (sendCommand "stop" Toy.page)) = commands (effects Toy.page).
Proof.
  assert (Hready : channel_ok Toy.ready) by (split; [discriminate | reflexivity]).
  assert (Hpage : channel_ok Toy.page) by (split; [discriminate | reflexivity]).
  destruct (sendCommand_delivery "stop" Toy.ready Hready) as [A _].
  destruct (sendCommand_delivery "stop" Toy.page Hpage) as [B _].
  split; [exact A|]. rewrite B. apply app_nil_r.
Defined.

Lemma reply_without_token_witness :
  isThinking (EngineManager_handleMessage "bestmove" Toy.searching) = false
  /\ game (EngineManager_handleMessage "bestmove  e7e5" Toy.searching)
     = game Toy.searching.
Proof.
  destruct (reply_without_token "bestmove" "e7e5" Toy.searching eq_refl eq_refl eq_refl
              "bestmove" (or_introl eq_refl)) as (A & _).
  destruct (reply_without_token "bestmove" "e7e5" Toy.searching eq_refl eq_refl eq_refl
              "bestmove  e7e5" (or_intror eq_refl)) as (_ & B & _).
  split; [exact A | exact B].
Defined.

(** The miniature engine rejects a move that goes nowhere. *)
Lemma rejected_reply_ends_search_witness :
  isThinking (handleAiMove (Some "e7e7") Toy.searching) = false
  /\ game (handleAiMove (Some "e7e7") Toy.searching) = game Toy.searching.
Proof.
  destruct (rejected_reply_ends_search "e7e7" Toy.searching eq_refl) as (A & B & _);
    [discriminate | discriminate | reflexivity |].
  split; [exact A | exact B].
Defined.

Lemma token_tail_ignored_witness :
  handleAiMove (Some "e7e8qxyz") Toy.searching
  = handleAiMove (Some "e7e8q") Toy.searching.
Proof.
  apply (token_tail_ignored "e" "7" "e" "8" "q" "xyz" Toy.searching). discriminate.
Defined.

Lemma release_without_move_witness :
  game (handlePointerUp None Toy.ready) = game Toy.ready
  /\ isDragging (handlePointerUp None Toy.ready) = false.
Proof.
  destruct (release_without_move None Toy.ready (or_introl eq_refl))
    as (A & _ & _ & _ & B & _).
  split; [exact A | exact B].
Defined.

Lemma click_selects_own_piece_witness :
  let w' := handlePointerUp (Some "e2") (handlePointerDown "e2" Toy.ready) in
  selectedSquare w' = Some "e2" /\ game w' = game Toy.ready
  /\ pointerupListeners w' = pointerupListeners Toy.ready.
Proof.
  destruct (click_selects_own_piece "e2" {| color := White; type := "p" |} Toy.ready
              eq_refl eq_refl eq_refl eq_refl) as (A & _ & _ & _ & B & _ & C & _).
  split; [exact A|]. split; [exact B | exact C].
Defined.


Lemma startup_state_witness :
  timers Toy.fallback = [poll_timer 0]
  /\ commands (effects Toy.fallback) = []
  /\ commands (effects Toy.page) = ["uci"].
Proof.
  destruct (@startup_state Toy.engine Toy.no_worker "10")
    as (_ & _ & _ & _ & _ & _ & _ & A).
  destruct (@startup_state Toy.engine Toy.browser "10")
    as (_ & _ & _ & _ & _ & _ & B & _).
  destruct (A eq_refl) as (_ & _ & A3 & A4 & _).
  destruct (B eq_refl) as (_ & _ & _ & B4 & _).
  split; [exact A3|]. split; [exact A4 | exact B4].
Defined.

Lemma polling_gives_up_after_21_ticks_witness :
  engineStatus (Nat.iter 20 (step (TimerFires 0 0%Q)) Toy.fallback)
  = engineStatus Toy.fallback
  /\ engineStatus (Nat.iter 21 (step (TimerFires 0 0%Q)) Toy.fallback)
     = "Engine Load Failed (Random Moves Only)"
  /\ timers (Nat.iter 21 (step (TimerFires 0 0%Q)) Toy.fallback) = [].
Proof.
  assert (Habsent : module_absent (host Toy.fallback)) by (split; reflexivity).
  destruct (polling_gives_up_after_21_ticks 0 0%Q Toy.fallback eq_refl Habsent) as [A B].
  destruct (A 20 (Nat.le_refl 20)) as (_ & _ & A3 & _).
  destruct B as (B1 & B2 & _).
  split; [exact A3|]. split; [exact B2 | exact B1].
Defined.

(** The in-process engine has loaded by the first tick; on the second
    page [StockfishModule] is [null] at that time. *)
Lemma in_process_handshake_witness :
  let w := run [HostChanges Toy.asm_build] Toy.fallback in
  let w1 := step (TimerFires 0 0%Q) w in
  let v := run [HostChanges Toy.null_module] Toy.fallback in
  let v1 := step (TimerFires 0 0%Q) v in
  commands (effects w1) = ["uci"]
  /\ engineStatus (step (WindowMessage (Some "uciok")) w1) = "Stockfish Ready (Main)"
  /\ commands (effects v1) = []
  /\ isReady (step (WindowMessage (Some "uciok")) v1) = true.
Proof.
  intros w w1 v v1.
  destruct (in_process_handshake 0 0 0%Q w eq_refl eq_refl eq_refl eq_refl eq_refl)
    as (_ & _ & _ & A & _ & _ & B & _).
  destruct (in_process_handshake 0 0 0%Q v eq_refl eq_refl eq_refl eq_refl eq_refl)
    as (_ & _ & _ & C & _ & D & _).
  split; [exact A|]. split; [exact B|]. split; [exact C | exact D].
Defined.

(** Readiness, an error of the worker, and the same error once more after
    the worker has been dropped. *)
Lemma adapter_invariant_witness :
  let w :=
    deliver_all [Dispatched (WorkerMessage "uciok"); Dispatched WorkerError;
                 LateWorkerError; Dispatched ClickNewGame]
      (@new_ChessApp Toy.engine Toy.browser "10") in
  (isWorker w = true <-> engine w <> None)
  /\ forallb (fun e => negb (posted_to_null e)) (effects (sendCommand "stop" w)) = true.
Proof.
  intros w.
  destruct (@adapter_invariant Toy.engine Toy.browser "10"
              [Dispatched (WorkerMessage "uciok"); Dispatched WorkerError;
               LateWorkerError; Dispatched ClickNewGame])
    as (A & _ & B).
  split; [exact A | exact (B "stop")].
Defined.

Lemma fallback_starts_at_most_once_witness :
  let w :=
    run [WorkerMessage "uciok"; WorkerError; TimerFires 0 0%Q; ClickNewGame] Toy.page in
  isWorker w = false /\ polls w + messageListeners w <= 1.
Proof.
  intros w. split; [reflexivity|].
  destruct (@fallback_starts_at_most_once Toy.engine Toy.browser "10"
              [WorkerMessage "uciok"; WorkerError; TimerFires 0 0%Q; ClickNewGame])
    as (_ & A & _).
  exact A.
Defined.

Lemma safety_timeout_guarded_witness :
  pending Toy.page
  /\ engine (safetyTimeout statusCallback Toy.page) = None
  /\ isWorker (safetyTimeout statusCallback Toy.page) = false
  /\ safetyTimeout statusCallback Toy.ready = Toy.ready
  /\ EngineManager_handleMessage "uciok" Toy.ready = Toy.ready
  /\ engine (engine_onerror statusCallback Toy.ready) = None.
Proof.
  assert (Hp : pending Toy.page).
  { split; [reflexivity|]. split; [reflexivity | discriminate]. }
  destruct (safety_timeout_guarded Toy.page) as (_ & A & _).
  destruct (safety_timeout_guarded Toy.ready) as (_ & _ & B & C & D).
  destruct (A Hp) as (A1 & A2 & _).
  destruct (D eq_refl) as (D1 & _); [discriminate|].
  split; [exact Hp|]. split; [exact A1|]. split; [exact A2|].
  split; [apply B; left; reflexivity|]. split; [apply C; reflexivity | exact D1].
Defined.

Lemma mode_never_reverts_witness :
  let w := run [WorkerError] Toy.page in
  isWorker w = false
  /\ isWorker (run [WorkerMessage "uciok"; ClickNewGame] w) = false
  /\ engine (run [WorkerMessage "uciok"; ClickNewGame] w) = None.
Proof.
  intros w. split; [reflexivity|].
  exact (@mode_never_reverts Toy.engine Toy.browser "10" [WorkerError]
           [WorkerMessage "uciok"; ClickNewGame] eq_refl).
Defined.

Lemma status_line_invariant_witness :
  let w :=
    run [WorkerMessage "uciok"; PointerDown "e2"; PointerUp (Some "e4");
         WorkerMessage "bestmove e7e5 ponder g1f3"] Toy.page in
  gameStatus w = status_text (game w)
  \/ (isThinking w = true /\ gameStatus w = "AI is thinking...").
Proof.
  exact (@status_line_invariant Toy.engine Toy.browser "10"
           [WorkerMessage "uciok"; PointerDown "e2"; PointerUp (Some "e4");
            WorkerMessage "bestmove e7e5 ponder g1f3"]).
Defined.

Lemma frozen_while_thinking_witness :
  run [ClickNewGame; ClickUndo; PointerDown "d2"; PointerUp (Some "d4")] Toy.searching
  = Toy.searching.
Proof.
  apply frozen_while_thinking; reflexivity.
Defined.

(** On the page whose engine never answered, the fallback timer ends the
    thinking. *)
Lemma thinking_ends_by_reply_or_timer_witness :
  (exists line : string,
      (TimerFires 1 (1 # 2)%Q = WorkerMessage line
       \/ TimerFires 1 (1 # 2)%Q = WindowMessage (Some line))
      /\ JS.startsWith "bestmove" line = true)
  \/ (exists (n : nat) (rnd : Q) (t : Timer),
         TimerFires 1 (1 # 2)%Q = TimerFires n rnd
         /\ nth_error (timers Toy.waiting) n = Some t
         /\ callback t = RandomMoveTimeout).
Proof.
  apply thinking_ends_by_reply_or_timer; reflexivity.
Defined.
